(** * CodeVault performance monitor: a shallow embedding of [backend/monitor.py]

    The monitor issues timed HTTP GETs, turns every outcome into a record
    (a Python dict), collects the successful records per retrieval kind and
    summarises their latencies.

    Modelling conventions.
    - Python [float]s are modelled by exact rationals ([Q]); rounding noise of
      binary floating point is outside the model.  [round(x, 2)] is rounding
      to the nearest hundredth, ties to the even hundredth, and always yields
      a rational written [k # 100].  The program rounds the binary float
      instead, so where the exact quantity lies half-way between two
      hundredths (or within float noise of that) the program may pick the
      other neighbour.  Statements about a rounded mean, quotient or square
      root are therefore made to the hundredth ([to_two_decimals]: a
      hundredth within half a hundredth of the exact quantity), which both
      the model and the program satisfy; a value that is already a hundredth
      is rounded to itself by both.
    - The plotting library and the file system are taken to do what they are
      asked: [plt.savefig] and [json.dump] succeed.  The image written by
      [plt.savefig] is recorded, with the figures drawn into it, under
      [charts]; [files] holds the JSON documents.
    - Python dicts are association lists in insertion order.
    - The outside world (HTTP servers, the wall clock) is an oracle [env]:
      the outcome of the n-th GET of the run and the clock readings taken
      just before and just after it.
    - Effects (requests issued, console lines, the results file, rendered
      charts, raised exceptions) are threaded through a state-and-exception
      monad [M]. *)

From Stdlib Require Import ZArith QArith Qround List String Ascii Bool Lia Lqa.
From Stdlib Require Reals Qreals Lra.
Import ListNotations.
Local Open Scope Z_scope.
Set Warnings "-register-all".

(** ** Numbers *)

Module Num.

Local Open Scope Q_scope.

Definition Qltb (x y : Q) : bool := negb (Qle_bool y x).

(** Nearest integer, ties to the even one (Python's rounding rule): the
    fractional part [x - floor x] is compared with one half. *)
Definition round_half_even (x : Q) : Z :=
  let q := Qfloor x in
  match Qcompare (2 * (x - inject_Z q)) 1 with
  | Lt => q
  | Gt => (q + 1)%Z
  | Eq => if Z.even q then q else (q + 1)%Z
  end.

(** [round(x, 2)] on a float, idealised: the exact quantity is rounded, not
    its binary representation.  The two agree except at (or within float
    noise of) a decimal tie. *)
Definition round2 (x : Q) : Q := round_half_even (x * 100) # 100.

(** [min(l)] and [max(l)] on a non-empty list: the first element is kept
    until a strictly smaller (larger) one is met. *)
Definition py_min (x : Q) (l : list Q) : Q :=
  fold_left (fun m y => if Qltb y m then y else m) l x.

Definition py_max (x : Q) (l : list Q) : Q :=
  fold_left (fun m y => if Qltb m y then y else m) l x.

Definition Qsum (l : list Q) : Q := fold_right Qplus 0 l.

Definition Qlen (l : list Q) : Q := inject_Z (Z.of_nat (List.length l)).

(** [statistics.mean]: the arithmetic mean, exact where the library returns
    the float nearest to it. *)
Definition mean (l : list Q) : Q := Qsum l / Qlen l.

(** Sum of squared deviations from the mean. *)
Definition sum_sq_dev (l : list Q) : Q :=
  Qsum (map (fun x => (x - mean l) * (x - mean l)) l).

(** [statistics.variance]: the sample variance (divisor n - 1). *)
Definition variance (l : list Q) : Q := sum_sq_dev l / (Qlen l - 1).

(** [statistics.pvariance]: the population variance (divisor n). *)
Definition pvariance (l : list Q) : Q := sum_sq_dev l / Qlen l.

(** [round(math.sqrt(v), 2)] for [v >= 0], computed exactly: the hundredth
    nearest to the real square root of [v], ties to even.  With
    [w = 10000 * v] and [m = floor (2 * sqrt w)], the root lies in
    [[m/2, (m+1)/2)]. *)
Definition round2_sqrt (v : Q) : Q :=
  let w := v * 10000 in
  let m := Z.sqrt (Qfloor (4 * w)) in
  let tie := andb (Z.odd m) (Qeq_bool (inject_Z (m * m)) (4 * w)) in
  let j := (m / 2)%Z in
  (if tie then (if Z.even j then j else j + 1)%Z else ((m + 1) / 2)%Z) # 100.

End Num.

Import Num.

(** ** Python values, dicts and exceptions *)

Local Open Scope string_scope.

Inductive value : Type :=
| VNone
| VBool (b : bool)
| VInt (z : Z)
| VFloat (q : Q)
| VStr (s : string)
| VList (l : list value)
| VDict (d : list (string * value)).

Definition dict : Type := list (string * value).

(** First binding of [k], as [d.get(k)] sees it. *)
Fixpoint dict_get (d : dict) (k : string) : option value :=
  match d with
  | [] => None
  | (k', v) :: d' => if String.eqb k k' then Some v else dict_get d' k
  end.

(** [d[k] = v]: overwrite the binding in place, or append a new one. *)
Fixpoint dict_set (d : dict) (k : string) (v : value) : dict :=
  match d with
  | [] => [(k, v)]
  | (k', v') :: d' =>
      if String.eqb k k' then (k', v) :: d' else (k', v') :: dict_set d' k v
  end.

(** Python truth value. *)
Definition truthy (v : value) : bool :=
  match v with
  | VNone => false
  | VBool b => b
  | VInt z => negb (z =? 0)%Z
  | VFloat q => negb (Qeq_bool q 0)
  | VStr s => negb (String.eqb s "")
  | VList l => match l with [] => false | _ => true end
  | VDict d => match d with [] => false | _ => true end
  end.

Definition type_name (v : value) : string :=
  match v with
  | VNone => "NoneType"
  | VBool _ => "bool"
  | VInt _ => "int"
  | VFloat _ => "float"
  | VStr _ => "str"
  | VList _ => "list"
  | VDict _ => "dict"
  end.

(** Exceptions: the [requests] library's own family, which two handlers
    single out, and every other [Exception] subclass (named by class). *)
Inductive exn : Type :=
| RequestException (msg : string)
| Exception (cls : string) (msg : string).

(** [str(e)] *)
Definition str_exn (e : exn) : string :=
  match e with
  | RequestException msg => msg
  | Exception _ msg => msg
  end.

(** ** The outside world *)

(** What the program reads of a [requests.Response]: [content] is the raw
    body, [text] its decoded form, [json] what [response.json()] does. *)
Record response : Type := {
  status_code : Z;
  content : string;
  text : string;
  json : exn + value
}.

Inductive reply : Type :=
| Responded (r : response)
| Failed (e : exn).

Record env : Type := {
  (** module globals, read from the process environment at import *)
  BACKEND_URL : string;
  IPFS_GATEWAY : string;
  HAS_MATPLOTLIB : bool;
  (** outcome of the n-th [requests.get] of the run (n from 0) *)
  requests_get_reply : nat -> reply;
  (** [time.time()] read just before and just after the n-th GET *)
  time_before : nat -> Q;
  time_after : nat -> Q;
  (** [datetime.now().isoformat()] *)
  datetime_now_isoformat : string;
  (** the builtin [int] applied to a [str] *)
  int_of_str : string -> option Z
}.

Record request : Type := { url : string; timeout : Z }.

(** Console lines that carry data or mark a decision; banners, rules and
    headings are not modelled. *)
Inductive message : Type :=
| MsgBackendOnline
| MsgBackendNon200
| MsgBackendOffline
| MsgBackendOfflineHint
| MsgTesting (target : string)
| MsgIteration (i : Z) (latency_ms : value) (speed_mbps : option value)
| MsgIterationFailed (i : Z) (error : value)
| MsgSummary (avg_ms min_ms max_ms : value)
| MsgResultsSaved (file : string)
| MsgGeneratingGraph
| MsgNoMatplotlib
| MsgGraphSaved (file : string)
| MsgNode (node_id agent peer_count : value)
| MsgPeer (i : Z) (peer_id address latency : value)
| MsgPeerInfoFailed (error : value)
| MsgBandwidth (label : string) (amount : Q).

(** The benchmark document: a dict with these four fixed keys. *)
Record results : Type := {
  timestamp : string;
  p2p_results : list dict;
  centralized_results : list dict;
  summary : dict
}.

(** What [generate_comparison_graph] hands to the plotting library. *)
Record chart : Type := {
  output_file : string;
  p2p_values : list value;
  central_values : list value;
  box_data : list (string * list value)
}.

Record state : Type := {
  requests : list request;          (** GETs issued so far, oldest first *)
  console : list message;           (** lines printed so far, oldest first *)
  files : list (string * results);  (** JSON documents written *)
  charts : list chart               (** image files written by [plt.savefig],
                                        each with what was drawn into it *)
}.

Definition initial_state : state :=
  {| requests := []; console := []; files := []; charts := [] |}.

(** ** The monad: state and exceptions *)

Inductive outcome (A : Type) : Type :=
| Ok (a : A)
| Raise (e : exn).

Arguments Ok {A} a.
Arguments Raise {A} e.

Definition M (A : Type) : Type := state -> outcome A * state.

Definition ret {A} (a : A) : M A := fun s => (Ok a, s).

Definition raise {A} (e : exn) : M A := fun s => (Raise e, s).

Definition bind {A B} (m : M A) (k : A -> M B) : M B :=
  fun s =>
    match m s with
    | (Ok a, s') => k a s'
    | (Raise e, s') => (Raise e, s')
    end.

Declare Scope py_scope.
Delimit Scope py_scope with py.
Notation "x <- c1 ;; c2" := (bind c1 (fun x => c2))
  (at level 61, c1 at next level, right associativity) : py_scope.
Notation "c1 ;; c2" := (bind c1 (fun _ => c2))
  (at level 61, right associativity) : py_scope.
Local Open Scope py_scope.

(** [try: body except ...: handler].  The handler answers [None] for an
    exception its [except] clause does not match; that one propagates. *)
Definition try_except {A} (body : M A) (handler : exn -> option (M A)) : M A :=
  fun s =>
    match body s with
    | (Ok a, s') => (Ok a, s')
    | (Raise e, s') =>
        match handler e with
        | Some h => h s'
        | None => (Raise e, s')
        end
    end.

(** A [for] loop that updates an accumulator. *)
Fixpoint for_each {A B} (l : list A) (acc : B) (body : B -> A -> M B) : M B :=
  match l with
  | [] => ret acc
  | x :: l' => acc' <- body acc x ;; for_each l' acc' body
  end.

Definition log_request (r : request) (s : state) : state :=
  {| requests := requests s ++ [r]; console := console s;
     files := files s; charts := charts s |}.

Definition log_line (m : message) (s : state) : state :=
  {| requests := requests s; console := console s ++ [m];
     files := files s; charts := charts s |}.

Definition log_file (file : string) (doc : results) (s : state) : state :=
  {| requests := requests s; console := console s;
     files := files s ++ [(file, doc)]; charts := charts s |}.

Definition log_chart (c : chart) (s : state) : state :=
  {| requests := requests s; console := console s;
     files := files s; charts := charts s ++ [c] |}.

Definition print (m : message) : M unit := fun s => (Ok tt, log_line m s).

(** [json.dump(doc, f, indent=2)] into a freshly opened [file]: the document
    as it is at this moment. *)
Definition write_json (file : string) (doc : results) : M unit :=
  fun s => (Ok tt, log_file file doc s).

(** The plotting calls up to [plt.savefig(output_file, ...)]: the image file
    is written under [output_file c].  The library is taken to accept the
    calls; what it does with them is not modelled. *)
Definition render_chart (c : chart) : M unit := fun s => (Ok tt, log_chart c s).

(** [range(n)] and [range(a, b)] *)
Definition range2 (a b : Z) : list Z :=
  map (fun i => a + Z.of_nat i)%Z (seq 0 (Z.to_nat (b - a))).

Definition range (n : Z) : list Z := range2 0 n.

(** ** Dynamically typed operations *)

(** [d[k]] on a dict *)
Definition getitem (d : dict) (k : string) : M value :=
  match dict_get d k with
  | Some v => ret v
  | None => raise (Exception "KeyError" ("'" ++ k ++ "'"))
  end.

(** [v.get(k, default)] on any value: only dicts have the method. *)
Definition py_get (v : value) (k : string) (default : value) : M value :=
  match v with
  | VDict d => ret (match dict_get d k with Some x => x | None => default end)
  | _ => raise (Exception "AttributeError"
                 ("'" ++ type_name v ++ "' object has no attribute 'get'"))
  end.

(** [v[:n]]; strings are taken to be ASCII, one character per byte. *)
Definition py_slice_to (v : value) (n : nat) : M value :=
  match v with
  | VStr s => ret (VStr (substring 0 n s))
  | VList l => ret (VList (firstn n l))
  | VDict _ => raise (Exception "TypeError" "unhashable type: 'slice'")
  | _ => raise (Exception "TypeError"
                 ("'" ++ type_name v ++ "' object is not subscriptable"))
  end.

(** Items met when iterating over a value. *)
Definition py_iter (v : value) : M (list value) :=
  match v with
  | VList l => ret l
  | VStr s => ret (map (fun c => VStr (String c EmptyString)) (list_ascii_of_string s))
  | VDict d => ret (map (fun kv => VStr (fst kv)) d)
  | _ => raise (Exception "TypeError"
                 ("'" ++ type_name v ++ "' object is not iterable"))
  end.

(** The number a value stands for in float arithmetic. *)
Definition as_float (v : value) : M Q :=
  match v with
  | VFloat q => ret q
  | VInt z => ret (inject_Z z)
  | VBool b => ret (if b then 1 else 0)%Q
  | _ => raise (Exception "TypeError"
                 ("unsupported operand type: '" ++ type_name v ++ "'"))
  end.

(** [a / b] in float arithmetic *)
Definition py_div (a b : Q) : M Q :=
  if Qeq_bool b 0 then raise (Exception "ZeroDivisionError" "float division by zero")
  else ret (a / b)%Q.

(** [round(v, 2)]: an int stays an int, a float is rounded. *)
Definition py_round2 (v : value) : M value :=
  match v with
  | VInt z => ret (VInt z)
  | VBool b => ret (VInt (if b then 1 else 0))
  | VFloat q => ret (VFloat (round2 q))
  | _ => raise (Exception "TypeError"
                 ("type " ++ type_name v ++ " doesn't define __round__ method"))
  end.

(** [int(v)] *)
Definition py_int (E : env) (v : value) : M Z :=
  match v with
  | VInt z => ret z
  | VBool b => ret (if b then 1 else 0)%Z
  | VFloat q => ret (Z.quot (Qnum q) (Zpos (Qden q)))
  | VStr s =>
      match int_of_str E s with
      | Some z => ret z
      | None => raise (Exception "ValueError"
                        ("invalid literal for int() with base 10: '" ++ s ++ "'"))
      end
  | _ => raise (Exception "TypeError"
                 ("int() argument must be a string, a bytes-like object or a real number, not '"
                  ++ type_name v ++ "'"))
  end.

(** [statistics.mean], [min], [max] and [round(statistics.stdev(l), 2)] on a
    list of floats, with the errors they raise on too short a list. *)
Definition statistics_mean (l : list Q) : M Q :=
  match l with
  | [] => raise (Exception "StatisticsError" "mean requires at least one data point")
  | _ => ret (mean l)
  end.

Definition min_ (l : list Q) : M Q :=
  match l with
  | [] => raise (Exception "ValueError" "min() iterable argument is empty")
  | x :: l' => ret (py_min x l')
  end.

Definition max_ (l : list Q) : M Q :=
  match l with
  | [] => raise (Exception "ValueError" "max() iterable argument is empty")
  | x :: l' => ret (py_max x l')
  end.

Definition round2_statistics_stdev (l : list Q) : M Q :=
  match l with
  | [] | [_] => raise (Exception "StatisticsError" "stdev requires at least two data points")
  | _ => ret (round2_sqrt (variance l))
  end.

(** ** The program *)

(** Where a reading of [time.time()] falls relative to the run's GETs. *)
Inductive clock_position : Type := Before | After.

(** [PUBLIC_TEST_URLS] *)
Definition PUBLIC_TEST_URLS : list string :=
  [ "https://raw.githubusercontent.com/nodejs/node/main/README.md";
    "https://raw.githubusercontent.com/facebook/react/main/README.md" ].

Definition len (s : string) : Z := Z.of_nat (String.length s).

Section Monitor.

Variable E : env.

(** [time.time()], taken before the next GET or after the last one. *)
Definition time_time (p : clock_position) : M Q :=
  fun s =>
    let n := List.length (requests s) in
    (Ok (match p with
         | Before => time_before E n
         | After => time_after E (Nat.pred n)
         end), s).

(** [requests.get(url, timeout=t)]: the request is recorded, then the world
    answers with a response or an exception. *)
Definition requests_get (u : string) (t : Z) : M response :=
  fun s =>
    let s' := log_request {| url := u; timeout := t |} s in
    match requests_get_reply E (List.length (requests s)) with
    | Responded r => (Ok r, s')
    | Failed e => (Raise e, s')
    end.

(** [response.json()] *)
Definition response_json (r : response) : M value :=
  match json r with
  | inr v => ret v
  | inl e => raise e
  end.

(** [measure_latency(url, timeout)]; the source's default timeout is 10. *)
Definition measure_latency (u : string) (t : Z) : M dict :=
  try_except
    (start_time <- time_time Before ;;
     response <- requests_get u t ;;
     end_time <- time_time After ;;
     let latency_ms := ((end_time - start_time) * 1000)%Q in
     ret [ ("url", VStr u);
           ("status", VInt (status_code response));
           ("latency_ms", VFloat (round2 latency_ms));
           ("size_bytes", VInt (len (content response)));
           ("success", VBool true) ])
    (fun e =>
       match e with
       | RequestException _ =>
           Some (ret [ ("url", VStr u);
                       ("error", VStr (str_exn e));
                       ("success", VBool false) ])
       | Exception _ _ => None
       end).

(** [measure_p2p_download(cid)] *)
Definition measure_p2p_download (cid : string) : M dict :=
  try_except
    (let u := BACKEND_URL E ++ "/api/benchmark/p2p/" ++ cid in
     start_time <- time_time Before ;;
     response <- requests_get u 60 ;;
     end_time <- time_time After ;;
     if (status_code response =? 200)%Z then
       data <- response_json response ;;
       size_bytes <- py_get data "bytes" (VInt 0) ;;
       speed_mbps <- py_get data "speedMbps" (VInt 0) ;;
       ret [ ("type", VStr "P2P");
             ("cid", VStr cid);
             ("latency_ms", VFloat (round2 ((end_time - start_time) * 1000)));
             ("size_bytes", size_bytes);
             ("speed_mbps", speed_mbps);
             ("success", VBool true) ]
     else
       ret [ ("type", VStr "P2P");
             ("success", VBool false);
             ("error", VStr (text response)) ])
    (fun e =>
       Some (ret [ ("type", VStr "P2P");
                   ("success", VBool false);
                   ("error", VStr (str_exn e)) ])).

(** [measure_centralized_download(url)] *)
Definition measure_centralized_download (u : string) : M dict :=
  try_except
    (start_time <- time_time Before ;;
     response <- requests_get u 60 ;;
     end_time <- time_time After ;;
     let duration := (end_time - start_time)%Q in
     let size_bytes := len (content response) in
     speed_mbps <-
       (if Qltb 0 duration then
          bits_per_s <- py_div (inject_Z (size_bytes * 8)) duration ;;
          mbps <- py_div bits_per_s 1000000 ;;
          ret (VFloat mbps)
        else ret (VInt 0)) ;;
     speed_rounded <- py_round2 speed_mbps ;;
     ret [ ("type", VStr "Centralized");
           ("url", VStr u);
           ("latency_ms", VFloat (round2 (duration * 1000)));
           ("size_bytes", VInt size_bytes);
           ("speed_mbps", speed_rounded);
           ("success", VBool true) ])
    (fun e =>
       Some (ret [ ("type", VStr "Centralized");
                   ("success", VBool false);
                   ("error", VStr (str_exn e)) ])).

(** [get_peer_info()] and [get_network_stats()] *)
Definition get_info (path failure : string) : M value :=
  try_except
    (response <- requests_get (BACKEND_URL E ++ path) 10 ;;
     if (status_code response =? 200)%Z then response_json response
     else ret (VDict [ ("success", VBool false); ("error", VStr failure) ]))
    (fun e =>
       Some (ret (VDict [ ("success", VBool false);
                          ("error", VStr (str_exn e)) ]))).

Definition get_peer_info : M value :=
  get_info "/api/ipfs/info" "Failed to get peer info".

Definition get_network_stats : M value :=
  get_info "/api/stats" "Failed to get stats".

(** One pass of the inner loop of [run_benchmark] over a P2P target. *)
Definition p2p_iteration (cid : string) (acc : list dict) (i : Z) : M (list dict) :=
  result <- measure_p2p_download cid ;;
  ok <- getitem result "success" ;;
  if truthy ok then
    let acc' := (acc ++ [result])%list in
    latency <- getitem result "latency_ms" ;;
    speed <- getitem result "speed_mbps" ;;
    print (MsgIteration (i + 1) latency (Some speed)) ;;
    ret acc'
  else
    print (MsgIterationFailed (i + 1)
             (match dict_get result "error" with
              | Some e => e
              | None => VStr "Unknown error"
              end)) ;;
    ret acc.

(** One pass of the inner loop of [run_benchmark] over a public URL. *)
Definition centralized_iteration (u : string) (acc : list dict) (i : Z) : M (list dict) :=
  result <- measure_centralized_download u ;;
  ok <- getitem result "success" ;;
  if truthy ok then
    let acc' := (acc ++ [result])%list in
    latency <- getitem result "latency_ms" ;;
    speed <- getitem result "speed_mbps" ;;
    print (MsgIteration (i + 1) latency (Some speed)) ;;
    ret acc'
  else
    print (MsgIterationFailed (i + 1)
             (match dict_get result "error" with
              | Some e => e
              | None => VStr "Unknown error"
              end)) ;;
    ret acc.

(** [[r["latency_ms"] for r in rs if r["success"]]] *)
Definition latencies_of (rs : list dict) : M (list value) :=
  for_each rs []
    (fun acc r =>
       ok <- getitem r "success" ;;
       if truthy ok then
         latency <- getitem r "latency_ms" ;;
         ret (acc ++ [latency])%list
       else ret acc).

(** The items of a list read as floats, as the statistics functions do. *)
Definition floats (vs : list value) : M (list Q) :=
  for_each vs [] (fun acc v => q <- as_float v ;; ret (acc ++ [q])%list).

(** The summary block of [run_benchmark], written once per kind there. *)
Definition summary_of (latencies : list value) : M dict :=
  xs <- floats latencies ;;
  avg <- statistics_mean xs ;;
  lo <- min_ xs ;;
  hi <- max_ xs ;;
  sd <- (if (1 <? Z.of_nat (List.length latencies))%Z
         then (q <- round2_statistics_stdev xs ;; ret (VFloat q))
         else ret (VInt 0)) ;;
  ret [ ("avg_latency_ms", VFloat (round2 avg));
        ("min_latency_ms", VFloat (round2 lo));
        ("max_latency_ms", VFloat (round2 hi));
        ("std_dev", sd) ].

(** [run_benchmark(p2p_cids, public_urls, iterations)]; the source's default
    for [iterations] is 3. *)
Definition run_benchmark (p2p_cids public_urls : list string) (iterations : Z)
  : M results :=
  p2p <- for_each p2p_cids []
           (fun acc cid =>
              print (MsgTesting (substring 0 20 cid)) ;;
              for_each (range iterations) acc (p2p_iteration cid)) ;;
  central <- for_each public_urls []
               (fun acc u =>
                  print (MsgTesting (substring 0 50 u)) ;;
                  for_each (range iterations) acc (centralized_iteration u)) ;;
  p2p_latencies <- latencies_of p2p ;;
  central_latencies <- latencies_of central ;;
  summary1 <- (if truthy (VList p2p_latencies)
               then (entry <- summary_of p2p_latencies ;;
                     ret (dict_set [] "p2p" (VDict entry)))
               else ret []) ;;
  summary2 <- (if truthy (VList central_latencies)
               then (entry <- summary_of central_latencies ;;
                     ret (dict_set summary1 "centralized" (VDict entry)))
               else ret summary1) ;;
  ret {| timestamp := datetime_now_isoformat E;
         p2p_results := p2p;
         centralized_results := central;
         summary := summary2 |}.

(** [v[k]] with a string key *)
Definition py_getitem (v : value) (k : string) : M value :=
  match v with
  | VDict d => getitem d k
  | VList _ => raise (Exception "TypeError"
                        "list indices must be integers or slices, not str")
  | VStr _ => raise (Exception "TypeError"
                       "string indices must be integers, not 'str'")
  | _ => raise (Exception "TypeError"
                 ("'" ++ type_name v ++ "' object is not subscriptable"))
  end.

Definition nonempty {A} (l : list A) : bool :=
  match l with [] => false | _ => true end.

(** [[r["latency_ms"] for r in rs if r.get("success")]] *)
Definition chart_latencies (rs : list dict) : M (list value) :=
  for_each rs []
    (fun acc r =>
       if truthy (match dict_get r "success" with Some v => v | None => VNone end)
       then (latency <- getitem r "latency_ms" ;; ret (acc ++ [latency])%list)
       else ret acc).

(** [generate_comparison_graph(results, output_file)]: the figures handed to
    the plotting library are recorded; drawing itself is not modelled. *)
Definition generate_comparison_graph (res : results) (out : string) : M unit :=
  if negb (HAS_MATPLOTLIB E) then print MsgNoMatplotlib
  else
    p2p_summary <- py_get (VDict (summary res)) "p2p" (VDict []) ;;
    central_summary <- py_get (VDict (summary res)) "centralized" (VDict []) ;;
    p_avg <- py_get p2p_summary "avg_latency_ms" (VInt 0) ;;
    p_min <- py_get p2p_summary "min_latency_ms" (VInt 0) ;;
    p_max <- py_get p2p_summary "max_latency_ms" (VInt 0) ;;
    c_avg <- py_get central_summary "avg_latency_ms" (VInt 0) ;;
    c_min <- py_get central_summary "min_latency_ms" (VInt 0) ;;
    c_max <- py_get central_summary "max_latency_ms" (VInt 0) ;;
    p2p_latencies <- chart_latencies (p2p_results res) ;;
    central_latencies <- chart_latencies (centralized_results res) ;;
    render_chart
      {| output_file := out;
         p2p_values := [p_avg; p_min; p_max];
         central_values := [c_avg; c_min; c_max];
         box_data :=
           ((if nonempty p2p_latencies then [("P2P (IPFS)", p2p_latencies)] else [])
            ++ (if nonempty central_latencies
                then [("Centralized", central_latencies)] else []))%list |} ;;
    print (MsgGraphSaved out).

(** The peer lines of the dashboard: [for i, peer in enumerate(peers[:5], 1)] *)
Definition print_peer (i : Z) (peer : value) : M Z :=
  peer_id <- py_get peer "peerId" (VStr "N/A") ;;
  peer_id20 <- py_slice_to peer_id 20 ;;
  address <- py_get peer "address" (VStr "N/A") ;;
  latency <- py_get peer "latency" (VStr "N/A") ;;
  print (MsgPeer i peer_id20 address latency) ;;
  ret (i + 1)%Z.

(** One bandwidth line: [int(bw.get(key, 0)) / divisor] *)
Definition print_bandwidth (bw : value) (label key : string) (divisor : Q) : M unit :=
  v <- py_get bw key (VInt 0) ;;
  n <- py_int E v ;;
  print (MsgBandwidth label (inject_Z n / divisor)).

(** [print_network_dashboard()] *)
Definition print_network_dashboard : M unit :=
  peer_info <- get_peer_info ;;
  ok <- py_get peer_info "success" VNone ;;
  (if truthy ok then
     node_id <- py_get peer_info "nodeId" (VStr "N/A") ;;
     node_id20 <- py_slice_to node_id 20 ;;
     agent <- py_get peer_info "agentVersion" (VStr "N/A") ;;
     peer_count <- py_get peer_info "peerCount" (VInt 0) ;;
     print (MsgNode node_id20 agent peer_count) ;;
     peers <- py_get peer_info "peers" (VList []) ;;
     if truthy peers then
       first5 <- py_slice_to peers 5 ;;
       items <- py_iter first5 ;;
       _ <- for_each items 1%Z print_peer ;;
       ret tt
     else ret tt
   else
     err <- py_get peer_info "error" (VStr "Unknown error") ;;
     print (MsgPeerInfoFailed err)) ;;
  stats <- get_network_stats ;;
  ok <- py_get stats "success" VNone ;;
  if truthy ok then
    bw <- py_get stats "bandwidth" (VDict []) ;;
    print_bandwidth bw "Total In" "totalIn" (1024 * 1024) ;;
    print_bandwidth bw "Total Out" "totalOut" (1024 * 1024) ;;
    print_bandwidth bw "Rate In" "rateIn" 1024 ;;
    print_bandwidth bw "Rate Out" "rateOut" 1024
  else ret tt.

(** One pass of the sampling loop of [main]: failures are dropped silently. *)
Definition main_iteration (u : string) (acc : list dict) (i : Z) : M (list dict) :=
  result <- measure_centralized_download u ;;
  ok <- getitem result "success" ;;
  if truthy ok then
    let acc' := (acc ++ [result])%list in
    latency <- getitem result "latency_ms" ;;
    print (MsgIteration (i + 1) latency None) ;;
    ret acc'
  else ret acc.

(** [v * c] and [v + c] with a float result *)
Definition py_mul_float (v : value) (c : Q) : M value :=
  q <- as_float v ;; ret (VFloat (q * c)).

Definition py_add_float (v : value) (c : Q) : M value :=
  q <- as_float v ;; ret (VFloat (q + c)).

(** The mock P2P figures of demo mode, made from the centralized summary. *)
Definition mock_p2p_summary (summ : dict) : M dict :=
  central <- getitem summ "centralized" ;;
  c_avg <- py_getitem central "avg_latency_ms" ;;
  avg <- py_mul_float c_avg (3 # 10) ;;
  central <- getitem summ "centralized" ;;
  c_min <- py_getitem central "min_latency_ms" ;;
  lo <- py_mul_float c_min (2 # 10) ;;
  central <- getitem summ "centralized" ;;
  c_max <- py_getitem central "max_latency_ms" ;;
  hi <- py_mul_float c_max (4 # 10) ;;
  ret [ ("avg_latency_ms", avg); ("min_latency_ms", lo); ("max_latency_ms", hi) ].

(** The mock P2P samples: [avg + i*5 for i in range(-2, 3)] *)
Definition mock_p2p_results (summ : dict) : M (list dict) :=
  for_each (range2 (-2) 3) []
    (fun acc i =>
       p2p <- getitem summ "p2p" ;;
       avg <- py_getitem p2p "avg_latency_ms" ;;
       latency <- py_add_float avg (inject_Z (i * 5)) ;;
       ret (acc ++ [[ ("success", VBool true); ("latency_ms", latency) ]])%list).

(** [main()] after the health check let it through. *)
Definition main_body : M unit :=
  print_network_dashboard ;;
  central <- for_each PUBLIC_TEST_URLS []
               (fun acc u =>
                  print (MsgTesting (substring 0 50 u)) ;;
                  for_each (range 3) acc (main_iteration u)) ;;
  latencies <- latencies_of central ;;
  summ <- (if truthy (VList latencies) then
             xs <- floats latencies ;;
             avg <- statistics_mean xs ;;
             lo <- min_ xs ;;
             hi <- max_ xs ;;
             let entry := [ ("avg_latency_ms", VFloat (round2 avg));
                            ("min_latency_ms", VFloat (round2 lo));
                            ("max_latency_ms", VFloat (round2 hi)) ] in
             print (MsgSummary (VFloat (round2 avg)) (VFloat (round2 lo))
                      (VFloat (round2 hi))) ;;
             ret (dict_set [] "centralized" (VDict entry))
           else ret []) ;;
  let res := {| timestamp := datetime_now_isoformat E;
                p2p_results := [];
                centralized_results := central;
                summary := summ |} in
  write_json "benchmark_results.json" res ;;
  print (MsgResultsSaved "benchmark_results.json") ;;
  if HAS_MATPLOTLIB E && nonempty central then
    print MsgGeneratingGraph ;;
    mock <- mock_p2p_summary summ ;;
    let summ' := dict_set summ "p2p" (VDict mock) in
    mock_samples <- mock_p2p_results summ' ;;
    generate_comparison_graph
      {| timestamp := timestamp res;
         p2p_results := mock_samples;
         centralized_results := central;
         summary := summ' |}
      "benchmark_results.png"
  else ret tt.

(** [main()] *)
Definition main : M unit :=
  proceed <-
    try_except
      (response <- requests_get (BACKEND_URL E ++ "/api/health") 5 ;;
       (if (status_code response =? 200)%Z
        then print MsgBackendOnline
        else print MsgBackendNon200) ;;
       ret true)
      (fun e =>
         match e with
         | RequestException _ =>
             Some (print MsgBackendOffline ;;
                   print MsgBackendOfflineHint ;;
                   ret false)
         | Exception _ _ => None
         end) ;;
  if proceed then main_body else ret tt.

End Monitor.

(** ** Closed forms

    What each sampler returns is a function of the world and of the index
    of the GET it issues; the lemmas below prove these forms equal to the
    monadic code above. *)

Definition failure_record (kind error : string) : dict :=
  [ ("type", VStr kind); ("success", VBool false); ("error", VStr error) ].

(** Seconds elapsed around the n-th GET, and the latency reported for it. *)
Definition elapsed (E : env) (n : nat) : Q := (time_after E n - time_before E n)%Q.

Definition latency_at (E : env) (n : nat) : Q := round2 (elapsed E n * 1000).

Definition p2p_success (E : env) (cid : string) (n : nat) (d : dict) : dict :=
  [ ("type", VStr "P2P");
    ("cid", VStr cid);
    ("latency_ms", VFloat (latency_at E n));
    ("size_bytes", match dict_get d "bytes" with Some v => v | None => VInt 0 end);
    ("speed_mbps", match dict_get d "speedMbps" with Some v => v | None => VInt 0 end);
    ("success", VBool true) ].

Definition p2p_record (E : env) (cid : string) (n : nat) : dict :=
  match requests_get_reply E n with
  | Failed e => failure_record "P2P" (str_exn e)
  | Responded r =>
      if (status_code r =? 200)%Z then
        match json r with
        | inl e => failure_record "P2P" (str_exn e)
        | inr (VDict d) => p2p_success E cid n d
        | inr v => failure_record "P2P"
                     ("'" ++ type_name v ++ "' object has no attribute 'get'")
        end
      else failure_record "P2P" (text r)
  end.

Definition speed_at (E : env) (n : nat) (r : response) : value :=
  if Qltb 0 (elapsed E n)
  then VFloat (round2 (inject_Z (len (content r) * 8) / elapsed E n / 1000000))
  else VInt 0.

Definition centralized_success (E : env) (u : string) (n : nat) (r : response) : dict :=
  [ ("type", VStr "Centralized");
    ("url", VStr u);
    ("latency_ms", VFloat (latency_at E n));
    ("size_bytes", VInt (len (content r)));
    ("speed_mbps", speed_at E n r);
    ("success", VBool true) ].

Definition centralized_record (E : env) (u : string) (n : nat) : dict :=
  match requests_get_reply E n with
  | Failed e => failure_record "Centralized" (str_exn e)
  | Responded r => centralized_success E u n r
  end.

(** [result["success"]] read as a condition *)
Definition succeeded (r : dict) : bool :=
  match dict_get r "success" with
  | Some v => truthy v
  | None => false
  end.

(** The latency a record carries. *)
Definition sample_latency (r : dict) : Q :=
  match dict_get r "latency_ms" with
  | Some (VFloat q) => q
  | _ => 0%Q
  end.

(** Every record a sampler produces for the targets in turn, [k] calls per
    target, the first call issuing GET number [n]. *)
Fixpoint sample_targets (record : string -> nat -> dict) (targets : list string)
    (k n : nat) : list dict :=
  match targets with
  | [] => []
  | t :: ts => map (record t) (seq n k) ++ sample_targets record ts k (n + k)
  end.

(** The summary entry of a kind with latencies [x :: xs]. *)
Definition summary_entry (x : Q) (xs : list Q) : dict :=
  [ ("avg_latency_ms", VFloat (round2 (mean (x :: xs))));
    ("min_latency_ms", VFloat (round2 (py_min x xs)));
    ("max_latency_ms", VFloat (round2 (py_max x xs)));
    ("std_dev", match xs with
                | [] => VInt 0
                | _ => VFloat (round2_sqrt (variance (x :: xs)))
                end) ].

Definition summary_for (kind : string) (latencies : list Q) : dict :=
  match latencies with
  | [] => []
  | x :: xs => [ (kind, VDict (summary_entry x xs)) ]
  end.

(** The GET a download sampler issues for a target. *)
Definition p2p_request (E : env) (cid : string) : request :=
  {| url := BACKEND_URL E ++ "/api/benchmark/p2p/" ++ cid; timeout := 60 |}.

Definition centralized_request (u : string) : request :=
  {| url := u; timeout := 60 |}.

(** The samples [run_benchmark] keeps when its first GET is number [n]. *)
Definition kept_p2p (E : env) (cids : list string) (iterations : Z) (n : nat)
  : list dict :=
  filter succeeded (sample_targets (p2p_record E) cids (Z.to_nat iterations) n).

Definition kept_centralized (E : env) (urls : list string) (iterations : Z)
    (n : nat) : list dict :=
  filter succeeded
    (sample_targets (centralized_record E) urls (Z.to_nat iterations) n).

Definition latencies (rs : list dict) : list Q := map sample_latency rs.

(** [main] in closed form: its requests, the document it saves and the chart
    it draws, for the centralized samples [C] it kept. *)
Definition health_request (E : env) : request :=
  {| url := BACKEND_URL E ++ "/api/health"; timeout := 5 |}.

Definition sampling_requests : list request :=
  flat_map (fun u => repeat (centralized_request u) 3) PUBLIC_TEST_URLS.

(** The console line the health probe's answer earns. *)
Definition health_notice (r : response) : message :=
  if (status_code r =? 200)%Z then MsgBackendOnline else MsgBackendNon200.

(** The state in which [main] enters the dashboard after the answer [r]. *)
Definition past_gate (E : env) (r : response) (s : state) : state :=
  log_line (health_notice r) (log_request (health_request E) s).

Definition main_entry (x : Q) (xs : list Q) : dict :=
  [ ("avg_latency_ms", VFloat (round2 (mean (x :: xs))));
    ("min_latency_ms", VFloat (round2 (py_min x xs)));
    ("max_latency_ms", VFloat (round2 (py_max x xs))) ].

Definition main_summary (D : list Q) : dict :=
  match D with
  | [] => []
  | x :: xs => [ ("centralized", VDict (main_entry x xs)) ]
  end.

Definition main_document (E : env) (C : list dict) : results :=
  {| timestamp := datetime_now_isoformat E;
     p2p_results := [];
     centralized_results := C;
     summary := main_summary (latencies C) |}.

Definition mock_entry (x : Q) (xs : list Q) : dict :=
  [ ("avg_latency_ms", VFloat (round2 (mean (x :: xs)) * (3 # 10)));
    ("min_latency_ms", VFloat (round2 (py_min x xs) * (2 # 10)));
    ("max_latency_ms", VFloat (round2 (py_max x xs) * (4 # 10))) ].

Definition mock_samples (x : Q) (xs : list Q) : list dict :=
  map (fun i => [ ("success", VBool true);
                  ("latency_ms",
                   VFloat (round2 (mean (x :: xs)) * (3 # 10) + inject_Z (i * 5))) ])
    (range2 (-2) 3).

Definition mock_chart (x : Q) (xs : list Q) : chart :=
  {| output_file := "benchmark_results.png";
     p2p_values := map snd (mock_entry x xs);
     central_values := map snd (main_entry x xs);
     box_data :=
       [ ("P2P (IPFS)", map (fun r => VFloat (sample_latency r)) (mock_samples x xs));
         ("Centralized", map VFloat (x :: xs)) ] |}.

Definition main_charts (E : env) (D : list Q) : list chart :=
  match D with
  | [] => []
  | x :: xs => if HAS_MATPLOTLIB E then [mock_chart x xs] else []
  end.

(** ** The claims of the specification, as stated *)

(** [main], run from [s], halts at the health gate: it prints the offline
    notice and issues no GET beyond the probe. *)
Definition halts_offline (E : env) (s : state) : Prop :=
  exists s',
    main E s = (Ok tt, s') /\
    In MsgBackendOffline (console s') /\
    requests s' = (requests s ++ [health_request E])%list.

(** A sampler record that reports failure and explains it. *)
Definition explained_failure (r : dict) : Prop :=
  dict_get r "success" = Some (VBool false) /\
  exists msg, dict_get r "error" = Some (VStr msg) /\ msg <> "".

(** A value that is a non-negative number. *)
Definition nonnegative (v : value) : Prop :=
  match v with
  | VInt z => (0 <= z)%Z
  | VFloat q => (0 <= q)%Q
  | _ => False
  end.

(** A success record with latency and size at least zero. *)
Definition nonnegative_sample (r : dict) : Prop :=
  (exists v, dict_get r "latency_ms" = Some v /\ nonnegative v) /\
  (exists v, dict_get r "size_bytes" = Some v /\ nonnegative v).

(** A float with at most two decimals. *)
Definition hundredth (q : Q) : Prop := exists k : Z, q = k # 100.

(** [q] is [x] to two decimals: a hundredth within half a hundredth of [x]. *)
Definition to_two_decimals (x q : Q) : Prop :=
  hundredth q /\ (x - (1 # 200) <= q)%Q /\ (q <= x + (1 # 200))%Q.

(** The number a value shows, if it is one. *)
Definition number (v : value) : option Q :=
  match v with
  | VInt z => Some (inject_Z z)
  | VFloat q => Some q
  | _ => None
  end.

(** The throughput the specification gives a centralized sample of [size]
    bytes that took [d] seconds: 0 when [d] is 0, and otherwise
    [size * 8 / d / 1_000_000] to two decimals. *)
Definition throughput_as_stated (size : Z) (d : Q) (v : value) : Prop :=
  exists q, number v = Some q /\
    if Qeq_bool d 0 then (q == 0)%Q
    else to_two_decimals (inject_Z (size * 8) / d / 1000000) q.

(** [k # 100] is a hundredth nearest to the square root of [v], said with
    integers: [k - 1/2 <= 100 * sqrt v <= k + 1/2], squared. *)
Definition nearest_hundredth_to_sqrt (v : Q) (k : Z) : Prop :=
  (0 <= k)%Z /\
  ((1 <= k)%Z -> (inject_Z ((2 * k - 1) * (2 * k - 1)) <= 40000 * v)%Q) /\
  (40000 * v <= inject_Z ((2 * k + 1) * (2 * k + 1)))%Q.

Module RealView.

Import Reals Qreals.
Local Open Scope R_scope.

(** The same, said with the real square root: [q] is within half a
    hundredth of [sqrt v]. *)
Definition rounds_sqrt (v q : Q) : Prop :=
  Rabs (Q2R q - sqrt (Q2R v)) <= 1 / 200.

End RealView.

(** [q] is the population standard deviation of [l], exactly or to two
    decimals. *)
Definition population_stdev (l : list Q) (q : Q) : Prop :=
  (0 <= q /\ q * q == pvariance l)%Q \/ q = round2_sqrt (pvariance l).

(** The computation returns a failure record whose error text is [msg]. *)
Definition reports_failure (m : M dict) (s : state) (msg : string) : Prop :=
  exists rec s',
    m s = (Ok rec, s') /\
    dict_get rec "success" = Some (VBool false) /\
    dict_get rec "error" = Some (VStr msg).

(** The computation returns normally. *)
Definition returns {A : Type} (m : M A) (s : state) : Prop :=
  exists a s', m s = (Ok a, s').

Definition minimum_of (l : list Q) (m : Q) : Prop :=
  In m l /\ forall y, In y l -> (m <= y)%Q.

Definition maximum_of (l : list Q) (m : Q) : Prop :=
  In m l /\ forall y, In y l -> (y <= m)%Q.

(** The standard-deviation field of a summary entry over the latencies [D]:
    the sample standard deviation (divisor n - 1) to two decimals when there
    are at least two, the integer 0 when there is one. *)
Definition sample_std_dev (D : list Q) (entry : dict) : Prop :=
  match D with
  | [] => False
  | [_] => dict_get entry "std_dev" = Some (VInt 0)
  | _ => exists k : Z,
           dict_get entry "std_dev" = Some (VFloat (k # 100)) /\
           nearest_hundredth_to_sqrt (variance D) k /\
           RealView.rounds_sqrt (variance D) (k # 100)
  end.

(** What the summary mapping holds for a kind whose successful latencies are
    [D]: nothing when [D] is empty, else the mean to two decimals, the exact
    minimum and maximum, and the standard deviation as above. *)
Definition summarises (D : list Q) (summ : dict) (kind : string) : Prop :=
  match D with
  | [] => dict_get summ kind = None
  | _ => exists entry avg lo hi,
           dict_get summ kind = Some (VDict entry) /\
           dict_get entry "avg_latency_ms" = Some (VFloat avg) /\
           to_two_decimals (mean D) avg /\
           dict_get entry "min_latency_ms" = Some (VFloat lo) /\
           minimum_of D lo /\
           dict_get entry "max_latency_ms" = Some (VFloat hi) /\
           maximum_of D hi /\
           sample_std_dev D entry
  end.

(** ** Vocabulary of the proofs *)

(** [s'] is [s] after the GETs [reqs], in that order, and after some console
    lines, none of them the offline notice; files and charts are the same. *)
Definition extends (s s' : state) (reqs : list request) : Prop :=
  requests s' = (requests s ++ reqs)%list /\
  files s' = files s /\
  charts s' = charts s /\
  exists lines, console s' = (console s ++ lines)%list /\
                ~ In MsgBackendOffline lines.

(** A computation that, however it ends, only issues GETs and prints lines
    other than the offline notice. *)
Definition quiet {A : Type} (m : M A) : Prop :=
  forall s o s', m s = (o, s') -> exists reqs, extends s s' reqs.

(** A record kept by the sampling loops: flagged successful, with a latency of
    at most two decimals. *)
Definition success_sample (r : dict) : Prop :=
  dict_get r "success" = Some (VBool true) /\
  exists k : Z, dict_get r "latency_ms" = Some (VFloat (k # 100)).

(** The two shapes of a record a download sampler returns. *)
Definition sampler_record (r : dict) : Prop :=
  (exists kind msg, r = failure_record kind msg) \/
  (success_sample r /\ exists speed, dict_get r "speed_mbps" = Some speed).

(** A loop body that takes one sample with one GET and keeps it if it
    succeeded. *)
Definition takes_sample (body : list dict -> Z -> M (list dict))
    (record : nat -> dict) (req : request) : Prop :=
  forall acc i s,
    let r := record (List.length (requests s)) in
    exists s',
      body acc i s = (Ok (if succeeded r then (acc ++ [r])%list else acc), s') /\
      extends s s' [req].

(** ** Sample worlds *)

Definition body_response (code : Z) (body : string) (parsed : exn + value) : response :=
  {| status_code := code; content := body; text := body; json := parsed |}.

Definition not_json : exn + value :=
  inl (Exception "JSONDecodeError" "Expecting value: line 1 column 1 (char 0)").

(** A world whose GETs are answered from a list, then by [rest], and where
    the n-th GET takes [took n] seconds. *)
Definition world (replies : list reply) (rest : reply) (took : nat -> Q)
    (plots : bool) : env :=
  {| BACKEND_URL := "http://localhost:3001";
     IPFS_GATEWAY := "http://127.0.0.1:8080";
     HAS_MATPLOTLIB := plots;
     requests_get_reply := fun n => nth n replies rest;
     time_before := fun n => inject_Z (Z.of_nat n);
     time_after := fun n => (inject_Z (Z.of_nat n) + took n)%Q;
     datetime_now_isoformat := "2024-01-01T00:00:00";
     int_of_str := fun _ => None |}.

Definition page : reply := Responded (body_response 200 "hello" not_json).

(** Every GET is answered 200 and takes 100 ms. *)
Definition steady_world : env := world [] page (fun _ => 1 # 10)%Q true.

(** Every GET is answered 200 with a five-byte body after 10 microseconds. *)
Definition fast_world : env := world [] page (fun _ => 1 # 100000)%Q true.

(** The health probe is answered 503, everything else 200. *)
Definition unhealthy_world : env :=
  world [Responded (body_response 503 "Service Unavailable" not_json)] page
    (fun _ => 1 # 10)%Q true.

(** The backend cannot be reached. *)
Definition offline_world : env :=
  world [] (Failed (RequestException "Connection refused")) (fun _ => 1 # 10)%Q true.

(** The P2P endpoint answers 500 with an empty body. *)
Definition silent_error_world : env :=
  world [] (Responded (body_response 500 "" not_json)) (fun _ => 1 # 10)%Q true.

(** A key or string of a JSON text, in its double quotes. *)
Definition quoted (s : string) : string :=
  let q := String (ascii_of_nat 34) EmptyString in q ++ s ++ q.

(** The P2P endpoint answers 200 and reports a negative byte count. *)
Definition negative_bytes_world : env :=
  world []
    (Responded (body_response 200
       ("{" ++ quoted "bytes" ++ ": -1, " ++ quoted "speedMbps" ++ ": 2.5}")
       (inr (VDict [ ("bytes", VInt (-1)); ("speedMbps", VFloat (5 # 2)) ]))))
    (fun _ => 1 # 10)%Q true.

(** Every GET is answered 200 with a five-byte body, and the wall clock is
    set back meanwhile: it reads 10 microseconds less after the GET than
    before. *)
Definition backward_clock_world : env :=
  world [] page (fun _ => - (1 # 100000))%Q true.

(** Two downloads, of 100 ms and 102 ms. *)
Definition uneven_world : env :=
  world [] page (fun n => match n with O => 100 # 1000 | _ => 102 # 1000 end)%Q true.

(** ** Further closed forms: the info fetchers, the dashboard, the chart *)

(** The failure dict of [get_peer_info] and [get_network_stats]. *)
Definition failure_value (error : string) : value :=
  VDict [ ("success", VBool false); ("error", VStr error) ].

(** What an info fetcher returns for the reply to its GET; [fallback] is its
    fixed text for a status other than 200. *)
Definition info_value (rep : reply) (fallback : string) : value :=
  match rep with
  | Failed e => failure_value (str_exn e)
  | Responded r =>
      if (status_code r =? 200)%Z then
        match json r with
        | inr v => v
        | inl e => failure_value (str_exn e)
        end
      else failure_value fallback
  end.

(** The error text when the fetch did not yield the backend's JSON. *)
Definition fetch_failure (rep : reply) (fallback : string) : option string :=
  match rep with
  | Failed e => Some (str_exn e)
  | Responded r =>
      if (status_code r =? 200)%Z then
        match json r with
        | inr _ => None
        | inl e => Some (str_exn e)
        end
      else Some fallback
  end.

Definition peer_info_request (E : env) : request :=
  {| url := BACKEND_URL E ++ "/api/ipfs/info"; timeout := 10 |}.

Definition stats_request (E : env) : request :=
  {| url := BACKEND_URL E ++ "/api/stats"; timeout := 10 |}.

(** [d.get(k, default)] on a dict. *)
Definition field_or (d : dict) (k : string) (default : value) : value :=
  match dict_get d k with
  | Some v => v
  | None => default
  end.

(** The two halves of [print_network_dashboard], each from the value its
    fetcher returned. *)
Definition peer_report (peer_info : value) : M unit :=
  ok <- py_get peer_info "success" VNone ;;
  if truthy ok then
    node_id <- py_get peer_info "nodeId" (VStr "N/A") ;;
    node_id20 <- py_slice_to node_id 20 ;;
    agent <- py_get peer_info "agentVersion" (VStr "N/A") ;;
    peer_count <- py_get peer_info "peerCount" (VInt 0) ;;
    print (MsgNode node_id20 agent peer_count) ;;
    peers <- py_get peer_info "peers" (VList []) ;;
    if truthy peers then
      first5 <- py_slice_to peers 5 ;;
      items <- py_iter first5 ;;
      _ <- for_each items 1%Z print_peer ;;
      ret tt
    else ret tt
  else
    err <- py_get peer_info "error" (VStr "Unknown error") ;;
    print (MsgPeerInfoFailed err).

Definition stats_report (E : env) (stats : value) : M unit :=
  ok <- py_get stats "success" VNone ;;
  if truthy ok then
    bw <- py_get stats "bandwidth" (VDict []) ;;
    print_bandwidth E bw "Total In" "totalIn" (1024 * 1024) ;;
    print_bandwidth E bw "Total Out" "totalOut" (1024 * 1024) ;;
    print_bandwidth E bw "Rate In" "rateIn" 1024 ;;
    print_bandwidth E bw "Rate Out" "rateOut" 1024
  else ret tt.

(** A field that is missing or holds a string. *)
Definition text_field (d : dict) (k : string) : Prop :=
  dict_get d k = None \/ exists t, dict_get d k = Some (VStr t).

(** A string field cut to 20 characters for display, [N/A] when missing. *)
Definition shown_id (d : dict) (k : string) : value :=
  match dict_get d k with
  | Some (VStr t) => VStr (substring 0 20 t)
  | _ => VStr "N/A"
  end.

(** The lines of the peer list, numbered from [i]. *)
Fixpoint peer_lines (i : Z) (peers : list dict) : list message :=
  match peers with
  | [] => []
  | d :: rest =>
      MsgPeer i (shown_id d "peerId") (field_or d "address" (VStr "N/A"))
        (field_or d "latency" (VStr "N/A"))
      :: peer_lines (i + 1) rest
  end.

(** A bandwidth counter that is missing (read as 0) or an integer. *)
Definition counter (bw : dict) (k : string) (z : Z) : Prop :=
  (dict_get bw k = None /\ z = 0%Z) \/ dict_get bw k = Some (VInt z).

(** The four bandwidth lines for the counters [tin], [tout], [rin], [rout]. *)
Definition bandwidth_lines (tin tout rin rout : Z) : list message :=
  [ MsgBandwidth "Total In" (inject_Z tin / (1024 * 1024));
    MsgBandwidth "Total Out" (inject_Z tout / (1024 * 1024));
    MsgBandwidth "Rate In" (inject_Z rin / 1024);
    MsgBandwidth "Rate Out" (inject_Z rout / 1024) ].

(** The n-th GET was answered; it was answered 200 with a JSON object. *)
Definition answered (E : env) (n : nat) : bool :=
  match requests_get_reply E n with
  | Responded _ => true
  | Failed _ => false
  end.

Definition answered_object (E : env) (n : nat) : bool :=
  match requests_get_reply E n with
  | Responded r =>
      (status_code r =? 200)%Z
      && match json r with inr (VDict _) => true | _ => false end
  | Failed _ => false
  end.

(** The three bars the chart draws for a kind: average, minimum and maximum
    of its summary entry, zeros when the kind has no entry. *)
Definition bars (summ : dict) (kind : string) : list value :=
  match dict_get summ kind with
  | Some (VDict entry) =>
      [ field_or entry "avg_latency_ms" (VInt 0);
        field_or entry "min_latency_ms" (VInt 0);
        field_or entry "max_latency_ms" (VInt 0) ]
  | _ => [ VInt 0; VInt 0; VInt 0 ]
  end.

(** The boxes of the distribution plot: one per kind that has samples. *)
Definition boxes (p2p central : list dict) : list (string * list value) :=
  ((if nonempty p2p
    then [("P2P (IPFS)", map (fun r => VFloat (sample_latency r)) p2p)] else [])
   ++ (if nonempty central
       then [("Centralized", map (fun r => VFloat (sample_latency r)) central)]
       else []))%list.

(** A summary entry whose average lies between its minimum and maximum and
    whose standard deviation, when present, is not negative. *)
Definition ordered_entry (entry : dict) : Prop :=
  exists avg lo hi,
    dict_get entry "avg_latency_ms" = Some (VFloat avg) /\
    dict_get entry "min_latency_ms" = Some (VFloat lo) /\
    dict_get entry "max_latency_ms" = Some (VFloat hi) /\
    (lo <= avg)%Q /\ (avg <= hi)%Q /\
    match dict_get entry "std_dev" with
    | Some v => nonnegative v
    | None => True
    end.

(** A 200 answer whose parsed JSON is [v]; its callers read nothing else. *)
Definition json_page (v : value) : reply :=
  Responded (body_response 200 "(json)" (inr v)).

(** A node with six peers; the third has no id, the fourth a long one. *)
Definition six_peers : list dict :=
  [ [ ("peerId", VStr "12D3KooWA"); ("address", VStr "/ip4/10.0.0.1"); ("latency", VStr "4ms") ];
    [ ("peerId", VStr "12D3KooWB"); ("address", VStr "/ip4/10.0.0.2") ];
    [ ("address", VStr "/ip4/10.0.0.3"); ("latency", VStr "9ms") ];
    [ ("peerId", VStr "12D3KooWDabcdefghijklmnopqrstuvwxyz") ];
    [ ("peerId", VStr "12D3KooWE") ];
    [ ("peerId", VStr "12D3KooWF") ] ].

Definition peers_info : dict :=
  [ ("success", VBool true);
    ("nodeId", VStr "12D3KooWNodeIdentityLongerThanTwenty");
    ("agentVersion", VStr "kubo/0.22.0");
    ("peerCount", VInt 6);
    ("peers", VList (map VDict six_peers)) ].

Definition bandwidth_stats : dict :=
  [ ("success", VBool true);
    ("bandwidth", VDict [ ("totalIn", VInt 2097152); ("rateIn", VInt 512) ]) ].

(** Health is fine, the node lists six peers and the stats carry two
    counters. *)
Definition backend_world : env :=
  world [ page; json_page (VDict peers_info); json_page (VDict bandwidth_stats) ]
    page (fun _ => 1 # 10)%Q true.

(** Health is fine, the peer endpoint answers a JSON list. *)
Definition list_info_world : env :=
  world [ page; json_page (VList []) ] page (fun _ => 1 # 10)%Q true.

(** Health and dashboard endpoints answer, every download fails. *)
Definition downloads_down_world : env :=
  world [ page; page; page ] (Failed (RequestException "Connection refused"))
    (fun _ => 1 # 10)%Q true.

(** The state in which [main] enters the dashboard in a sample world whose
    health probe was answered by [page]. *)
Definition at_dashboard (E : env) : state :=
  past_gate E (body_response 200 "hello" not_json) initial_state.

(** The console line [run_benchmark] prints for the sample [r] of iteration
    [i] (counted from 0 by the loop, shown from 1). *)
Definition benchmark_line (i : Z) (r : dict) : list message :=
  if succeeded r
  then [ MsgIteration (i + 1) (field_or r "latency_ms" VNone)
           (Some (field_or r "speed_mbps" VNone)) ]
  else [ MsgIterationFailed (i + 1) (field_or r "error" (VStr "Unknown error")) ].

(** The console line [main] prints for a sample: none when it failed. *)
Definition main_line (i : Z) (r : dict) : list message :=
  if succeeded r
  then [ MsgIteration (i + 1) (field_or r "latency_ms" VNone) None ]
  else [].

(** The lines of one target's iterations, the first issuing GET number [n]. *)
Fixpoint iteration_lines (line : Z -> dict -> list message) (record : nat -> dict)
    (n : nat) (iterations : list Z) : list message :=
  match iterations with
  | [] => []
  | i :: rest =>
      (line i (record n) ++ iteration_lines line record (S n) rest)%list
  end.

(** The lines of a whole sampling phase: per target a heading, then its
    iterations. *)
Fixpoint phase_lines (line : Z -> dict -> list message)
    (record : string -> nat -> dict) (shown : string -> string)
    (targets : list string) (iterations : Z) (n : nat) : list message :=
  match targets with
  | [] => []
  | t :: ts =>
      (MsgTesting (shown t)
       :: iteration_lines line (record t) n (range iterations)
       ++ phase_lines line record shown ts iterations (n + Z.to_nat iterations))%list
  end.

(** [s'] is [s] after exactly the console [lines]: no GET, nothing written. *)
Definition prints (s s' : state) (lines : list message) : Prop :=
  requests s' = requests s /\
  files s' = files s /\
  charts s' = charts s /\
  console s' = (console s ++ lines)%list.

(** A loop body that takes one sample with one GET, keeps it if it
    succeeded, and prints exactly [line]. *)
Definition samples_and_prints (body : list dict -> Z -> M (list dict))
    (record : nat -> dict) (req : request)
    (line : Z -> dict -> list message) : Prop :=
  forall acc i s,
    let r := record (List.length (requests s)) in
    exists s',
      body acc i s = (Ok (if succeeded r then (acc ++ [r])%list else acc), s') /\
      prints (log_request req s) s' (line i r).

Definition is_bandwidth (m : message) : bool :=
  match m with
  | MsgBandwidth _ _ => true
  | _ => false
  end.

Definition not_bandwidth (m : message) : bool := negb (is_bandwidth m).

(** A computation that, however it ends, issues no GET, writes nothing and
    prints only lines that [P] accepts. *)
Definition prints_only (P : message -> bool) {A : Type} (m : M A) : Prop :=
  forall s o s', m s = (o, s') ->
    exists lines, prints s s' lines /\ forallb P lines = true.

(** [s'] is [s] after exactly the GETs [reqs] and the console [lines];
    nothing written. *)
Definition advances (s s' : state) (reqs : list request) (lines : list message)
  : Prop :=
  requests s' = (requests s ++ reqs)%list /\
  files s' = files s /\
  charts s' = charts s /\
  console s' = (console s ++ lines)%list.

(** The console of [main] after the dashboard, the first download being GET
    number [n]: the sampling phase, the summary when a sample was kept, the
    notice of the saved file, and the chart's two lines when one is drawn. *)
Definition summary_line (D : list Q) : list message :=
  match D with
  | [] => []
  | x :: xs => [ MsgSummary (VFloat (round2 (mean (x :: xs))))
                   (VFloat (round2 (py_min x xs))) (VFloat (round2 (py_max x xs))) ]
  end.

Definition chart_lines (E : env) (D : list Q) : list message :=
  match D with
  | [] => []
  | _ :: _ => if HAS_MATPLOTLIB E
              then [ MsgGeneratingGraph; MsgGraphSaved "benchmark_results.png" ]
              else []
  end.

Definition main_lines (E : env) (n : nat) : list message :=
  let D := latencies (kept_centralized E PUBLIC_TEST_URLS 3 n) in
  (phase_lines main_line (centralized_record E) (substring 0 50) PUBLIC_TEST_URLS 3 n
   ++ summary_line D
   ++ [ MsgResultsSaved "benchmark_results.json" ]
   ++ chart_lines E D)%list.

Definition is_iteration (m : message) : bool :=
  match m with
  | MsgIteration _ _ _ => true
  | _ => false
  end.

Definition is_failure (m : message) : bool :=
  match m with
  | MsgIterationFailed _ _ => true
  | _ => false
  end.

(** * Proofs *)

(** ** Rounding *)

Local Open Scope Q_scope.

Lemma round_half_even_comp (x y : Q) :
  x == y -> round_half_even x = round_half_even y.
Proof.
  intros H. unfold round_half_even.
  rewrite (Qfloor_comp x y H).
  assert (Hc : 2 * (x - inject_Z (Qfloor y)) == 2 * (y - inject_Z (Qfloor y)))
    by (rewrite H; reflexivity).
  rewrite (Qcompare_comp _ _ Hc 1 1 (Qeq_refl 1)). reflexivity.
Qed.

Lemma round2_comp (x y : Q) : x == y -> round2 x = round2 y.
Proof.
  intros H. unfold round2. f_equal. apply round_half_even_comp.
  rewrite H. reflexivity.
Qed.

Lemma round_half_even_Z (k : Z) : round_half_even (inject_Z k) = k.
Proof.
  unfold round_half_even. rewrite Qfloor_Z.
  assert (H : Qcompare (2 * (inject_Z k - inject_Z k)) 1 = Lt)
    by (apply (proj1 (Qlt_alt _ _)); generalize (inject_Z k); intros q; lra).
  rewrite H. reflexivity.
Qed.

(** Rounding a hundredth to two decimals changes nothing. *)
Lemma round2_hundredth (k : Z) : round2 (k # 100) = k # 100.
Proof.
  unfold round2. f_equal.
  rewrite (round_half_even_comp ((k # 100) * 100) (inject_Z k)).
  - apply round_half_even_Z.
  - unfold Qeq, Qmult, inject_Z. simpl. lia.
Qed.

Lemma round2_idempotent (x : Q) : round2 (round2 x) = round2 x.
Proof. unfold round2 at 2 3. apply round2_hundredth. Qed.

Lemma round_half_even_nonneg (x : Q) : 0 <= x -> (0 <= round_half_even x)%Z.
Proof.
  intros H. unfold round_half_even.
  assert (Hq : (0 <= Qfloor x)%Z).
  { change 0%Z with (Qfloor 0). apply Qfloor_resp_le. exact H. }
  destruct (Qcompare _ _); [destruct (Z.even _)| |]; lia.
Qed.

Lemma round2_nonneg (x : Q) : 0 <= x -> 0 <= round2 x.
Proof.
  intros H. unfold round2, Qle. simpl.
  assert (Hx : 0 <= x * 100) by (apply Qmult_le_0_compat; [exact H | discriminate]).
  pose proof (round_half_even_nonneg _ Hx). lia.
Qed.

(** The rounded value is within half a unit of the argument. *)
Lemma round_half_even_near (x : Q) :
  inject_Z (round_half_even x) - (1 # 2) <= x /\
  x <= inject_Z (round_half_even x) + (1 # 2).
Proof.
  unfold round_half_even.
  pose proof (Qfloor_le x) as Hlo. pose proof (Qlt_floor x) as Hhi.
  rewrite inject_Z_plus in Hhi. change (inject_Z 1) with 1 in Hhi.
  set (q := Qfloor x) in *.
  assert (Hs : inject_Z (q + 1) == inject_Z q + 1)
    by (rewrite inject_Z_plus; reflexivity).
  destruct (Qcompare (2 * (x - inject_Z q)) 1) eqn:Hc.
  - apply (proj2 (Qeq_alt _ _)) in Hc. destruct (Z.even q).
    + split; lra.
    + rewrite Hs. split; lra.
  - apply (proj2 (Qlt_alt _ _)) in Hc. split; lra.
  - apply (proj2 (Qgt_alt _ _)) in Hc. rewrite Hs. split; lra.
Qed.

(** [round2 x] is a hundredth within half a hundredth of [x]. *)
Lemma round2_near (x : Q) :
  round2 x - (1 # 200) <= x /\ x <= round2 x + (1 # 200).
Proof.
  destruct (round_half_even_near (x * 100)) as [Hlo Hhi].
  unfold round2.
  assert (He : round_half_even (x * 100) # 100
               == inject_Z (round_half_even (x * 100)) / 100).
  { unfold Qeq, Qdiv, Qmult, Qinv, inject_Z. simpl. lia. }
  rewrite He. split.
  - apply Qmult_le_r with (z := 100); [reflexivity|].
    field_simplify. field_simplify in Hlo. lra.
  - apply Qmult_le_r with (z := 100); [reflexivity|].
    field_simplify. field_simplify in Hhi. lra.
Qed.

(** ** Minimum, maximum and variance *)

Lemma Qltb_true (x y : Q) : Qltb x y = true -> x < y.
Proof.
  unfold Qltb. intros H. apply negb_true_iff in H.
  apply Qnot_le_lt. intros Hle. apply Qle_bool_iff in Hle. congruence.
Qed.

Lemma Qltb_false (x y : Q) : Qltb x y = false -> y <= x.
Proof.
  unfold Qltb. intros H. apply negb_false_iff in H. now apply Qle_bool_iff.
Qed.

Lemma py_min_in (l : list Q) : forall x, In (py_min x l) (x :: l).
Proof.
  induction l as [|a l IH]; intros x; [now left|].
  change (py_min x (a :: l)) with (py_min (if Qltb a x then a else x) l).
  destruct (IH (if Qltb a x then a else x)) as [H|H].
  - rewrite <- H. destruct (Qltb a x); [right; now left | now left].
  - right. now right.
Qed.

Lemma py_min_below (l : list Q) : forall x, py_min x l <= x.
Proof.
  induction l as [|a l IH]; intros x; [apply Qle_refl|].
  change (py_min x (a :: l)) with (py_min (if Qltb a x then a else x) l).
  eapply Qle_trans; [apply IH|].
  destruct (Qltb a x) eqn:H; [apply Qlt_le_weak, Qltb_true, H | apply Qle_refl].
Qed.

Lemma py_min_le (l : list Q) : forall x y, In y (x :: l) -> py_min x l <= y.
Proof.
  induction l as [|a l IH]; intros x y Hin.
  - destruct Hin as [<-|[]]. apply Qle_refl.
  - change (py_min x (a :: l)) with (py_min (if Qltb a x then a else x) l).
    destruct Hin as [<-|[<-|Hin]].
    + eapply Qle_trans; [apply py_min_below|].
      destruct (Qltb a x) eqn:H; [apply Qlt_le_weak, Qltb_true, H | apply Qle_refl].
    + eapply Qle_trans; [apply py_min_below|].
      destruct (Qltb a x) eqn:H; [apply Qle_refl | apply Qltb_false, H].
    + apply IH. now right.
Qed.

Lemma py_max_in (l : list Q) : forall x, In (py_max x l) (x :: l).
Proof.
  induction l as [|a l IH]; intros x; [now left|].
  change (py_max x (a :: l)) with (py_max (if Qltb x a then a else x) l).
  destruct (IH (if Qltb x a then a else x)) as [H|H].
  - rewrite <- H. destruct (Qltb x a); [right; now left | now left].
  - right. now right.
Qed.

Lemma py_max_above (l : list Q) : forall x, x <= py_max x l.
Proof.
  induction l as [|a l IH]; intros x; [apply Qle_refl|].
  change (py_max x (a :: l)) with (py_max (if Qltb x a then a else x) l).
  eapply Qle_trans; [|apply IH].
  destruct (Qltb x a) eqn:H; [apply Qlt_le_weak, Qltb_true, H | apply Qle_refl].
Qed.

Lemma py_max_ge (l : list Q) : forall x y, In y (x :: l) -> y <= py_max x l.
Proof.
  induction l as [|a l IH]; intros x y Hin.
  - destruct Hin as [<-|[]]. apply Qle_refl.
  - change (py_max x (a :: l)) with (py_max (if Qltb x a then a else x) l).
    destruct Hin as [<-|[<-|Hin]].
    + eapply Qle_trans; [|apply py_max_above].
      destruct (Qltb x a) eqn:H; [apply Qlt_le_weak, Qltb_true, H | apply Qle_refl].
    + eapply Qle_trans; [|apply py_max_above].
      destruct (Qltb x a) eqn:H; [apply Qle_refl | apply Qltb_false, H].
    + apply IH. now right.
Qed.

Lemma hundredth_round2 (q : Q) : hundredth q -> round2 q = q.
Proof. intros [k ->]. apply round2_hundredth. Qed.

Lemma round2_to_two_decimals (x : Q) : to_two_decimals x (round2 x).
Proof.
  destruct (round2_near x) as [Hlo Hhi].
  split; [eexists; reflexivity|]. split; lra.
Qed.

Lemma round2_py_min (x : Q) (l : list Q) :
  Forall hundredth (x :: l) -> round2 (py_min x l) = py_min x l.
Proof.
  intros H. apply hundredth_round2.
  apply (proj1 (Forall_forall _ _) H). apply py_min_in.
Qed.

Lemma round2_py_max (x : Q) (l : list Q) :
  Forall hundredth (x :: l) -> round2 (py_max x l) = py_max x l.
Proof.
  intros H. apply hundredth_round2.
  apply (proj1 (Forall_forall _ _) H). apply py_max_in.
Qed.

Lemma Qsquare_nonneg (b : Q) : 0 <= b * b.
Proof. unfold Qle, Qmult. simpl. nia. Qed.

Lemma Qsum_squares_nonneg (m : Q) (l : list Q) :
  0 <= Qsum (map (fun x => (x - m) * (x - m)) l).
Proof.
  induction l as [|a l IH]; simpl; [apply Qle_refl|].
  rewrite <- (Qplus_0_l 0).
  apply Qplus_le_compat; [apply Qsquare_nonneg | exact IH].
Qed.

Lemma variance_nonneg (l : list Q) : (2 <= List.length l)%nat -> 0 <= variance l.
Proof.
  intros Hn. unfold variance, sum_sq_dev, Qdiv.
  apply Qmult_le_0_compat; [apply Qsum_squares_nonneg|].
  apply Qinv_le_0_compat. unfold Qlen.
  assert (H : inject_Z 2 <= inject_Z (Z.of_nat (List.length l)))
    by (rewrite <- Zle_Qle; lia).
  change (inject_Z 2) with 2 in H. lra.
Qed.

(** [round2_sqrt v] is a hundredth nearest to the square root of [v]. *)
Lemma round2_sqrt_nearest (v : Q) :
  0 <= v ->
  exists k, round2_sqrt v = k # 100 /\ nearest_hundredth_to_sqrt v k.
Proof.
  intros Hv. unfold round2_sqrt.
  set (W := 4 * (v * 10000)).
  assert (HW : 0 <= W) by (unfold W; lra).
  assert (HF : (0 <= Qfloor W)%Z).
  { change 0%Z with (Qfloor 0). now apply Qfloor_resp_le. }
  set (m := Z.sqrt (Qfloor W)).
  destruct (Z.sqrt_spec (Qfloor W) HF) as [Hm1 Hm2]. fold m in Hm1, Hm2.
  assert (Hm0 : (0 <= m)%Z) by apply Z.sqrt_nonneg.
  assert (Hlo : inject_Z (m * m) <= W).
  { eapply Qle_trans; [|apply Qfloor_le]. rewrite <- Zle_Qle. exact Hm1. }
  assert (Hhi : W <= inject_Z ((m + 1) * (m + 1))).
  { apply Qlt_le_weak. eapply Qlt_le_trans; [apply Qlt_floor|].
    rewrite <- Zle_Qle. unfold Z.succ in Hm2. lia. }
  assert (HWv : W == 40000 * v) by (unfold W; ring).
  (* any k with 2k-1 <= m, and m <= 2k or a tie at m = 2k+1, will do *)
  assert (Hgen : forall k : Z,
             (0 <= k)%Z -> (2 * k - 1 <= m)%Z ->
             ((m <= 2 * k)%Z \/ (m = 2 * k + 1)%Z /\ inject_Z (m * m) == W) ->
             nearest_hundredth_to_sqrt v k).
  { intros k Hk Hkm Hup. unfold nearest_hundredth_to_sqrt. rewrite <- HWv.
    split; [exact Hk|]. split.
    - intros Hk1. eapply Qle_trans; [|exact Hlo]. rewrite <- Zle_Qle. nia.
    - destruct Hup as [Hup|[Hup Htie]].
      + eapply Qle_trans; [exact Hhi|]. rewrite <- Zle_Qle. nia.
      + rewrite <- Htie. rewrite <- Zle_Qle. nia. }
  pose proof (Z.div_mod m 2 ltac:(lia)) as Hdm.
  pose proof (Z.mod_pos_bound m 2 ltac:(lia)) as Hmb.
  pose proof (Z.div_mod (m + 1) 2 ltac:(lia)) as Hdm1.
  pose proof (Z.mod_pos_bound (m + 1) 2 ltac:(lia)) as Hmb1.
  destruct (Z.odd m && Qeq_bool (inject_Z (m * m)) W) eqn:Htie.
  - apply andb_true_iff in Htie. destruct Htie as [Hodd Heq].
    apply Qeq_bool_iff in Heq.
    rewrite Zodd_mod in Hodd. apply Z.eqb_eq in Hodd.
    destruct (Z.even (m / 2)).
    + exists (m / 2)%Z. split; [reflexivity|]. apply Hgen; [lia|lia|].
      right. split; [lia|exact Heq].
    + exists (m / 2 + 1)%Z. split; [reflexivity|]. apply Hgen; [lia|lia|].
      left. lia.
  - exists ((m + 1) / 2)%Z. split; [reflexivity|]. apply Hgen; [lia|lia|].
    left. lia.
Qed.

(** ** The square root, seen in the reals *)

Module RealFacts.

Import Reals Qreals Lra.
Local Open Scope R_scope.

Lemma Q2R_inject_Z (z : Z) : Q2R (inject_Z z) = IZR z.
Proof. unfold Q2R, inject_Z. simpl. field. Qed.

Lemma Q2R_hundredth (k : Z) : Q2R (k # 100) = IZR k / 100.
Proof. unfold Q2R. simpl. reflexivity. Qed.

Lemma nearest_hundredth_rounds_sqrt (v : Q) (k : Z) :
  (0 <= v)%Q -> nearest_hundredth_to_sqrt v k -> RealView.rounds_sqrt v (k # 100).
Proof.
  intros Hv (Hk & Hlo & Hhi). unfold RealView.rounds_sqrt.
  apply Qle_Rle in Hv. change (Q2R 0) with (0 / 1) in Hv.
  assert (Hv' : 0 <= Q2R v) by lra.
  pose proof (sqrt_pos (Q2R v)) as Hx.
  pose proof (sqrt_sqrt (Q2R v) Hv') as Hxx.
  set (x := sqrt (Q2R v)) in *.
  apply Qle_Rle in Hhi. rewrite Q2R_mult, Q2R_inject_Z in Hhi.
  rewrite mult_IZR, plus_IZR, mult_IZR in Hhi.
  replace (Q2R 40000) with 40000 in Hhi by (unfold Q2R; simpl; field).
  pose proof (IZR_le _ _ Hk) as HkR.
  assert (Hup : 200 * x <= 2 * IZR k + 1) by nra.
  assert (Hdown : 2 * IZR k - 1 <= 200 * x).
  { destruct (Z_le_gt_dec 1 k) as [H1|H1].
    - specialize (Hlo H1). apply Qle_Rle in Hlo.
      rewrite Q2R_mult, Q2R_inject_Z in Hlo.
      rewrite mult_IZR, minus_IZR, mult_IZR in Hlo.
      replace (Q2R 40000) with 40000 in Hlo by (unfold Q2R; simpl; field).
      apply IZR_le in H1. nra.
    - assert (k = 0%Z) by lia. subst k. simpl. lra. }
  rewrite Q2R_hundredth. apply Rabs_le. lra.
Qed.

End RealFacts.

(** ** Running monadic code *)

Lemma bind_ok {A B : Type} (m : M A) (k : A -> M B) (s s' : state) (a : A) :
  m s = (Ok a, s') -> bind m k s = k a s'.
Proof. intros H. unfold bind. rewrite H. reflexivity. Qed.

Lemma bind_raise {A B : Type} (m : M A) (k : A -> M B) (s s' : state) (e : exn) :
  m s = (Raise e, s') -> bind m k s = (Raise e, s').
Proof. intros H. unfold bind. rewrite H. reflexivity. Qed.

(** ** The samplers in closed form *)

Local Close Scope Q_scope.

Section Samplers.

Variable E : env.

Lemma requests_after_get (r : request) (s : state) :
  Nat.pred (List.length (requests (log_request r s))) = List.length (requests s).
Proof. simpl. rewrite length_app. simpl. lia. Qed.

Lemma Qltb_nonzero (d : Q) : Qltb 0 d = true -> Qeq_bool d 0 = false.
Proof.
  intros H. apply Qltb_true in H.
  destruct (Qeq_bool d 0) eqn:Hd; [|reflexivity].
  apply Qeq_bool_iff in Hd. rewrite Hd in H. discriminate H.
Qed.

Lemma measure_latency_responded (u : string) (t : Z) (s : state) (r : response) :
  requests_get_reply E (List.length (requests s)) = Responded r ->
  measure_latency E u t s =
    (Ok [ ("url", VStr u);
          ("status", VInt (status_code r));
          ("latency_ms", VFloat (latency_at E (List.length (requests s))));
          ("size_bytes", VInt (len (content r)));
          ("success", VBool true) ],
     log_request {| url := u; timeout := t |} s).
Proof.
  intros H. unfold measure_latency, try_except, bind, time_time, requests_get.
  rewrite H, requests_after_get. reflexivity.
Qed.

Lemma measure_latency_failed (u : string) (t : Z) (s : state) (e : exn) :
  requests_get_reply E (List.length (requests s)) = Failed e ->
  measure_latency E u t s =
    (match e with
     | RequestException msg =>
         Ok [ ("url", VStr u); ("error", VStr msg); ("success", VBool false) ]
     | Exception _ _ => Raise e
     end,
     log_request {| url := u; timeout := t |} s).
Proof.
  intros H. unfold measure_latency, try_except, bind, time_time, requests_get.
  rewrite H. destruct e; reflexivity.
Qed.

Lemma measure_p2p_download_closed (cid : string) (s : state) :
  measure_p2p_download E cid s =
    (Ok (p2p_record E cid (List.length (requests s))),
     log_request {| url := BACKEND_URL E ++ "/api/benchmark/p2p/" ++ cid;
                    timeout := 60 |} s).
Proof.
  unfold measure_p2p_download, try_except, bind, time_time, requests_get, p2p_record.
  destruct (requests_get_reply E (List.length (requests s))) as [r|e]; [|reflexivity].
  rewrite requests_after_get.
  destruct (status_code r =? 200)%Z; [|reflexivity].
  unfold response_json. destruct (json r) as [e|v]; [reflexivity|].
  destruct v; reflexivity.
Qed.

Lemma measure_centralized_download_closed (u : string) (s : state) :
  measure_centralized_download E u s =
    (Ok (centralized_record E u (List.length (requests s))),
     log_request {| url := u; timeout := 60 |} s).
Proof.
  unfold measure_centralized_download, try_except, bind, time_time, requests_get,
    centralized_record.
  destruct (requests_get_reply E (List.length (requests s))) as [r|e]; [|reflexivity].
  rewrite requests_after_get.
  unfold centralized_success, speed_at, elapsed, latency_at, elapsed.
  destruct (Qltb 0 (time_after E (List.length (requests s))
                    - time_before E (List.length (requests s)))) eqn:Hd.
  - unfold py_div. rewrite (Qltb_nonzero _ Hd). reflexivity.
  - reflexivity.
Qed.

End Samplers.

(** ** The sampling loops *)

Local Open Scope list_scope.

Lemma extends_refl (s : state) : extends s s [].
Proof.
  unfold extends. rewrite app_nil_r. repeat split.
  exists []. rewrite app_nil_r. split; [reflexivity | intros []].
Qed.

Lemma extends_trans (s1 s2 s3 : state) (r1 r2 : list request) :
  extends s1 s2 r1 -> extends s2 s3 r2 -> extends s1 s3 (r1 ++ r2).
Proof.
  intros (Hr1 & Hf1 & Hc1 & l1 & Hl1 & Hn1) (Hr2 & Hf2 & Hc2 & l2 & Hl2 & Hn2).
  unfold extends. rewrite Hr2, Hr1, Hf2, Hf1, Hc2, Hc1, app_assoc.
  repeat split. exists (l1 ++ l2)%list.
  rewrite Hl2, Hl1, app_assoc. split; [reflexivity|].
  intros H. apply in_app_or in H. tauto.
Qed.

Lemma extends_log_line (m : message) (s : state) :
  m <> MsgBackendOffline -> extends s (log_line m s) [].
Proof.
  intros Hm. unfold extends. simpl. rewrite app_nil_r. repeat split.
  exists [m]. split; [reflexivity|]. intros [H|[]]. congruence.
Qed.

Lemma extends_log_request (r : request) (s : state) :
  extends s (log_request r s) [r].
Proof.
  unfold extends. simpl. repeat split.
  exists []. rewrite app_nil_r. split; [reflexivity | intros []].
Qed.

Lemma extends_length (s s' : state) (reqs : list request) :
  extends s s' reqs ->
  List.length (requests s') = (List.length (requests s) + List.length reqs)%nat.
Proof. intros (Hr & _). rewrite Hr. apply length_app. Qed.

Lemma hundredth_latency_at (E : env) (n : nat) : hundredth (latency_at E n).
Proof. unfold latency_at, round2. eexists. reflexivity. Qed.

Lemma p2p_record_shape (E : env) (cid : string) (n : nat) :
  sampler_record (p2p_record E cid n).
Proof.
  unfold p2p_record.
  destruct (requests_get_reply E n) as [r|e]; [|left; eauto].
  destruct (status_code r =? 200)%Z; [|left; eauto].
  destruct (json r) as [e|v]; [left; eauto|].
  destruct v; try solve [left; eauto].
  right. destruct (hundredth_latency_at E n) as [k Hk].
  unfold p2p_success. rewrite Hk. split; [split; [reflexivity|]|]; simpl; eauto.
Qed.

Lemma centralized_record_shape (E : env) (u : string) (n : nat) :
  sampler_record (centralized_record E u n).
Proof.
  unfold centralized_record.
  destruct (requests_get_reply E n) as [r|e]; [|left; eauto].
  right. destruct (hundredth_latency_at E n) as [k Hk].
  unfold centralized_success. rewrite Hk.
  split; [split; [reflexivity|]|]; simpl; eauto.
Qed.

Lemma succeeded_success_sample (r : dict) :
  sampler_record r -> succeeded r = true -> success_sample r.
Proof.
  intros [(kind & msg & ->)|[H _]] Hs; [discriminate Hs | exact H].
Qed.

(** Both inner-loop bodies of [run_benchmark], and that of [main], take one
    sample per pass. *)
Ltac iteration_step closed shape :=
  intros acc i s; cbv zeta;
  match goal with
  | |- exists s', ?body _ _ _ _ _ = _ /\ _ => unfold body
  end;
  unfold bind at 1; rewrite closed;
  match goal with
  | st : state |- _ =>
      destruct (shape (List.length (requests st)))
        as [(kind & msg & Hr)|[[Hs (k & Hl)] (speed & Hp)]];
      [ rewrite Hr; eexists; split; [reflexivity|]
      | unfold bind, getitem, succeeded; rewrite Hs; simpl; rewrite ?Hl, ?Hp;
        eexists; split; [reflexivity|] ]
  end;
  match goal with
  | |- extends _ _ [?r] => change [r] with ([r] ++ [])%list
  end;
  (eapply extends_trans; [apply extends_log_request|]);
  solve [ apply extends_log_line; discriminate | apply extends_refl ].

Lemma p2p_iteration_takes_sample (E : env) (cid : string) :
  takes_sample (p2p_iteration E cid) (p2p_record E cid) (p2p_request E cid).
Proof.
  iteration_step (measure_p2p_download_closed E cid) (p2p_record_shape E cid).
Qed.

Lemma centralized_iteration_takes_sample (E : env) (u : string) :
  takes_sample (centralized_iteration E u) (centralized_record E u)
    (centralized_request u).
Proof.
  iteration_step (measure_centralized_download_closed E u)
                 (centralized_record_shape E u).
Qed.

Lemma main_iteration_takes_sample (E : env) (u : string) :
  takes_sample (main_iteration E u) (centralized_record E u)
    (centralized_request u).
Proof.
  iteration_step (measure_centralized_download_closed E u)
                 (centralized_record_shape E u).
Qed.

Lemma inner_loop (body : list dict -> Z -> M (list dict)) (record : nat -> dict)
    (req : request) :
  takes_sample body record req ->
  forall (l : list Z) (acc : list dict) (s : state),
  exists s',
    for_each l acc body s =
      (Ok (acc ++ filter succeeded
                    (map record (seq (List.length (requests s)) (List.length l)))),
       s') /\
    extends s s' (repeat req (List.length l)).
Proof.
  intros Hbody l. induction l as [|i l IH]; intros acc s.
  - exists s. simpl. rewrite app_nil_r. split; [reflexivity | apply extends_refl].
  - destruct (Hbody acc i s) as (s1 & Hrun & Hext).
    cbv zeta in Hrun. simpl for_each. unfold bind at 1. rewrite Hrun.
    destruct (IH (if succeeded (record (List.length (requests s)))
                  then acc ++ [record (List.length (requests s))] else acc) s1)
      as (s2 & Hrest & Hext2).
    exists s2. rewrite Hrest. split.
    + rewrite (extends_length _ _ _ Hext). simpl List.length.
      rewrite Nat.add_1_r. simpl seq. simpl map. simpl filter.
      destruct (succeeded (record (List.length (requests s)))).
      * rewrite <- app_assoc. reflexivity.
      * reflexivity.
    + change (repeat req (List.length (i :: l)))
        with ([req] ++ repeat req (List.length l)).
      eapply extends_trans; eassumption.
Qed.

Lemma length_range (n : Z) : List.length (range n) = Z.to_nat n.
Proof.
  unfold range, range2. rewrite length_map, length_seq. f_equal. lia.
Qed.

Lemma outer_loop (body : string -> list dict -> Z -> M (list dict))
    (record : string -> nat -> dict) (req : string -> request)
    (shown : string -> string) (iterations : Z) :
  (forall t, takes_sample (body t) (record t) (req t)) ->
  forall (targets : list string) (acc : list dict) (s : state),
  exists s',
    for_each targets acc
      (fun acc t =>
         print (MsgTesting (shown t)) ;;
         for_each (range iterations) acc (body t)) s =
      (Ok (acc ++ filter succeeded
                    (sample_targets record targets (Z.to_nat iterations)
                       (List.length (requests s)))),
       s') /\
    extends s s'
      (flat_map (fun t => repeat (req t) (Z.to_nat iterations)) targets).
Proof.
  intros Hbody targets. induction targets as [|t ts IH]; intros acc s.
  - exists s. simpl. rewrite app_nil_r. split; [reflexivity | apply extends_refl].
  - simpl for_each. unfold bind at 1. unfold bind at 1. unfold print at 1.
    destruct (inner_loop _ _ _ (Hbody t) (range iterations) acc
                (log_line (MsgTesting (shown t)) s)) as (s1 & Hrun & Hext).
    rewrite length_range in Hrun, Hext. rewrite Hrun.
    match goal with
    | |- context [for_each ts ?a _ s1] => destruct (IH a s1) as (s2 & Hrest & Hext2)
    end.
    exists s2. rewrite Hrest. split.
    + rewrite (extends_length _ _ _ Hext), repeat_length. simpl.
      rewrite filter_app, app_assoc. reflexivity.
    + simpl flat_map. eapply extends_trans; [|exact Hext2].
      change (repeat (req t) (Z.to_nat iterations))
        with ([] ++ repeat (req t) (Z.to_nat iterations)).
      eapply extends_trans; [|exact Hext].
      apply extends_log_line. discriminate.
Qed.

Lemma sample_targets_shape (record : string -> nat -> dict) :
  (forall t n, sampler_record (record t n)) ->
  forall targets k n, Forall sampler_record (sample_targets record targets k n).
Proof.
  intros H targets. induction targets as [|t ts IH]; intros k n; simpl.
  - constructor.
  - apply Forall_app. split; [|apply IH].
    apply Forall_forall. intros r Hin. apply in_map_iff in Hin.
    destruct Hin as (m & <- & _). apply H.
Qed.

Lemma kept_samples (l : list dict) :
  Forall sampler_record l -> Forall success_sample (filter succeeded l).
Proof.
  intros H. apply Forall_forall. intros r Hin. apply filter_In in Hin.
  destruct Hin as [Hin Hs]. apply succeeded_success_sample; [|exact Hs].
  exact (proj1 (Forall_forall _ _) H r Hin).
Qed.

(** ** The summary *)

(** A loop whose body appends one item per element. *)
Lemma for_each_append {A B : Type} (f : A -> B) (P : A -> Prop)
    (body : list B -> A -> M (list B)) :
  (forall acc x s, P x -> body acc x s = (Ok (acc ++ [f x]), s)) ->
  forall l, Forall P l ->
  forall acc s, for_each l acc body s = (Ok (acc ++ map f l), s).
Proof.
  intros Hbody l Hl. induction Hl as [|x l Hx _ IH]; intros acc s.
  - simpl. rewrite app_nil_r. reflexivity.
  - simpl for_each. unfold bind. rewrite (Hbody acc x s Hx), IH.
    simpl map. rewrite <- app_assoc. reflexivity.
Qed.

Lemma latencies_of_closed (rs : list dict) (s : state) :
  Forall success_sample rs ->
  latencies_of rs s = (Ok (map (fun r => VFloat (sample_latency r)) rs), s).
Proof.
  intros H. unfold latencies_of.
  apply (for_each_append (fun r => VFloat (sample_latency r)) success_sample);
    [|exact H].
  intros acc r s0 [Hs (k & Hl)].
  unfold bind, getitem, sample_latency. rewrite Hs. simpl. rewrite Hl. reflexivity.
Qed.

Lemma floats_closed (qs : list Q) (s : state) :
  floats (map VFloat qs) s = (Ok qs, s).
Proof.
  unfold floats.
  rewrite (for_each_append
             (fun v => match v with VFloat q => q | _ => 0%Q end)
             (fun v => exists q, v = VFloat q)).
  - rewrite map_map, map_id. reflexivity.
  - intros acc v s0 [q ->]. reflexivity.
  - apply Forall_forall. intros v Hin. apply in_map_iff in Hin.
    destruct Hin as (q & <- & _). now exists q.
Qed.

Lemma summary_of_closed (x : Q) (xs : list Q) (s : state) :
  summary_of (map VFloat (x :: xs)) s = (Ok (summary_entry x xs), s).
Proof.
  unfold summary_of. unfold bind at 1.
  rewrite (floats_closed (x :: xs) s).
  unfold bind at 1. unfold statistics_mean, ret at 1.
  unfold bind at 1. unfold min_, ret at 1.
  unfold bind at 1. unfold max_, ret at 1.
  rewrite length_map. unfold summary_entry.
  destruct xs as [|y xs]; [reflexivity|].
  destruct (Z.ltb_spec 1 (Z.of_nat (List.length (x :: y :: xs)))) as [_|H];
    [reflexivity | simpl List.length in H; lia].
Qed.

Lemma length_flat_map_repeat {A : Type} (f : string -> A) (k : nat)
    (targets : list string) :
  List.length (flat_map (fun t => repeat (f t) k) targets)
  = (List.length targets * k)%nat.
Proof.
  induction targets as [|t ts IH]; [reflexivity|].
  simpl. rewrite length_app, repeat_length, IH. reflexivity.
Qed.

Lemma summary_step (kind : string) (rs : list dict) (before : dict) (s : state) :
  dict_get before kind = None ->
  (if truthy (VList (map (fun r => VFloat (sample_latency r)) rs))
   then (entry <- summary_of (map (fun r => VFloat (sample_latency r)) rs) ;;
         ret (dict_set before kind (VDict entry)))
   else ret before) s
  = (Ok (before ++ summary_for kind (latencies rs)), s).
Proof.
  intros Hfresh. destruct rs as [|r rs].
  - simpl. rewrite app_nil_r. reflexivity.
  - rewrite <- (map_map sample_latency VFloat). cbn [map truthy].
    unfold bind.
    change (summary_of _ s)
      with (summary_of (map VFloat (sample_latency r :: map sample_latency rs)) s).
    rewrite summary_of_closed. unfold ret, latencies. cbn [map].
    unfold summary_for. f_equal. f_equal.
    clear - Hfresh. induction before as [|[k v] d IH]; [reflexivity|].
    simpl in *. destruct (String.eqb kind k); [discriminate|].
    rewrite (IH Hfresh). reflexivity.
Qed.

(** [run_benchmark] in closed form: it always returns; what it keeps are the
    successful sampler records in order; the summary is built from their
    latencies. *)
Lemma run_benchmark_closed (E : env) (cids urls : list string) (iterations : Z)
    (s : state) :
  let n := List.length (requests s) in
  let P := kept_p2p E cids iterations n in
  let C := kept_centralized E urls iterations
             (n + List.length cids * Z.to_nat iterations) in
  exists s',
    run_benchmark E cids urls iterations s =
      (Ok {| timestamp := datetime_now_isoformat E;
             p2p_results := P;
             centralized_results := C;
             summary := summary_for "p2p" (latencies P)
                        ++ summary_for "centralized" (latencies C) |},
       s') /\
    extends s s'
      (flat_map (fun cid => repeat (p2p_request E cid) (Z.to_nat iterations)) cids
       ++ flat_map (fun u => repeat (centralized_request u) (Z.to_nat iterations))
            urls).
Proof.
  intros n P C. unfold run_benchmark.
  destruct (outer_loop (p2p_iteration E) (p2p_record E) (p2p_request E)
              (substring 0 20) iterations (p2p_iteration_takes_sample E) cids [] s)
    as (s1 & H1 & X1).
  destruct (outer_loop (centralized_iteration E) (centralized_record E)
              centralized_request (substring 0 50) iterations
              (centralized_iteration_takes_sample E) urls [] s1)
    as (s2 & H2 & X2).
  simpl app in H1, H2.
  rewrite (extends_length _ _ _ X1), length_flat_map_repeat in H2.
  fold n in H1, H2. fold (kept_p2p E cids iterations n) in H1. fold P in H1.
  fold (kept_centralized E urls iterations
          (n + List.length cids * Z.to_nat iterations)) in H2. fold C in H2.
  exists s2. split; [|eapply extends_trans; eassumption].
  assert (HP : Forall success_sample P).
  { apply kept_samples, sample_targets_shape. apply p2p_record_shape. }
  assert (HC : Forall success_sample C).
  { apply kept_samples, sample_targets_shape. apply centralized_record_shape. }
  rewrite (bind_ok _ _ _ _ _ H1), (bind_ok _ _ _ _ _ H2).
  rewrite (bind_ok _ _ _ _ _ (latencies_of_closed P s2 HP)).
  rewrite (bind_ok _ _ _ _ _ (latencies_of_closed C s2 HC)).
  rewrite (bind_ok _ _ _ _ _ (summary_step "p2p" P [] s2 eq_refl)).
  simpl app.
  rewrite (bind_ok _ _ _ _ _
             (summary_step "centralized" C (summary_for "p2p" (latencies P)) s2
                ltac:(destruct (latencies P); reflexivity))).
  reflexivity.
Qed.

(** ** Summaries and steady runs *)

Lemma latencies_hundredth (rs : list dict) :
  Forall success_sample rs -> Forall hundredth (latencies rs).
Proof.
  intros H. unfold latencies. apply Forall_map.
  eapply Forall_impl; [|exact H].
  intros r [_ (k & Hk)]. unfold sample_latency. rewrite Hk. now exists k.
Qed.

Lemma sample_std_dev_entry (x : Q) (xs : list Q) :
  sample_std_dev (x :: xs) (summary_entry x xs).
Proof.
  destruct xs as [|y xs]; [reflexivity|].
  assert (Hv : (0 <= variance (x :: y :: xs))%Q)
    by (apply variance_nonneg; simpl; lia).
  destruct (round2_sqrt_nearest (variance (x :: y :: xs)) Hv) as (k & Hk & Hnear).
  exists k. split; [|split; [exact Hnear|]].
  - cbn [summary_entry dict_get String.eqb Ascii.eqb Bool.eqb].
    rewrite Hk. reflexivity.
  - now apply RealFacts.nearest_hundredth_rounds_sqrt.
Qed.

Lemma summarises_entry (kind : string) (D : list Q) (summ : dict) :
  Forall hundredth D ->
  dict_get summ kind
  = match D with [] => None | x :: xs => Some (VDict (summary_entry x xs)) end ->
  summarises D summ kind.
Proof.
  intros HD Hget. destruct D as [|x xs]; [exact Hget|].
  exists (summary_entry x xs), (round2 (mean (x :: xs))), (py_min x xs), (py_max x xs).
  split; [exact Hget|]. split; [reflexivity|].
  split; [apply round2_to_two_decimals|].
  split; [cbn [summary_entry dict_get String.eqb Ascii.eqb Bool.eqb];
          rewrite (round2_py_min x xs HD); reflexivity|].
  split; [split; [apply py_min_in | apply py_min_le]|].
  split; [cbn [summary_entry dict_get String.eqb Ascii.eqb Bool.eqb];
          rewrite (round2_py_max x xs HD); reflexivity|].
  split; [split; [apply py_max_in | apply py_max_ge]|].
  apply sample_std_dev_entry.
Qed.

Lemma summary_lookup (Lp Lc : list Q) :
  dict_get (summary_for "p2p" Lp ++ summary_for "centralized" Lc) "p2p"
  = match Lp with [] => None | x :: xs => Some (VDict (summary_entry x xs)) end /\
  dict_get (summary_for "p2p" Lp ++ summary_for "centralized" Lc) "centralized"
  = match Lc with [] => None | x :: xs => Some (VDict (summary_entry x xs)) end.
Proof. destruct Lp, Lc; split; reflexivity. Qed.

Lemma kept_p2p_samples (E : env) (cids : list string) (iterations : Z) (n : nat) :
  Forall success_sample (kept_p2p E cids iterations n).
Proof. apply kept_samples, sample_targets_shape, p2p_record_shape. Qed.

Lemma kept_centralized_samples (E : env) (urls : list string) (iterations : Z)
    (n : nat) :
  Forall success_sample (kept_centralized E urls iterations n).
Proof. apply kept_samples, sample_targets_shape, centralized_record_shape. Qed.

Lemma filter_all {A : Type} (f : A -> bool) (l : list A) :
  Forall (fun x => f x = true) l -> filter f l = l.
Proof.
  induction 1 as [|x l Hx _ IH]; [reflexivity|].
  simpl. rewrite Hx, IH. reflexivity.
Qed.

Lemma map_constant {A B : Type} (g : A -> B) (c : B) (l : list A) :
  Forall (fun x => g x = c) l -> map g l = repeat c (List.length l).
Proof.
  induction 1 as [|x l Hx _ IH]; [reflexivity|].
  simpl. rewrite Hx, IH. reflexivity.
Qed.

Lemma length_sample_targets (record : string -> nat -> dict) (targets : list string)
    (k : nat) :
  forall n, List.length (sample_targets record targets k n)
            = (List.length targets * k)%nat.
Proof.
  induction targets as [|t ts IH]; intros n; [reflexivity|].
  simpl. rewrite length_app, length_map, length_seq, IH. reflexivity.
Qed.

(** A centralized download answered after exactly 100 ms. *)
Lemma centralized_record_100ms (E : env) (u : string) (m : nat) :
  (exists r, requests_get_reply E m = Responded r) ->
  (elapsed E m == 1 # 10)%Q ->
  succeeded (centralized_record E u m) = true /\
  sample_latency (centralized_record E u m) = (10000 # 100)%Q.
Proof.
  intros [r Hr] Hd. unfold centralized_record. rewrite Hr.
  split; [reflexivity|].
  cbn [sample_latency centralized_success dict_get String.eqb Ascii.eqb Bool.eqb].
  unfold latency_at. rewrite (round2_comp _ 100); [reflexivity|].
  rewrite Hd. reflexivity.
Qed.

Lemma sample_targets_100ms (E : env) (targets : list string) (k : nat) :
  forall n,
  (forall m, (n <= m < n + List.length targets * k)%nat ->
     (exists r, requests_get_reply E m = Responded r) /\
     (elapsed E m == 1 # 10)%Q) ->
  Forall (fun rec => succeeded rec = true /\
                     sample_latency rec = (10000 # 100)%Q)
    (sample_targets (centralized_record E) targets k n).
Proof.
  induction targets as [|t ts IH]; intros n H; simpl; [constructor|].
  apply Forall_app. split.
  - apply Forall_forall. intros rec Hin. apply in_map_iff in Hin.
    destruct Hin as (m & <- & Hm). apply in_seq in Hm.
    destruct (H m) as [Hr Hd]; [simpl; lia|].
    now apply centralized_record_100ms.
  - apply IH. intros m Hm. apply H. simpl. lia.
Qed.

(** ** The dashboard leaves files, charts and the offline notice alone *)

Lemma quiet_ret {A : Type} (a : A) : quiet (ret a).
Proof.
  intros s o s' H. injection H as _ <-. exists []. apply extends_refl.
Qed.

Lemma quiet_raise {A : Type} (e : exn) : quiet (@raise A e).
Proof.
  intros s o s' H. injection H as _ <-. exists []. apply extends_refl.
Qed.

Lemma quiet_bind {A B : Type} (m : M A) (k : A -> M B) :
  quiet m -> (forall a, quiet (k a)) -> quiet (bind m k).
Proof.
  intros Hm Hk s o s' H. unfold bind in H.
  destruct (m s) as [[a|e] s1] eqn:Hms.
  - destruct (Hm _ _ _ Hms) as [r1 H1]. destruct (Hk a _ _ _ H) as [r2 H2].
    exists (r1 ++ r2). eapply extends_trans; eassumption.
  - injection H as _ <-. exact (Hm _ _ _ Hms).
Qed.

Lemma quiet_try_except {A : Type} (body : M A) (handler : exn -> option (M A)) :
  quiet body -> (forall e h, handler e = Some h -> quiet h) ->
  quiet (try_except body handler).
Proof.
  intros Hb Hh s o s' H. unfold try_except in H.
  destruct (body s) as [[a|e] s1] eqn:Hbs.
  - injection H as _ <-. exact (Hb _ _ _ Hbs).
  - destruct (Hb _ _ _ Hbs) as [r1 H1].
    destruct (handler e) as [h|] eqn:He.
    + destruct (Hh e h He _ _ _ H) as [r2 H2].
      exists (r1 ++ r2). eapply extends_trans; eassumption.
    + injection H as _ <-. eauto.
Qed.

Lemma quiet_for_each {A B : Type} (body : B -> A -> M B) (l : list A) :
  (forall acc x, quiet (body acc x)) -> forall acc, quiet (for_each l acc body).
Proof.
  intros Hbody. induction l as [|x l IH]; intros acc; simpl.
  - apply quiet_ret.
  - apply quiet_bind; [apply Hbody | intros a; apply IH].
Qed.

Lemma quiet_print (m : message) : m <> MsgBackendOffline -> quiet (print m).
Proof.
  intros Hm s o s' H. injection H as _ <-. exists [].
  now apply extends_log_line.
Qed.

Lemma quiet_requests_get (E : env) (u : string) (t : Z) : quiet (requests_get E u t).
Proof.
  intros s o s' H. unfold requests_get in H.
  exists [{| url := u; timeout := t |}].
  destruct (requests_get_reply E _); injection H as _ <-; apply extends_log_request.
Qed.

Ltac quiet_step :=
  first
    [ apply quiet_ret
    | apply quiet_raise
    | apply quiet_requests_get
    | apply quiet_print; discriminate
    | apply quiet_bind; [|intros ?]
    | apply quiet_for_each; intros ? ?
    | apply quiet_try_except; [|intros ? ? Hh; injection Hh as <-]
    | match goal with
      | |- quiet (if ?b then _ else _) => destruct b
      | |- quiet (match ?x with _ => _ end) => destruct x
      end ].

Lemma quiet_py_get (v : value) (k : string) (d : value) : quiet (py_get v k d).
Proof. unfold py_get. repeat quiet_step. Qed.

Lemma quiet_py_slice_to (v : value) (n : nat) : quiet (py_slice_to v n).
Proof. unfold py_slice_to. repeat quiet_step. Qed.

Lemma quiet_py_iter (v : value) : quiet (py_iter v).
Proof. unfold py_iter. repeat quiet_step. Qed.

Lemma quiet_py_int (E : env) (v : value) : quiet (py_int E v).
Proof. unfold py_int. repeat quiet_step. Qed.

Lemma quiet_get_info (E : env) (path failure : string) :
  quiet (get_info E path failure).
Proof. unfold get_info, response_json. repeat quiet_step. Qed.

Lemma quiet_print_peer (i : Z) (peer : value) : quiet (print_peer i peer).
Proof.
  unfold print_peer.
  repeat first [apply quiet_py_get | apply quiet_py_slice_to | quiet_step].
Qed.

Lemma quiet_print_bandwidth (E : env) (bw : value) (label key : string) (d : Q) :
  quiet (print_bandwidth E bw label key d).
Proof.
  unfold print_bandwidth.
  repeat first [apply quiet_py_get | apply quiet_py_int | quiet_step].
Qed.

Lemma quiet_print_network_dashboard (E : env) : quiet (print_network_dashboard E).
Proof.
  unfold print_network_dashboard, get_peer_info, get_network_stats.
  repeat first
    [ apply quiet_get_info | apply quiet_py_get | apply quiet_py_slice_to
    | apply quiet_py_iter | apply quiet_print_peer | apply quiet_print_bandwidth
    | quiet_step ].
Qed.

(** ** [main] in closed form *)

Lemma chart_latencies_closed (rs : list dict) (s : state) :
  Forall success_sample rs ->
  chart_latencies rs s = (Ok (map (fun r => VFloat (sample_latency r)) rs), s).
Proof.
  intros H. unfold chart_latencies.
  apply (for_each_append (fun r => VFloat (sample_latency r)) success_sample);
    [|exact H].
  intros acc r s0 [Hs (k & Hl)].
  unfold bind, getitem, sample_latency. rewrite Hs. simpl. rewrite Hl. reflexivity.
Qed.

Lemma mock_samples_success (x : Q) (xs : list Q) :
  Forall (fun r => dict_get r "success" = Some (VBool true) /\
                   exists q, dict_get r "latency_ms" = Some (VFloat q))
    (mock_samples x xs).
Proof.
  unfold mock_samples. apply Forall_map, Forall_forall.
  intros i _. split; [reflexivity | eexists; reflexivity].
Qed.

Lemma chart_latencies_mock (x : Q) (xs : list Q) (s : state) :
  chart_latencies (mock_samples x xs) s
  = (Ok (map (fun r => VFloat (sample_latency r)) (mock_samples x xs)), s).
Proof.
  unfold chart_latencies.
  apply (for_each_append (fun r => VFloat (sample_latency r))
           (fun r => dict_get r "success" = Some (VBool true) /\
                     exists q, dict_get r "latency_ms" = Some (VFloat q)));
    [|apply mock_samples_success].
  intros acc r s0 [Hs (q & Hl)].
  unfold bind, getitem, sample_latency. rewrite Hs. simpl. rewrite Hl. reflexivity.
Qed.

Lemma mock_p2p_summary_closed (x : Q) (xs : list Q) (s : state) :
  mock_p2p_summary (main_summary (x :: xs)) s = (Ok (mock_entry x xs), s).
Proof. reflexivity. Qed.

Lemma mock_p2p_results_closed (x : Q) (xs : list Q) (s : state) :
  mock_p2p_results (dict_set (main_summary (x :: xs)) "p2p" (VDict (mock_entry x xs))) s
  = (Ok (mock_samples x xs), s).
Proof. reflexivity. Qed.

Lemma generate_comparison_graph_mock (E : env) (C : list dict) (x : Q)
    (xs : list Q) (stamp : string) (s : state) :
  HAS_MATPLOTLIB E = true ->
  Forall success_sample C ->
  latencies C = x :: xs ->
  generate_comparison_graph E
    {| timestamp := stamp;
       p2p_results := mock_samples x xs;
       centralized_results := C;
       summary := dict_set (main_summary (x :: xs)) "p2p" (VDict (mock_entry x xs)) |}
    "benchmark_results.png" s
  = (Ok tt, log_line (MsgGraphSaved "benchmark_results.png")
              (log_chart (mock_chart x xs) s)).
Proof.
  intros Hplot HC HD. unfold generate_comparison_graph. rewrite Hplot.
  cbn [negb summary p2p_results centralized_results].
  do 8 (erewrite bind_ok; [|reflexivity]).
  rewrite (bind_ok _ _ _ _ _ (chart_latencies_mock x xs s)).
  rewrite (bind_ok _ _ _ _ _ (chart_latencies_closed C s HC)).
  rewrite <- (map_map sample_latency VFloat C).
  fold (latencies C). rewrite HD.
  reflexivity.
Qed.

Lemma main_summary_block (C : list dict) (s : state) :
  exists s',
    (if truthy (VList (map (fun r => VFloat (sample_latency r)) C)) then
       xs <- floats (map (fun r => VFloat (sample_latency r)) C) ;;
       avg <- statistics_mean xs ;;
       lo <- min_ xs ;;
       hi <- max_ xs ;;
       let entry := [ ("avg_latency_ms", VFloat (round2 avg));
                      ("min_latency_ms", VFloat (round2 lo));
                      ("max_latency_ms", VFloat (round2 hi)) ] in
       print (MsgSummary (VFloat (round2 avg)) (VFloat (round2 lo))
                (VFloat (round2 hi))) ;;
       ret (dict_set [] "centralized" (VDict entry))
     else ret []) s
    = (Ok (main_summary (latencies C)), s') /\
    extends s s' [].
Proof.
  destruct C as [|r C].
  - exists s. split; [reflexivity | apply extends_refl].
  - rewrite <- (map_map sample_latency VFloat). fold (latencies (r :: C)).
    change (latencies (r :: C)) with (sample_latency r :: latencies C).
    cbn [map truthy].
    change (VFloat (sample_latency r) :: map VFloat (latencies C))
      with (map VFloat (sample_latency r :: latencies C)).
    rewrite (bind_ok _ _ _ _ _ (floats_closed _ s)).
    eexists. split; [reflexivity|]. apply extends_log_line. discriminate.
Qed.

Lemma main_body_closed (E : env) (s s1 : state) :
  print_network_dashboard E s = (Ok tt, s1) ->
  let C := kept_centralized E PUBLIC_TEST_URLS 3 (List.length (requests s1)) in
  exists s2,
    main_body E s = (Ok tt, s2) /\
    requests s2 = requests s1 ++ sampling_requests /\
    files s2 = files s1 ++ [("benchmark_results.json", main_document E C)] /\
    charts s2 = charts s1 ++ main_charts E (latencies C) /\
    exists lines, console s2 = console s1 ++ lines /\ ~ In MsgBackendOffline lines.
Proof.
  intros Hdash C. unfold main_body.
  rewrite (bind_ok _ _ _ _ _ Hdash).
  destruct (outer_loop (main_iteration E) (centralized_record E) centralized_request
              (substring 0 50) 3 (main_iteration_takes_sample E)
              PUBLIC_TEST_URLS [] s1) as (sa & Hloop & Xa).
  cbn [app] in Hloop. fold (kept_centralized E PUBLIC_TEST_URLS 3
                              (List.length (requests s1))) in Hloop.
  fold C in Hloop. rewrite (bind_ok _ _ _ _ _ Hloop).
  assert (HC : Forall success_sample C) by apply kept_centralized_samples.
  rewrite (bind_ok _ _ _ _ _ (latencies_of_closed C sa HC)).
  destruct (main_summary_block C sa) as (sb & Hsumm & Xb).
  rewrite (bind_ok _ _ _ _ _ Hsumm).
  fold (main_document E C).
  unfold bind at 1, write_json at 1. unfold bind at 1, print at 1.
  pose proof (extends_trans _ _ _ _ _ Xa Xb) as X. rewrite app_nil_r in X.
  change (Z.to_nat 3) with 3%nat in X. fold sampling_requests in X.
  destruct X as (Xr & Xf & Xc & lines & Xl & Xn).
  set (sc := log_line (MsgResultsSaved "benchmark_results.json")
               (log_file "benchmark_results.json" (main_document E C) sb)).
  assert (Hnone : forall l m, m <> MsgBackendOffline -> ~ In MsgBackendOffline l ->
                              ~ In MsgBackendOffline (l ++ [m])).
  { intros l m Hm Hl Hin. apply in_app_or in Hin.
    destruct Hin as [Hin|[Hin|[]]]; [tauto | congruence]. }
  destruct (latencies C) as [|x xs] eqn:HD.
  - (* nothing was kept: no chart *)
    assert (HCnil : nonempty C = false)
      by (destruct C; [reflexivity | discriminate HD]).
    rewrite HCnil, andb_false_r.
    exists sc. split; [reflexivity|]. subst sc. simpl.
    rewrite Xr, Xf, Xc, Xl, app_nil_r, <- app_assoc.
    repeat split. eexists. split; [reflexivity|].
    apply Hnone; [discriminate | exact Xn].
  - assert (HCne : nonempty C = true) by (destruct C; [discriminate HD | reflexivity]).
    rewrite HCne, andb_true_r. unfold main_charts.
    destruct (HAS_MATPLOTLIB E) eqn:Hplot.
    + unfold main_document at 1. rewrite HD. cbn [timestamp].
      erewrite bind_ok; [|reflexivity].
      rewrite (bind_ok _ _ _ _ _ (mock_p2p_summary_closed x xs _)).
      rewrite (bind_ok _ _ _ _ _ (mock_p2p_results_closed x xs _)).
      rewrite (generate_comparison_graph_mock E C x xs _ _ Hplot HC HD).
      eexists. split; [reflexivity|]. subst sc. simpl.
      rewrite Xr, Xf, Xc, Xl, <- !app_assoc.
      repeat split. eexists. split; [reflexivity|].
      change (lines ++ [MsgResultsSaved "benchmark_results.json"]
                    ++ [MsgGeneratingGraph] ++ [MsgGraphSaved "benchmark_results.png"])
        with (lines ++ [MsgResultsSaved "benchmark_results.json";
                        MsgGeneratingGraph; MsgGraphSaved "benchmark_results.png"]).
      intros Hin. apply in_app_or in Hin.
      destruct Hin as [Hin|[Hin|[Hin|[Hin|[]]]]]; [tauto | | |]; discriminate Hin.
    + exists sc. split; [reflexivity|]. subst sc. simpl.
      rewrite Xr, Xf, Xc, Xl, app_nil_r, <- app_assoc.
      repeat split. eexists. split; [reflexivity|].
      apply Hnone; [discriminate | exact Xn].
Qed.

Lemma main_responded (E : env) (s : state) (r : response) :
  requests_get_reply E (List.length (requests s)) = Responded r ->
  main E s = main_body E (past_gate E r s).
Proof.
  intros Hr. unfold main, try_except, bind, requests_get. rewrite Hr.
  unfold past_gate, health_notice.
  destruct (status_code r =? 200)%Z; reflexivity.
Qed.

Lemma main_offline (E : env) (s : state) (msg : string) :
  requests_get_reply E (List.length (requests s)) = Failed (RequestException msg) ->
  main E s = (Ok tt, log_line MsgBackendOfflineHint
                       (log_line MsgBackendOffline
                          (log_request (health_request E) s))).
Proof.
  intros Hr. unfold main, try_except, bind, requests_get. rewrite Hr. reflexivity.
Qed.

(** ** The model at work *)

Example round2_tie_to_even_down : round2 (125 # 1000) = (12 # 100)%Q.
Proof. reflexivity. Qed.

Example round2_tie_to_even_up : round2 (135 # 1000) = (14 # 100)%Q.
Proof. reflexivity. Qed.

Example round2_negative : round2 (- (1234 # 1000)) = (-123 # 100)%Q.
Proof. reflexivity. Qed.

Example round2_sqrt_two : round2_sqrt 2 = (141 # 100)%Q.
Proof. reflexivity. Qed.

Example round2_sqrt_tie : round2_sqrt (15625 # 1000000) = (12 # 100)%Q.
Proof. reflexivity. Qed.

Example p2p_success_record :
  fst (measure_p2p_download negative_bytes_world "QmCid" initial_state)
  = Ok [ ("type", VStr "P2P"); ("cid", VStr "QmCid");
         ("latency_ms", VFloat (10000 # 100)); ("size_bytes", VInt (-1));
         ("speed_mbps", VFloat (5 # 2)); ("success", VBool true) ].
Proof. reflexivity. Qed.

Example p2p_body_not_json :
  fst (measure_p2p_download steady_world "QmCid" initial_state)
  = Ok [ ("type", VStr "P2P"); ("success", VBool false);
         ("error", VStr "Expecting value: line 1 column 1 (char 0)") ].
Proof. reflexivity. Qed.

Example latency_probe_lets_other_exceptions_through :
  fst (measure_latency
         (world [] (Failed (Exception "ValueError" "bad port")) (fun _ => 0%Q) true)
         "http://localhost:99999" 10 initial_state)
  = Raise (Exception "ValueError" "bad port").
Proof. reflexivity. Qed.

Example offline_run_console :
  console (snd (main offline_world initial_state))
  = [MsgBackendOffline; MsgBackendOfflineHint].
Proof. reflexivity. Qed.

Example dashboard_can_raise :
  fst (main (world [page; Responded (body_response 200 "[]" (inr (VList [])))]
               page (fun _ => 0%Q) true) initial_state)
  = Raise (Exception "AttributeError" "'list' object has no attribute 'get'").
Proof. reflexivity. Qed.

(** * The claims *)

Local Open Scope string_scope.
Local Open Scope list_scope.

(** ** The samplers *)

(** C10.  Whatever the P2P benchmark endpoint answers with a status other
    than 200, [measure_p2p_download] returns a failure record whose error
    field is the raw response body, the empty string when the body is
    empty. *)
Theorem p2p_non_200_error_is_body (E : env) (cid : string) (s : state)
    (r : response) :
  requests_get_reply E (List.length (requests s)) = Responded r ->
  status_code r <> 200%Z ->
  reports_failure (measure_p2p_download E cid) s (text r) /\
  (text r = "" -> reports_failure (measure_p2p_download E cid) s "").
Proof.
  intros Hr Hs.
  assert (H : reports_failure (measure_p2p_download E cid) s (text r)).
  { unfold reports_failure. rewrite measure_p2p_download_closed.
    do 2 eexists. split; [reflexivity|].
    unfold p2p_record. rewrite Hr.
    destruct (Z.eqb_spec (status_code r) 200) as [Heq|_]; [contradiction|].
    split; reflexivity. }
  split; [exact H|]. intros Hempty. rewrite <- Hempty. exact H.
Qed.

Lemma p2p_non_200_error_is_body_witness :
  reports_failure (measure_p2p_download silent_error_world "QmCid") initial_state "".
Proof.
  apply (p2p_non_200_error_is_body silent_error_world "QmCid" initial_state
           (body_response 500 "" not_json) eq_refl); [discriminate | reflexivity].
Defined.

(** C4, as stated, fails: the wall clock is set back by 10 microseconds
    while a five-byte body is downloaded.  The sample is a success and its
    throughput is the integer 0, where the stated quotient is -4 Mbit/s. *)
Lemma backward_clock_counterexample :
  exists r rec s' v,
    requests_get_reply backward_clock_world 0 = Responded r /\
    measure_centralized_download backward_clock_world "https://example.org/file"
      initial_state = (Ok rec, s') /\
    dict_get rec "success" = Some (VBool true) /\
    dict_get rec "speed_mbps" = Some v /\
    ~ throughput_as_stated (len (content r)) (elapsed backward_clock_world 0) v.
Proof.
  do 4 eexists. split; [reflexivity|]. split; [reflexivity|].
  split; [reflexivity|]. split; [reflexivity|].
  intros (q & Hq & Hstated). injection Hq as <-.
  cbn in Hstated. destruct Hstated as (_ & _ & Hhi).
  revert Hhi. unfold Qle. cbn. lia.
Qed.

(** C4, amended.  An answered centralized download is a success record
    whose size is the length of the body and whose throughput is
    [size_bytes * 8 / elapsed / 1_000_000] to two decimals when time has
    elapsed, and the integer 0 when none has or when the clock went
    backwards; the sampler returns in every case, so no division by zero
    escapes. *)
Theorem centralized_throughput (E : env) (u : string) (s : state) (r : response) :
  requests_get_reply E (List.length (requests s)) = Responded r ->
  let d := elapsed E (List.length (requests s)) in
  let size_bytes := len (content r) in
  exists rec s',
    measure_centralized_download E u s = (Ok rec, s') /\
    dict_get rec "success" = Some (VBool true) /\
    dict_get rec "size_bytes" = Some (VInt size_bytes) /\
    ((0 < d)%Q ->
       exists q,
         dict_get rec "speed_mbps" = Some (VFloat q) /\
         to_two_decimals (inject_Z (size_bytes * 8) / d / 1000000) q) /\
    ((d <= 0)%Q -> dict_get rec "speed_mbps" = Some (VInt 0)).
Proof.
  intros Hr d size_bytes. rewrite measure_centralized_download_closed.
  do 2 eexists. split; [reflexivity|].
  unfold centralized_record. rewrite Hr.
  split; [reflexivity|]. split; [reflexivity|].
  cbn [centralized_success dict_get String.eqb Ascii.eqb Bool.eqb].
  unfold speed_at. fold d. split.
  - intros Hd. destruct (Qltb 0 d) eqn:Hb.
    + eexists. split; [reflexivity | apply round2_to_two_decimals].
    + apply Qltb_false in Hb. exfalso. exact (Qlt_not_le _ _ Hd Hb).
  - intros Hd. destruct (Qltb 0 d) eqn:Hb; [|reflexivity].
    apply Qltb_true in Hb. exfalso. exact (Qlt_not_le _ _ Hb Hd).
Qed.

Lemma centralized_throughput_witness :
  requests_get_reply fast_world 0 = page /\
  exists rec s' q,
    measure_centralized_download fast_world "https://example.org/file"
      initial_state = (Ok rec, s') /\
    dict_get rec "success" = Some (VBool true) /\
    dict_get rec "size_bytes" = Some (VInt 5) /\
    dict_get rec "speed_mbps" = Some (VFloat q) /\
    to_two_decimals (inject_Z (5 * 8) / (1 # 100000) / 1000000) q.
Proof.
  split; [reflexivity|].
  destruct (centralized_throughput fast_world "https://example.org/file"
              initial_state (body_response 200 "hello" not_json) eq_refl)
    as (rec & s' & Hrun & Hok & Hsize & Hspeed & _).
  destruct Hspeed as (q & Hq & Hnear); [reflexivity|].
  exists rec, s', q. repeat split; try assumption; apply Hnear.
Defined.

(** C3, as stated, fails: the P2P endpoint answers 500 with an empty body,
    and the failure record's error field is the empty string. *)
Lemma empty_error_counterexample :
  exists r rec s',
    requests_get_reply silent_error_world 0 = Responded r /\
    status_code r = 500%Z /\
    measure_p2p_download silent_error_world "QmCid" initial_state = (Ok rec, s') /\
    ~ explained_failure rec.
Proof.
  do 3 eexists. split; [reflexivity|]. split; [reflexivity|].
  split; [reflexivity|].
  intros [_ (msg & Hmsg & Hne)]. apply Hne.
  cbv in Hmsg. congruence.
Qed.

(** C3, amended.  The two download samplers return a record whatever the
    outcome of their GET, and the latency probe does whenever the outcome is
    a response or an exception of the requests library.  On an exception the
    record has success=false and the exception's text as its error; on a
    response with a status other than 200 the P2P sampler's record has
    success=false and the response body as its error. *)
Theorem samplers_convert_failures (E : env) (target : string) (t : Z) (s : state) :
  let n := List.length (requests s) in
  returns (measure_p2p_download E target) s /\
  returns (measure_centralized_download E target) s /\
  ((forall cls msg, requests_get_reply E n <> Failed (Exception cls msg)) ->
   returns (measure_latency E target t) s) /\
  (forall e, requests_get_reply E n = Failed e ->
     reports_failure (measure_p2p_download E target) s (str_exn e) /\
     reports_failure (measure_centralized_download E target) s (str_exn e) /\
     (forall msg, e = RequestException msg ->
        reports_failure (measure_latency E target t) s msg)) /\
  (forall r, requests_get_reply E n = Responded r -> status_code r <> 200%Z ->
     reports_failure (measure_p2p_download E target) s (text r)).
Proof.
  intros n. unfold returns, reports_failure.
  rewrite measure_p2p_download_closed, measure_centralized_download_closed.
  split; [eauto|]. split; [eauto|]. split; [|split].
  - intros Hreq. fold n in Hreq.
    destruct (requests_get_reply E n) as [r|e] eqn:Hr.
    + rewrite (measure_latency_responded E target t s r Hr). eauto.
    + rewrite (measure_latency_failed E target t s e Hr).
      destruct e as [msg|cls msg]; [eauto|]. now destruct (Hreq cls msg).
  - intros e He. fold n. unfold p2p_record, centralized_record. rewrite He.
    split; [|split].
    + do 2 eexists. repeat split.
    + do 2 eexists. repeat split.
    + intros msg ->. rewrite (measure_latency_failed E target t s _ He).
      do 2 eexists. repeat split.
  - intros r Hr Hs. fold n. unfold p2p_record. rewrite Hr.
    destruct (Z.eqb_spec (status_code r) 200) as [Heq|_]; [contradiction|].
    do 2 eexists. repeat split.
Qed.

Lemma samplers_convert_failures_witness :
  reports_failure (measure_latency offline_world "http://localhost:3001" 10)
    initial_state "Connection refused".
Proof.
  destruct (samplers_convert_failures offline_world "http://localhost:3001" 10
              initial_state) as (_ & _ & _ & Hexn & _).
  destruct (Hexn (RequestException "Connection refused") eq_refl) as (_ & _ & H).
  apply (H "Connection refused" eq_refl).
Defined.

(** C9, as stated, fails: the backend answers 200 and reports -1 bytes; the
    P2P sampler passes the figure on in a success record. *)
Lemma negative_size_counterexample :
  exists rec s',
    measure_p2p_download negative_bytes_world "QmCid" initial_state = (Ok rec, s') /\
    dict_get rec "success" = Some (VBool true) /\
    ~ nonnegative_sample rec.
Proof.
  do 2 eexists. split; [reflexivity|]. split; [reflexivity|].
  intros [_ (v & Hv & Hneg)]. cbv in Hv. injection Hv as <-.
  simpl in Hneg. lia.
Qed.

(** C9, amended.  When the clock has not gone backwards around the GET:
    an answered latency probe and an answered centralized download return a
    success record whose latency is at least zero and whose size, the length
    of the body, is at least zero; the P2P sampler always returns a record,
    and when that record is a success its latency is at least zero and its
    size is whatever the backend reported under [bytes] (0 when it reported
    nothing), unchecked.  No other outcome yields a success record. *)
Theorem success_samples_nonnegative (E : env) (target : string) (t : Z)
    (s : state) :
  let n := List.length (requests s) in
  (time_before E n <= time_after E n)%Q ->
  (forall r, requests_get_reply E n = Responded r ->
     (exists rec s',
        measure_latency E target t s = (Ok rec, s') /\
        succeeded rec = true /\ nonnegative_sample rec) /\
     (exists rec s',
        measure_centralized_download E target s = (Ok rec, s') /\
        succeeded rec = true /\ nonnegative_sample rec)) /\
  (exists rec s',
     measure_p2p_download E target s = (Ok rec, s') /\
     (succeeded rec = true ->
      (exists q, dict_get rec "latency_ms" = Some (VFloat q) /\ (0 <= q)%Q) /\
      exists r d,
        requests_get_reply E n = Responded r /\
        json r = inr (VDict d) /\
        dict_get rec "size_bytes"
        = Some (match dict_get d "bytes" with Some v => v | None => VInt 0 end))) /\
  (forall e rec s',
     requests_get_reply E n = Failed e ->
     measure_latency E target t s = (Ok rec, s') \/
     measure_centralized_download E target s = (Ok rec, s') \/
     measure_p2p_download E target s = (Ok rec, s') ->
     succeeded rec = false).
Proof.
  intros n Hclock.
  assert (Hlat : (0 <= latency_at E n)%Q).
  { unfold latency_at, elapsed. apply round2_nonneg.
    apply Qmult_le_0_compat; [|discriminate].
    apply (Qplus_le_l _ _ (time_before E n)). ring_simplify. exact Hclock. }
  assert (Hlen : forall x, (0 <= len x)%Z) by (intros x; unfold len; lia).
  split; [|split].
  - intros r Hr. split.
    + rewrite (measure_latency_responded E target t s r Hr). fold n.
      do 2 eexists. split; [reflexivity|]. split; [reflexivity|].
      split; eexists; (split; [reflexivity|]); [exact Hlat | apply Hlen].
    + rewrite measure_centralized_download_closed. fold n.
      unfold centralized_record. rewrite Hr.
      do 2 eexists. split; [reflexivity|]. split; [reflexivity|].
      split; eexists; (split; [reflexivity|]); [exact Hlat | apply Hlen].
  - rewrite measure_p2p_download_closed. fold n.
    do 2 eexists. split; [reflexivity|]. intros Hok.
    unfold p2p_record in *.
    destruct (requests_get_reply E n) as [r|e]; [|discriminate Hok].
    destruct (status_code r =? 200)%Z; [|discriminate Hok].
    destruct (json r) as [e|v] eqn:Hj; [discriminate Hok|].
    destruct v; try discriminate Hok.
    split; [eexists; split; [reflexivity | exact Hlat]|].
    exists r, d. repeat split. exact Hj.
  - intros e rec s' He [Hrun|[Hrun|Hrun]].
    + rewrite (measure_latency_failed E target t s e He) in Hrun.
      destruct e; [|discriminate]. injection Hrun as <- _. reflexivity.
    + rewrite measure_centralized_download_closed in Hrun.
      injection Hrun as <- _. fold n. unfold centralized_record.
      rewrite He. reflexivity.
    + rewrite measure_p2p_download_closed in Hrun.
      injection Hrun as <- _. fold n. unfold p2p_record.
      rewrite He. reflexivity.
Qed.

Lemma success_samples_nonnegative_witness :
  (time_before steady_world 0 <= time_after steady_world 0)%Q /\
  requests_get_reply steady_world 0 = page /\
  exists rec s',
    measure_centralized_download steady_world "https://example.org/file"
      initial_state = (Ok rec, s') /\
    succeeded rec = true /\ nonnegative_sample rec.
Proof.
  assert (Hclock : (time_before steady_world 0 <= time_after steady_world 0)%Q)
    by (vm_compute; discriminate).
  split; [exact Hclock|]. split; [reflexivity|].
  exact (proj2 (proj1 (success_samples_nonnegative steady_world
                         "https://example.org/file" 10 initial_state Hclock)
                  (body_response 200 "hello" not_json) eq_refl)).
Defined.

(** ** The benchmark *)

(** C5.  [run_benchmark] always returns, and the two sequences of its result
    are exactly the sampler records flagged successful, in sampling order:
    no record with success=false is in them, and the summary is computed
    from the latencies of the records in them and from nothing else. *)
Theorem only_successes_kept (E : env) (cids urls : list string) (iterations : Z)
    (s : state) :
  let n := List.length (requests s) in
  let k := Z.to_nat iterations in
  exists res s',
    run_benchmark E cids urls iterations s = (Ok res, s') /\
    p2p_results res
    = filter succeeded (sample_targets (p2p_record E) cids k n) /\
    centralized_results res
    = filter succeeded
        (sample_targets (centralized_record E) urls k (n + List.length cids * k)) /\
    Forall (fun r => dict_get r "success" = Some (VBool true))
      (p2p_results res ++ centralized_results res) /\
    summary res
    = summary_for "p2p" (latencies (p2p_results res))
      ++ summary_for "centralized" (latencies (centralized_results res)).
Proof.
  intros n k.
  destruct (run_benchmark_closed E cids urls iterations s) as (s' & Hrun & _).
  do 2 eexists. split; [exact Hrun|]. cbn [p2p_results centralized_results summary].
  split; [reflexivity|]. split; [reflexivity|]. split; [|reflexivity].
  apply Forall_app. split.
  - eapply Forall_impl; [|apply kept_samples, sample_targets_shape, p2p_record_shape].
    intros r [H _]. exact H.
  - eapply Forall_impl;
      [|apply kept_samples, sample_targets_shape, centralized_record_shape].
    intros r [H _]. exact H.
Qed.

(** C2.  For each retrieval kind, with D the latencies of the samples
    [run_benchmark] kept for it: when D is empty the summary has no entry for
    the kind; otherwise the entry's average is the arithmetic mean of D to
    two decimals (a hundredth within half a hundredth of the mean), its
    minimum and maximum are the least and the greatest element of D, and its
    std_dev is 0 for a single sample and, for two or more, the sample
    standard deviation of D to two decimals. *)
Theorem summary_statistics (E : env) (cids urls : list string) (iterations : Z)
    (s : state) :
  exists res s',
    run_benchmark E cids urls iterations s = (Ok res, s') /\
    summarises (latencies (p2p_results res)) (summary res) "p2p" /\
    summarises (latencies (centralized_results res)) (summary res) "centralized".
Proof.
  destruct (run_benchmark_closed E cids urls iterations s) as (s' & Hrun & _).
  do 2 eexists. split; [exact Hrun|]. cbn [p2p_results centralized_results summary].
  match goal with
  | |- context [summary_for "p2p" ?a ++ summary_for "centralized" ?b] =>
      destruct (summary_lookup a b) as [Hp Hc]
  end.
  split; apply summarises_entry; try assumption; apply latencies_hundredth.
  - apply kept_p2p_samples.
  - apply kept_centralized_samples.
Qed.

(** C7, as stated, fails: two centralized downloads of 100 ms and 102 ms get
    std_dev 1.41, the sample standard deviation; their population standard
    deviation is 1. *)
Lemma population_stdev_counterexample :
  exists res s' entry,
    run_benchmark uneven_world [] ["https://example.org/file"] 2 initial_state
    = (Ok res, s') /\
    latencies (centralized_results res) = [10000 # 100; 10200 # 100]%Q /\
    dict_get (summary res) "centralized" = Some (VDict entry) /\
    dict_get entry "std_dev" = Some (VFloat (141 # 100)) /\
    ~ population_stdev (latencies (centralized_results res)) (141 # 100).
Proof.
  do 3 eexists. split; [vm_compute; reflexivity|].
  split; [reflexivity|]. split; [reflexivity|]. split; [reflexivity|].
  intros [[_ H]|H]; vm_compute in H; discriminate H.
Qed.

(** C7, amended.  The std_dev of each kind's summary entry is the sample
    standard deviation (divisor n - 1) of that kind's successful latencies to
    two decimals when there are two or more of them, and the integer 0 when
    there is exactly one; a kind without successful sample has no entry. *)
Theorem std_dev_is_sample_deviation (E : env) (cids urls : list string)
    (iterations : Z) (s : state) :
  exists res s',
    run_benchmark E cids urls iterations s = (Ok res, s') /\
    (match latencies (p2p_results res) with
     | [] => dict_get (summary res) "p2p" = None
     | D => exists entry, dict_get (summary res) "p2p" = Some (VDict entry) /\
                          sample_std_dev D entry
     end) /\
    (match latencies (centralized_results res) with
     | [] => dict_get (summary res) "centralized" = None
     | D => exists entry,
              dict_get (summary res) "centralized" = Some (VDict entry) /\
              sample_std_dev D entry
     end).
Proof.
  destruct (run_benchmark_closed E cids urls iterations s) as (s' & Hrun & _).
  do 2 eexists. split; [exact Hrun|]. cbn [p2p_results centralized_results summary].
  match goal with
  | |- context [summary_for "p2p" ?a ++ summary_for "centralized" ?b] =>
      destruct (summary_lookup a b) as [Hp Hc];
      destruct a as [|x xs]; destruct b as [|y ys]
  end;
  (split; [first [exact Hp | eexists; split; [exact Hp | apply sample_std_dev_entry]]
          | first [exact Hc | eexists; split; [exact Hc | apply sample_std_dev_entry]]]).
Qed.

(** C8.  With two URLs and three iterations, when each of the six
    centralized GETs is answered and takes exactly 100 ms, the centralized
    sequence has six records and the centralized summary reads
    avg = min = max = 100.0 and std_dev = 0.0. *)
Theorem steady_run_summary (E : env) (cids : list string) (u1 u2 : string)
    (s : state) :
  let n := (List.length (requests s) + List.length cids * 3)%nat in
  (forall j, (j < 6)%nat ->
     (exists r, requests_get_reply E (n + j) = Responded r) /\
     (elapsed E (n + j) == 1 # 10)%Q) ->
  exists res s',
    run_benchmark E cids [u1; u2] 3 s = (Ok res, s') /\
    List.length (centralized_results res) = 6%nat /\
    dict_get (summary res) "centralized"
    = Some (VDict [ ("avg_latency_ms", VFloat (10000 # 100));
                    ("min_latency_ms", VFloat (10000 # 100));
                    ("max_latency_ms", VFloat (10000 # 100));
                    ("std_dev", VFloat (0 # 100)) ]).
Proof.
  intros n Hsteady.
  destruct (run_benchmark_closed E cids [u1; u2] 3 s) as (s' & Hrun & _).
  do 2 eexists. split; [exact Hrun|]. cbn [centralized_results summary].
  change (Z.to_nat 3) with 3%nat. fold n.
  assert (Hall : Forall (fun rec => succeeded rec = true /\
                                    sample_latency rec = (10000 # 100)%Q)
                   (sample_targets (centralized_record E) [u1; u2] 3 n)).
  { apply sample_targets_100ms. intros m Hm. simpl in Hm.
    replace m with (n + (m - n))%nat by lia. apply Hsteady. lia. }
  assert (Hkept : kept_centralized E [u1; u2] 3 n
                  = sample_targets (centralized_record E) [u1; u2] 3 n).
  { apply filter_all. eapply Forall_impl; [|exact Hall]. now intros rec [H _]. }
  rewrite Hkept. split; [apply length_sample_targets|].
  assert (Hlat : latencies (sample_targets (centralized_record E) [u1; u2] 3 n)
                 = repeat (10000 # 100)%Q 6).
  { unfold latencies. rewrite (map_constant sample_latency (10000 # 100)%Q).
    - now rewrite length_sample_targets.
    - eapply Forall_impl; [|exact Hall]. now intros rec [_ H]. }
  rewrite Hlat.
  match goal with
  | |- context [summary_for "p2p" ?a ++ summary_for "centralized" ?b] =>
      rewrite (proj2 (summary_lookup a b))
  end.
  vm_compute. reflexivity.
Qed.

Lemma steady_run_summary_witness :
  (forall j, (j < 6)%nat ->
     (exists r, requests_get_reply steady_world (0 + 0 * 3 + j) = Responded r) /\
     (elapsed steady_world (0 + 0 * 3 + j) == 1 # 10)%Q) /\
  exists res s',
    run_benchmark steady_world [] PUBLIC_TEST_URLS 3 initial_state = (Ok res, s') /\
    List.length (centralized_results res) = 6%nat /\
    dict_get (summary res) "centralized"
    = Some (VDict [ ("avg_latency_ms", VFloat (10000 # 100));
                    ("min_latency_ms", VFloat (10000 # 100));
                    ("max_latency_ms", VFloat (10000 # 100));
                    ("std_dev", VFloat (0 # 100)) ]).
Proof.
  assert (H : forall j, (j < 6)%nat ->
     (exists r, requests_get_reply steady_world (0 + 0 * 3 + j) = Responded r) /\
     (elapsed steady_world (0 + 0 * 3 + j) == 1 # 10)%Q).
  { intros j Hj. split.
    - eexists. simpl. destruct j; reflexivity.
    - unfold elapsed. simpl. ring. }
  split; [exact H|].
  exact (steady_run_summary steady_world [] _ _ initial_state H).
Defined.

(** ** The entry point *)

(** C1, as stated, fails: the health probe is answered 503; [main] prints no
    offline notice and goes on to the dashboard's two GETs and to six
    download measurements. *)
Lemma non_200_counterexample :
  exists r s',
    requests_get_reply unhealthy_world 0 = Responded r /\
    status_code r = 503%Z /\
    main unhealthy_world initial_state = (Ok tt, s') /\
    ~ In MsgBackendOffline (console s') /\
    skipn 3 (requests s') = sampling_requests /\
    ~ halts_offline unhealthy_world initial_state.
Proof.
  do 2 eexists. split; [reflexivity|]. split; [reflexivity|].
  split; [vm_compute; reflexivity|].
  split; [|split; [reflexivity|]].
  - cbn [console]. intros H. repeat (destruct H as [H|H]; [discriminate H|]).
    exact H.
  - intros (s' & Hrun & _ & Hreq). vm_compute in Hrun. injection Hrun as <-.
    discriminate Hreq.
Qed.

(** C1, amended.  When the health probe raises an exception of the requests
    library, [main] prints the offline notice and returns having issued no
    other GET and written nothing.  When the probe is answered, with status
    200 or any other, [main] prints the matching notice and carries on with
    the dashboard; once the dashboard has returned, the six download
    measurements are made and the offline notice is never printed. *)
Theorem health_gate (E : env) (s : state) :
  let n := List.length (requests s) in
  (forall msg, requests_get_reply E n = Failed (RequestException msg) ->
     exists s',
       main E s = (Ok tt, s') /\
       requests s' = requests s ++ [health_request E] /\
       console s' = console s ++ [MsgBackendOffline; MsgBackendOfflineHint] /\
       files s' = files s /\ charts s' = charts s) /\
  (forall r, requests_get_reply E n = Responded r ->
     main E s = main_body E (past_gate E r s) /\
     forall s1, print_network_dashboard E (past_gate E r s) = (Ok tt, s1) ->
       exists s2 dash lines,
         main E s = (Ok tt, s2) /\
         requests s2 = requests s ++ [health_request E] ++ dash ++ sampling_requests /\
         console s2 = console s ++ [health_notice r] ++ lines /\
         ~ In MsgBackendOffline lines).
Proof.
  intros n. split.
  - intros msg Hr. rewrite (main_offline E s msg Hr).
    eexists. split; [reflexivity|]. simpl. rewrite <- app_assoc. repeat split.
  - intros r Hr. pose proof (main_responded E s r Hr) as Hmain.
    split; [exact Hmain|]. intros s1 Hdash.
    destruct (quiet_print_network_dashboard E _ _ _ Hdash)
      as (dash & Dr & _ & _ & l1 & Dl & Dn).
    destruct (main_body_closed E _ s1 Hdash) as (s2 & Hbody & Br & _ & _ & l2 & Bl & Bn).
    exists s2, dash, (l1 ++ l2). rewrite Hmain. split; [exact Hbody|].
    rewrite Br, Bl, Dr, Dl. simpl. rewrite <- !app_assoc. repeat split.
    intros Hin. apply in_app_or in Hin. tauto.
Qed.

Lemma health_gate_witness :
  requests_get_reply offline_world 0 = Failed (RequestException "Connection refused") /\
  exists s',
    main offline_world initial_state = (Ok tt, s') /\
    requests s' = [health_request offline_world] /\
    console s' = [MsgBackendOffline; MsgBackendOfflineHint] /\
    files s' = [] /\ charts s' = [].
Proof.
  split; [reflexivity|].
  exact (proj1 (health_gate offline_world initial_state) "Connection refused" eq_refl).
Defined.

(** C6.  When [main] gets past the health gate and the dashboard, the
    document it saves holds no P2P sample and no P2P summary: the mock
    figures are made only after the file is written.  When they are made
    (the plotting library is there and a centralized sample was kept) they
    are exactly 0.3, 0.2 and 0.4 times the centralized average, minimum and
    maximum, and go to the chart alone. *)
Theorem mock_figures_not_persisted (E : env) (s s1 : state) (r : response) :
  requests_get_reply E (List.length (requests s)) = Responded r ->
  print_network_dashboard E (past_gate E r s) = (Ok tt, s1) ->
  exists s2 doc,
    main E s = (Ok tt, s2) /\
    files s2 = files s ++ [("benchmark_results.json", doc)] /\
    p2p_results doc = [] /\
    dict_get (summary doc) "p2p" = None /\
    match centralized_results doc with
    | [] => charts s2 = charts s
    | _ =>
        exists avg lo hi,
          dict_get (summary doc) "centralized"
          = Some (VDict [ ("avg_latency_ms", VFloat avg);
                          ("min_latency_ms", VFloat lo);
                          ("max_latency_ms", VFloat hi) ]) /\
          if HAS_MATPLOTLIB E then
            exists c,
              charts s2 = charts s ++ [c] /\
              p2p_values c = [ VFloat (avg * (3 # 10));
                               VFloat (lo * (2 # 10));
                               VFloat (hi * (4 # 10)) ]
          else charts s2 = charts s
    end.
Proof.
  intros Hr Hdash. rewrite (main_responded E s r Hr).
  destruct (quiet_print_network_dashboard E _ _ _ Hdash) as (dash & _ & Df & Dc & _).
  destruct (main_body_closed E _ s1 Hdash) as (s2 & Hbody & _ & Bf & Bc & _).
  simpl in Df, Dc. rewrite Df in Bf. rewrite Dc in Bc.
  exists s2. eexists. split; [exact Hbody|]. split; [exact Bf|].
  split; [reflexivity|]. cbn [main_document summary centralized_results].
  split; [destruct (latencies _); reflexivity|].
  destruct (kept_centralized E PUBLIC_TEST_URLS 3 (List.length (requests s1)))
    as [|c0 C] eqn:HC.
  - rewrite Bc. simpl. apply app_nil_r.
  - change (latencies (c0 :: C)) with (sample_latency c0 :: latencies C) in *.
    do 3 eexists. split; [reflexivity|].
    unfold main_charts in Bc. destruct (HAS_MATPLOTLIB E).
    + eexists. split; [exact Bc | reflexivity].
    + rewrite Bc. apply app_nil_r.
Qed.

Lemma mock_figures_not_persisted_witness :
  exists s1 s2 doc c,
    requests_get_reply steady_world 0 = page /\
    print_network_dashboard steady_world
      (past_gate steady_world (body_response 200 "hello" not_json) initial_state)
    = (Ok tt, s1) /\
    main steady_world initial_state = (Ok tt, s2) /\
    files s2 = [("benchmark_results.json", doc)] /\
    p2p_results doc = [] /\
    dict_get (summary doc) "p2p" = None /\
    charts s2 = [c] /\
    p2p_values c = [ VFloat ((10000 # 100) * (3 # 10));
                     VFloat ((10000 # 100) * (2 # 10));
                     VFloat ((10000 # 100) * (4 # 10)) ].
Proof.
  eexists.
  assert (Hdash : print_network_dashboard steady_world
                    (past_gate steady_world (body_response 200 "hello" not_json)
                       initial_state) = (Ok tt, _)) by (vm_compute; reflexivity).
  destruct (mock_figures_not_persisted steady_world initial_state _
              (body_response 200 "hello" not_json) eq_refl Hdash)
    as (s2 & doc & Hrun & Hfiles & Hp2p & Hsum & Hchart).
  assert (Hmain : main steady_world initial_state = (Ok tt, s2)) by exact Hrun.
  vm_compute in Hrun. injection Hrun as <-.
  eexists. exists doc. eexists.
  split; [reflexivity|]. split; [exact Hdash|]. split; [exact Hmain|].
  split; [exact Hfiles|]. split; [exact Hp2p|]. split; [exact Hsum|].
  split; reflexivity.
Defined.

(** * Further properties *)

(** ** The info fetchers *)

Lemma get_info_closed (E : env) (path fallback : string) (s : state) :
  get_info E path fallback s
  = (Ok (info_value (requests_get_reply E (List.length (requests s))) fallback),
     log_request {| url := BACKEND_URL E ++ path; timeout := 10 |} s).
Proof.
  unfold get_info, try_except, bind, requests_get, info_value.
  destruct (requests_get_reply E (List.length (requests s))) as [r|e]; [|reflexivity].
  destruct (status_code r =? 200)%Z; [|reflexivity].
  unfold response_json. destruct (json r); reflexivity.
Qed.

Lemma fetch_failure_value (rep : reply) (fallback m : string) :
  fetch_failure rep fallback = Some m -> info_value rep fallback = failure_value m.
Proof.
  unfold fetch_failure, info_value. destruct rep as [r|e].
  - destruct (status_code r =? 200)%Z.
    + destruct (json r); [intros H; injection H as <-; reflexivity | discriminate].
    + intros H. injection H as <-. reflexivity.
  - intros H. injection H as <-. reflexivity.
Qed.

(** X1.  [get_peer_info] and [get_network_stats] never raise: each issues
    one GET with a 10 s timeout and returns a value.  When the GET raised,
    was answered with a status other than 200, or its body was not JSON, the
    value is the failure dict with the matching text; when it was answered
    200 with JSON, the value is that JSON untouched, whatever its shape. *)
Theorem info_fetchers_never_raise (E : env) (s : state) :
  let rep := requests_get_reply E (List.length (requests s)) in
  (exists v,
     get_peer_info E s = (Ok v, log_request (peer_info_request E) s) /\
     (forall m, fetch_failure rep "Failed to get peer info" = Some m ->
        v = failure_value m) /\
     (forall r j, rep = Responded r -> status_code r = 200%Z -> json r = inr j ->
        v = j)) /\
  (exists v,
     get_network_stats E s = (Ok v, log_request (stats_request E) s) /\
     (forall m, fetch_failure rep "Failed to get stats" = Some m ->
        v = failure_value m) /\
     (forall r j, rep = Responded r -> status_code r = 200%Z -> json r = inr j ->
        v = j)).
Proof.
  intros rep. unfold get_peer_info, get_network_stats.
  rewrite !get_info_closed. fold rep.
  split; eexists; (split; [reflexivity|]); split;
    try (intros m Hm; now apply fetch_failure_value);
    intros r j -> Hs Hj; unfold info_value; rewrite Hs, Hj; reflexivity.
Qed.

(** ** The dashboard *)

Lemma bind_assoc {A B C : Type} (m : M A) (f : A -> M B) (g : B -> M C) (s : state) :
  bind (bind m f) g s = bind m (fun a => bind (f a) g) s.
Proof.
  unfold bind. destruct (m s) as [[a|e] s1]; [|reflexivity].
  destruct (f a s1) as [[b|e] s2]; reflexivity.
Qed.

Lemma dashboard_split (E : env) (s : state) :
  print_network_dashboard E s
  = bind (get_peer_info E)
      (fun peer_info =>
         bind (peer_report peer_info)
           (fun _ => bind (get_network_stats E) (stats_report E))) s.
Proof.
  unfold print_network_dashboard, peer_report, stats_report, bind.
  destruct (get_peer_info E s) as [[v|e] s1]; [|reflexivity].
  destruct (py_get v "success" VNone s1) as [[ok|e] s2]; reflexivity.
Qed.

Lemma dashboard_run (E : env) (s : state) :
  let n := List.length (requests s) in
  print_network_dashboard E s
  = bind (peer_report (info_value (requests_get_reply E n) "Failed to get peer info"))
      (fun _ => bind (get_network_stats E) (stats_report E))
      (log_request (peer_info_request E) s).
Proof.
  intros n. rewrite dashboard_split. unfold get_peer_info.
  rewrite (bind_ok _ _ _ _ _
             (get_info_closed E "/api/ipfs/info" "Failed to get peer info" s)).
  reflexivity.
Qed.

Lemma stats_run (E : env) (s : state) :
  bind (get_network_stats E) (stats_report E) s
  = stats_report E
      (info_value (requests_get_reply E (List.length (requests s)))
         "Failed to get stats")
      (log_request (stats_request E) s).
Proof.
  unfold get_network_stats.
  rewrite (bind_ok _ _ _ _ _ (get_info_closed E "/api/stats" "Failed to get stats" s)).
  reflexivity.
Qed.

Lemma report_non_object (E : env) (v : value) (s : state) :
  (forall d, v <> VDict d) ->
  let e := Exception "AttributeError"
             ("'" ++ type_name v ++ "' object has no attribute 'get'") in
  peer_report v s = (Raise e, s) /\ stats_report E v s = (Raise e, s).
Proof.
  intros Hv. destruct v; try (split; reflexivity). now destruct (Hv d).
Qed.

Lemma length_after_request (r : request) (s : state) :
  List.length (requests (log_request r s)) = S (List.length (requests s)).
Proof. simpl. rewrite length_app. simpl. lia. Qed.

(** X2.  When neither dashboard endpoint yields the backend's JSON (the GET
    raised, the status was not 200, or the body was not JSON), the dashboard
    still returns normally: it has issued its two GETs, printed the one line
    that reports the peer-info failure with its text, and said nothing about
    the statistics. *)
Theorem dashboard_degrades (E : env) (s : state) (m1 m2 : string) :
  let n := List.length (requests s) in
  fetch_failure (requests_get_reply E n) "Failed to get peer info" = Some m1 ->
  fetch_failure (requests_get_reply E (S n)) "Failed to get stats" = Some m2 ->
  exists s',
    print_network_dashboard E s = (Ok tt, s') /\
    requests s' = requests s ++ [peer_info_request E; stats_request E] /\
    console s' = console s ++ [MsgPeerInfoFailed (VStr m1)] /\
    files s' = files s /\ charts s' = charts s.
Proof.
  intros n H1 H2. rewrite dashboard_run. fold n.
  rewrite (fetch_failure_value _ _ _ H1).
  erewrite bind_ok; [|reflexivity].
  rewrite stats_run. cbn [log_line requests].
  change (requests s ++ [peer_info_request E])
    with (requests (log_request (peer_info_request E) s)).
  rewrite length_after_request. fold n.
  rewrite (fetch_failure_value _ _ _ H2).
  eexists. split; [reflexivity|]. simpl. rewrite <- app_assoc. repeat split.
Qed.

Lemma dashboard_degrades_witness :
  fetch_failure (requests_get_reply offline_world 0) "Failed to get peer info"
  = Some "Connection refused" /\
  fetch_failure (requests_get_reply offline_world 1) "Failed to get stats"
  = Some "Connection refused" /\
  exists s',
    print_network_dashboard offline_world initial_state = (Ok tt, s') /\
    console s' = [MsgPeerInfoFailed (VStr "Connection refused")].
Proof.
  split; [reflexivity|]. split; [reflexivity|].
  destruct (dashboard_degrades offline_world initial_state
              "Connection refused" "Connection refused" eq_refl eq_refl)
    as (s' & Hrun & _ & Hcon & _).
  exists s'. split; [exact Hrun | exact Hcon].
Defined.

(** X3.  When the health probe is answered and the peer-info endpoint then
    answers 200 with JSON that is not an object, [main] ends with an
    AttributeError raised in the dashboard: it has issued only those two
    GETs, so no download is measured, no results file is written and no
    chart is drawn. *)
Theorem malformed_info_aborts_main (E : env) (s : state) (r0 r1 : response)
    (v : value) :
  let n := List.length (requests s) in
  requests_get_reply E n = Responded r0 ->
  requests_get_reply E (S n) = Responded r1 ->
  status_code r1 = 200%Z ->
  json r1 = inr v ->
  (forall d, v <> VDict d) ->
  exists s',
    main E s
    = (Raise (Exception "AttributeError"
                ("'" ++ type_name v ++ "' object has no attribute 'get'")), s') /\
    requests s' = requests s ++ [health_request E; peer_info_request E] /\
    files s' = files s /\ charts s' = charts s.
Proof.
  intros n H0 H1 Hs Hj Hv.
  rewrite (main_responded E s r0 H0). unfold main_body.
  erewrite bind_raise.
  2:{ rewrite dashboard_run. unfold past_gate. cbn [log_line requests].
      change (requests s ++ [health_request E])
        with (requests (log_request (health_request E) s)).
      rewrite length_after_request. fold n. rewrite H1.
      unfold info_value. rewrite Hs, Hj.
      apply bind_raise. apply (report_non_object E v _ Hv). }
  eexists. split; [reflexivity|]. simpl. rewrite <- app_assoc. repeat split.
Qed.

Lemma malformed_info_aborts_main_witness :
  requests_get_reply list_info_world 0 = page /\
  requests_get_reply list_info_world 1 = json_page (VList []) /\
  exists s',
    main list_info_world initial_state
    = (Raise (Exception "AttributeError" "'list' object has no attribute 'get'"), s') /\
    requests s' = [health_request list_info_world; peer_info_request list_info_world] /\
    files s' = [] /\ charts s' = [].
Proof.
  split; [reflexivity|]. split; [reflexivity|].
  apply (malformed_info_aborts_main list_info_world initial_state
           (body_response 200 "hello" not_json)
           (body_response 200 "(json)" (inr (VList []))) (VList [])
           eq_refl eq_refl eq_refl eq_refl).
  intros d. discriminate.
Defined.

Lemma prints_refl (s : state) : prints s s [].
Proof. unfold prints. rewrite app_nil_r. repeat split. Qed.

Lemma prints_trans (s1 s2 s3 : state) (l1 l2 : list message) :
  prints s1 s2 l1 -> prints s2 s3 l2 -> prints s1 s3 (l1 ++ l2).
Proof.
  intros (Hr1 & Hf1 & Hc1 & Hl1) (Hr2 & Hf2 & Hc2 & Hl2). unfold prints.
  rewrite Hr2, Hr1, Hf2, Hf1, Hc2, Hc1, Hl2, Hl1, app_assoc. repeat split.
Qed.

Lemma prints_log_line (m : message) (s : state) : prints s (log_line m s) [m].
Proof. unfold prints. simpl. repeat split. Qed.

(** *** Which lines a part of the dashboard can print, however it ends *)

Lemma prints_only_ret (P : message -> bool) {A : Type} (a : A) :
  prints_only P (ret a).
Proof.
  intros s o s' H. injection H as _ <-. exists []. split; [apply prints_refl | reflexivity].
Qed.

Lemma prints_only_raise (P : message -> bool) {A : Type} (e : exn) :
  prints_only P (@raise A e).
Proof.
  intros s o s' H. injection H as _ <-. exists []. split; [apply prints_refl | reflexivity].
Qed.

Lemma prints_only_print (P : message -> bool) (m : message) :
  P m = true -> prints_only P (print m).
Proof.
  intros Hm s o s' H. injection H as _ <-. exists [m].
  split; [apply prints_log_line | simpl; rewrite Hm; reflexivity].
Qed.

Lemma prints_only_bind (P : message -> bool) {A B : Type} (m : M A) (k : A -> M B) :
  prints_only P m -> (forall a, prints_only P (k a)) -> prints_only P (bind m k).
Proof.
  intros Hm Hk s o s' H. unfold bind in H.
  destruct (m s) as [[a|e] s1] eqn:Hms.
  - destruct (Hm _ _ _ Hms) as (l1 & H1 & F1).
    destruct (Hk a _ _ _ H) as (l2 & H2 & F2).
    exists (l1 ++ l2). split; [eapply prints_trans; eassumption|].
    rewrite forallb_app, F1, F2. reflexivity.
  - injection H as _ <-. exact (Hm _ _ _ Hms).
Qed.

Lemma prints_only_for_each (P : message -> bool) {A B : Type}
    (body : B -> A -> M B) (l : list A) :
  (forall acc x, prints_only P (body acc x)) ->
  forall acc, prints_only P (for_each l acc body).
Proof.
  intros Hbody. induction l as [|x l IH]; intros acc; simpl.
  - apply prints_only_ret.
  - apply prints_only_bind; [apply Hbody | intros a; apply IH].
Qed.

Ltac prints_only_step :=
  first
    [ apply prints_only_ret
    | apply prints_only_raise
    | apply prints_only_print; reflexivity
    | apply prints_only_bind; [|intros ?]
    | apply prints_only_for_each; intros ? ?
    | match goal with
      | |- prints_only _ (if ?b then _ else _) => destruct b
      | |- prints_only _ (match ?x with _ => _ end) => destruct x
      end ].

Lemma prints_only_py_get (P : message -> bool) (v : value) (k : string) (d : value) :
  prints_only P (py_get v k d).
Proof. unfold py_get. repeat prints_only_step. Qed.

Lemma prints_only_py_slice_to (P : message -> bool) (v : value) (n : nat) :
  prints_only P (py_slice_to v n).
Proof. unfold py_slice_to. repeat prints_only_step. Qed.

Lemma prints_only_py_iter (P : message -> bool) (v : value) :
  prints_only P (py_iter v).
Proof. unfold py_iter. repeat prints_only_step. Qed.

Lemma prints_only_py_int (P : message -> bool) (E : env) (v : value) :
  prints_only P (py_int E v).
Proof. unfold py_int. repeat prints_only_step. Qed.

Lemma peer_report_lines (v : value) : prints_only not_bandwidth (peer_report v).
Proof.
  unfold peer_report, print_peer.
  repeat first
    [ apply prints_only_py_get | apply prints_only_py_slice_to
    | apply prints_only_py_iter | prints_only_step ].
Qed.

Lemma stats_report_lines (E : env) (v : value) :
  prints_only is_bandwidth (stats_report E v).
Proof.
  unfold stats_report, print_bandwidth.
  repeat first
    [ apply prints_only_py_get | apply prints_only_py_int | prints_only_step ].
Qed.

Lemma print_peer_line (i : Z) (d : dict) (s : state) :
  text_field d "peerId" ->
  print_peer i (VDict d) s
  = (Ok (i + 1)%Z,
     log_line (MsgPeer i (shown_id d "peerId") (field_or d "address" (VStr "N/A"))
                 (field_or d "latency" (VStr "N/A"))) s).
Proof.
  intros [H|[t H]]; unfold print_peer, bind, py_get, shown_id, field_or;
    rewrite H; reflexivity.
Qed.

Lemma peer_loop (peers : list dict) :
  Forall (fun d => text_field d "peerId") peers ->
  forall (i : Z) (s : state),
  exists s',
    for_each (map VDict peers) i print_peer s
    = (Ok (i + Z.of_nat (List.length peers))%Z, s') /\
    prints s s' (peer_lines i peers).
Proof.
  induction 1 as [|d peers Hd _ IH]; intros i s.
  - exists s. simpl. rewrite Z.add_0_r. split; [reflexivity | apply prints_refl].
  - cbn [map for_each]. rewrite (bind_ok _ _ _ _ _ (print_peer_line i d s Hd)).
    destruct (IH (i + 1)%Z
                (log_line (MsgPeer i (shown_id d "peerId")
                             (field_or d "address" (VStr "N/A"))
                             (field_or d "latency" (VStr "N/A"))) s))
      as (s' & Hrun & Hp).
    exists s'. rewrite Hrun. split.
    + do 2 f_equal. simpl List.length. lia.
    + change (peer_lines i (d :: peers))
        with ([MsgPeer i (shown_id d "peerId") (field_or d "address" (VStr "N/A"))
                 (field_or d "latency" (VStr "N/A"))]
              ++ peer_lines (i + 1) peers).
      eapply prints_trans; [apply prints_log_line | exact Hp].
Qed.

Lemma Forall_firstn {A : Type} (P : A -> Prop) (n : nat) (l : list A) :
  Forall P l -> Forall P (firstn n l).
Proof.
  intros H. revert n. induction H as [|x l Hx _ IH]; intros [|n]; simpl;
    constructor; auto.
Qed.

Lemma length_peer_lines (peers : list dict) :
  forall i, List.length (peer_lines i peers) = List.length peers.
Proof. induction peers as [|d peers IH]; intros i; simpl; [|rewrite IH]; reflexivity. Qed.

Lemma peer_report_listing (info : dict) (peers : list dict) (s : state) :
  truthy (field_or info "success" VNone) = true ->
  text_field info "nodeId" ->
  field_or info "peers" (VList []) = VList (map VDict peers) ->
  Forall (fun d => text_field d "peerId") peers ->
  exists s',
    peer_report (VDict info) s = (Ok tt, s') /\
    prints s s'
      (MsgNode (shown_id info "nodeId") (field_or info "agentVersion" (VStr "N/A"))
         (field_or info "peerCount" (VInt 0))
       :: peer_lines 1 (firstn 5 peers)).
Proof.
  intros Hok Hid Hpeers Hall. unfold peer_report.
  erewrite bind_ok; [|reflexivity]. fold (field_or info "success" VNone).
  rewrite Hok.
  assert (Hslice : forall s0,
             bind (py_get (VDict info) "nodeId" (VStr "N/A"))
               (fun node_id => py_slice_to node_id 20) s0
             = (Ok (shown_id info "nodeId"), s0)).
  { intros s0. unfold bind, py_get, shown_id.
    destruct Hid as [H|[t H]]; rewrite H; reflexivity. }
  rewrite <- bind_assoc. rewrite (bind_ok _ _ _ _ _ (Hslice s)).
  do 3 (erewrite bind_ok; [|reflexivity]).
  erewrite bind_ok; [|reflexivity].
  fold (field_or info "peers" (VList [])). rewrite Hpeers.
  set (s1 := log_line _ s).
  assert (P1 : prints s s1 [MsgNode (shown_id info "nodeId")
                              (field_or info "agentVersion" (VStr "N/A"))
                              (field_or info "peerCount" (VInt 0))])
    by apply prints_log_line.
  destruct peers as [|d peers].
  - exists s1. split; [reflexivity|]. exact P1.
  - cbn [map truthy].
    do 2 (erewrite bind_ok; [|reflexivity]).
    change (firstn 5 (VDict d :: map VDict peers))
      with (firstn 5 (map VDict (d :: peers))).
    rewrite firstn_map.
    destruct (peer_loop (firstn 5 (d :: peers)) (Forall_firstn _ 5 _ Hall) 1%Z s1)
      as (s2 & Hloop & P2).
    rewrite (bind_ok _ _ _ _ _ Hloop).
    exists s2. split; [reflexivity|].
    exact (prints_trans _ _ _ _ _ P1 P2).
Qed.

(** X4.  When the peer-info endpoint answers 200 with a JSON object whose
    success flag is set, whose node id is a string or missing and whose peers
    are objects with a string (or no) peer id, the dashboard prints the node
    line and then one line per peer for the first five peers only, numbered
    from 1, ids cut to 20 characters and missing fields shown as N/A.
    Whatever the stats endpoint then does (it answers, it fails, or it sends
    something that makes the dashboard raise), the stats are requested next
    and nothing but bandwidth lines follows the peer list. *)
Theorem dashboard_lists_five_peers (E : env) (s : state) (r : response)
    (info : dict) (peers : list dict) :
  let n := List.length (requests s) in
  requests_get_reply E n = Responded r ->
  status_code r = 200%Z ->
  json r = inr (VDict info) ->
  truthy (field_or info "success" VNone) = true ->
  text_field info "nodeId" ->
  field_or info "peers" (VList []) = VList (map VDict peers) ->
  Forall (fun d => text_field d "peerId") peers ->
  exists out s' rest,
    print_network_dashboard E s = (out, s') /\
    console s'
    = console s
      ++ (MsgNode (shown_id info "nodeId") (field_or info "agentVersion" (VStr "N/A"))
            (field_or info "peerCount" (VInt 0))
          :: peer_lines 1 (firstn 5 peers))
      ++ rest /\
    forallb is_bandwidth rest = true /\
    (List.length (peer_lines 1 (firstn 5 peers)) <= 5)%nat /\
    requests s' = requests s ++ [peer_info_request E; stats_request E].
Proof.
  intros n Hr Hs Hj Hok Hid Hpeers Hall.
  assert (Hlen : (List.length (peer_lines 1 (firstn 5 peers)) <= 5)%nat)
    by (rewrite length_peer_lines, length_firstn; lia).
  rewrite dashboard_run. fold n. rewrite Hr. unfold info_value. rewrite Hs, Hj.
  destruct (peer_report_listing info peers (log_request (peer_info_request E) s)
              Hok Hid Hpeers Hall) as (s1 & Hrep & Pr & Pf & Pc & Pl).
  rewrite (bind_ok _ _ _ _ _ Hrep). rewrite stats_run.
  match goal with
  | |- exists out s' rest, stats_report E ?v ?s0 = _ /\ _ =>
      destruct (stats_report E v s0) as [out s'] eqn:Hst;
      destruct (stats_report_lines E v _ _ _ Hst) as (rest & (Sr & _ & _ & Sl) & Hrest)
  end.
  exists out, s', rest. split; [reflexivity|].
  cbn [log_request requests console] in Sr, Sl.
  cbn [log_request requests console] in Pr, Pl.
  split; [rewrite Sl, Pl, <- app_assoc; reflexivity|].
  split; [exact Hrest|]. split; [exact Hlen|].
  rewrite Sr, Pr, <- app_assoc. reflexivity.
Qed.

Lemma dashboard_lists_five_peers_witness :
  requests_get_reply backend_world 1 = json_page (VDict peers_info) /\
  Forall (fun d => text_field d "peerId") six_peers /\
  exists out s' rest,
    print_network_dashboard backend_world (at_dashboard backend_world) = (out, s') /\
    console s'
    = [ MsgBackendOnline ]
      ++ [ MsgNode (VStr "12D3KooWNodeIdentity") (VStr "kubo/0.22.0") (VInt 6);
           MsgPeer 1 (VStr "12D3KooWA") (VStr "/ip4/10.0.0.1") (VStr "4ms");
           MsgPeer 2 (VStr "12D3KooWB") (VStr "/ip4/10.0.0.2") (VStr "N/A");
           MsgPeer 3 (VStr "N/A") (VStr "/ip4/10.0.0.3") (VStr "9ms");
           MsgPeer 4 (VStr "12D3KooWDabcdefghijk") (VStr "N/A") (VStr "N/A");
           MsgPeer 5 (VStr "12D3KooWE") (VStr "N/A") (VStr "N/A") ]
      ++ rest /\
    forallb is_bandwidth rest = true.
Proof.
  assert (Hall : Forall (fun d => text_field d "peerId") six_peers).
  { unfold text_field, six_peers.
    repeat (apply Forall_cons;
            [first [left; reflexivity | right; eexists; reflexivity]|]).
    apply Forall_nil. }
  split; [reflexivity|]. split; [exact Hall|].
  destruct (dashboard_lists_five_peers backend_world (at_dashboard backend_world)
              (body_response 200 "(json)" (inr (VDict peers_info)))
              peers_info six_peers
              eq_refl eq_refl eq_refl eq_refl
              (or_intror (ex_intro _ _ eq_refl)) eq_refl Hall)
    as (out & s' & rest & Hrun & Hcon & Hrest & _).
  exists out, s', rest. split; [exact Hrun|]. split; [exact Hcon | exact Hrest].
Defined.

Lemma print_bandwidth_counter (E : env) (bw : dict) (label key : string) (z : Z)
    (divisor : Q) (s : state) :
  counter bw key z ->
  print_bandwidth E (VDict bw) label key divisor s
  = (Ok tt, log_line (MsgBandwidth label (inject_Z z / divisor)) s).
Proof.
  intros [[H ->]|H]; unfold print_bandwidth, bind, py_get; rewrite H; reflexivity.
Qed.

(** X5.  When the stats endpoint answers 200 with a JSON object whose
    success flag is set and whose bandwidth counters are integers or missing,
    a dashboard that returns has ended its output with four bandwidth lines:
    the two totals divided by 1024 * 1024 and the two rates divided by 1024.
    A counter that is missing counts as 0, and so do all four when the
    bandwidth object itself is missing.  This holds
    whatever the peer-info endpoint did: the peer part comes first and prints
    no bandwidth line.  The dashboard can fail to return only because the
    peer part raised, and then the stats were never requested. *)
Theorem dashboard_bandwidth (E : env) (s : state) (r : response)
    (stats bw : dict) (tin tout rin rout : Z) :
  let n := List.length (requests s) in
  requests_get_reply E (S n) = Responded r ->
  status_code r = 200%Z ->
  json r = inr (VDict stats) ->
  truthy (field_or stats "success" VNone) = true ->
  field_or stats "bandwidth" (VDict []) = VDict bw ->
  counter bw "totalIn" tin -> counter bw "totalOut" tout ->
  counter bw "rateIn" rin -> counter bw "rateOut" rout ->
  exists out s' before,
    print_network_dashboard E s = (out, s') /\
    forallb not_bandwidth before = true /\
    match out with
    | Ok _ =>
        requests s' = requests s ++ [peer_info_request E; stats_request E] /\
        console s' = console s ++ before ++ bandwidth_lines tin tout rin rout
    | Raise _ =>
        requests s' = requests s ++ [peer_info_request E] /\
        console s' = console s ++ before
    end.
Proof.
  intros n Hr Hs Hj Hok Hbw Ha Hb Hc Hd.
  rewrite dashboard_run. fold n.
  match goal with
  | |- exists out s' before, bind (peer_report ?v) _ ?s0 = _ /\ _ =>
      destruct (peer_report v s0) as [o1 s1] eqn:Hpeer;
      destruct (peer_report_lines v _ _ _ Hpeer)
        as (before & (Pr & _ & _ & Pl) & Hbefore)
  end.
  cbn [log_request requests console] in Pr, Pl.
  destruct o1 as [[]|e].
  - rewrite (bind_ok _ _ _ _ _ Hpeer). rewrite stats_run.
    assert (Hn : List.length (requests s1) = S n)
      by (rewrite Pr, length_app; simpl; lia).
    rewrite Hn, Hr. unfold info_value. rewrite Hs, Hj. unfold stats_report.
    erewrite bind_ok; [|reflexivity]. fold (field_or stats "success" VNone).
    rewrite Hok.
    erewrite bind_ok; [|reflexivity]. fold (field_or stats "bandwidth" (VDict [])).
    rewrite Hbw.
    rewrite (bind_ok _ _ _ _ _ (print_bandwidth_counter E bw _ _ _ _ _ Ha)).
    rewrite (bind_ok _ _ _ _ _ (print_bandwidth_counter E bw _ _ _ _ _ Hb)).
    rewrite (bind_ok _ _ _ _ _ (print_bandwidth_counter E bw _ _ _ _ _ Hc)).
    rewrite (print_bandwidth_counter E bw _ _ _ _ _ Hd).
    eexists (Ok tt), _, before. split; [reflexivity|]. split; [exact Hbefore|].
    cbn [log_line log_request requests console].
    rewrite Pr, Pl, <- !app_assoc. split; reflexivity.
  - rewrite (bind_raise _ _ _ _ _ Hpeer).
    exists (Raise e), s1, before. split; [reflexivity|]. split; [exact Hbefore|].
    split; assumption.
Qed.

Lemma dashboard_bandwidth_witness :
  requests_get_reply backend_world 2 = json_page (VDict bandwidth_stats) /\
  exists s' before,
    print_network_dashboard backend_world (at_dashboard backend_world) = (Ok tt, s') /\
    forallb not_bandwidth before = true /\
    console s'
    = [ MsgBackendOnline ]
      ++ before
      ++ [ MsgBandwidth "Total In" (inject_Z 2097152 / (1024 * 1024));
           MsgBandwidth "Total Out" (inject_Z 0 / (1024 * 1024));
           MsgBandwidth "Rate In" (inject_Z 512 / 1024);
           MsgBandwidth "Rate Out" (inject_Z 0 / 1024) ].
Proof.
  split; [reflexivity|].
  destruct (dashboard_bandwidth backend_world (at_dashboard backend_world)
              (body_response 200 "(json)" (inr (VDict bandwidth_stats)))
              bandwidth_stats
              [ ("totalIn", VInt 2097152); ("rateIn", VInt 512) ]
              2097152 0 512 0
              eq_refl eq_refl eq_refl eq_refl eq_refl
              (or_intror eq_refl) (or_introl (conj eq_refl eq_refl))
              (or_intror eq_refl) (or_introl (conj eq_refl eq_refl)))
    as (out & s' & before & Hrun & Hbefore & Hout).
  assert (Hok : out = Ok tt).
  { assert (H : fst (print_network_dashboard backend_world
                       (at_dashboard backend_world)) = Ok tt)
      by (vm_compute; reflexivity).
    rewrite Hrun in H. exact H. }
  subst out. destruct Hout as [_ Hcon].
  exists s', before. split; [exact Hrun|]. split; [exact Hbefore | exact Hcon].
Defined.

(** In a world where both endpoints answer, the whole dashboard. *)
Example dashboard_of_a_healthy_backend :
  exists s',
    print_network_dashboard backend_world (at_dashboard backend_world) = (Ok tt, s') /\
    console s'
    = [ MsgBackendOnline;
        MsgNode (VStr "12D3KooWNodeIdentity") (VStr "kubo/0.22.0") (VInt 6);
        MsgPeer 1 (VStr "12D3KooWA") (VStr "/ip4/10.0.0.1") (VStr "4ms");
        MsgPeer 2 (VStr "12D3KooWB") (VStr "/ip4/10.0.0.2") (VStr "N/A");
        MsgPeer 3 (VStr "N/A") (VStr "/ip4/10.0.0.3") (VStr "9ms");
        MsgPeer 4 (VStr "12D3KooWDabcdefghijk") (VStr "N/A") (VStr "N/A");
        MsgPeer 5 (VStr "12D3KooWE") (VStr "N/A") (VStr "N/A");
        MsgBandwidth "Total In" (inject_Z 2097152 / (1024 * 1024));
        MsgBandwidth "Total Out" (inject_Z 0 / (1024 * 1024));
        MsgBandwidth "Rate In" (inject_Z 512 / 1024);
        MsgBandwidth "Rate Out" (inject_Z 0 / 1024) ] /\
    requests s'
    = [ health_request backend_world; peer_info_request backend_world;
        stats_request backend_world ].
Proof. eexists. split; [reflexivity|]. split; reflexivity. Qed.

(** ** The benchmark and its chart *)

Lemma graph_closed (E : env) (P C : list dict) (stamp out : string) (s1 : state) :
  Forall success_sample P ->
  Forall success_sample C ->
  let summ := summary_for "p2p" (latencies P)
              ++ summary_for "centralized" (latencies C) in
  generate_comparison_graph E
    {| timestamp := stamp; p2p_results := P; centralized_results := C;
       summary := summ |} out s1
  = (Ok tt,
     if HAS_MATPLOTLIB E then
       log_line (MsgGraphSaved out)
         (log_chart {| output_file := out;
                       p2p_values := bars summ "p2p";
                       central_values := bars summ "centralized";
                       box_data := boxes P C |} s1)
     else log_line MsgNoMatplotlib s1).
Proof.
  intros HP HC summ. unfold generate_comparison_graph.
  destruct (HAS_MATPLOTLIB E); cbn [negb]; [|reflexivity].
  cbn [p2p_results centralized_results summary]. subst summ.
  destruct P as [|p P], C as [|c C];
    do 8 (erewrite bind_ok; [|reflexivity]);
    rewrite (bind_ok _ _ _ _ _ (chart_latencies_closed _ s1 HP));
    rewrite (bind_ok _ _ _ _ _ (chart_latencies_closed _ s1 HC));
    reflexivity.
Qed.

(** Reading a result can fail: a record flagged successful without a
    latency stops the chart with a KeyError, before anything is drawn. *)
Example graph_of_malformed_result :
  generate_comparison_graph steady_world
    {| timestamp := "2024-01-01T00:00:00";
       p2p_results := [ [ ("success", VBool true) ] ];
       centralized_results := [];
       summary := [] |}
    "benchmark_results.png" initial_state
  = (Raise (Exception "KeyError" "'latency_ms'"), initial_state).
Proof. reflexivity. Qed.

(** X6.  What [generate_comparison_graph] makes of a result of
    [run_benchmark].  Reading the result never fails: every key that is
    read is there and holds what is expected, so nothing is raised before
    the plotting library is called (the library itself is taken to accept
    the calls).  With the library, exactly one image is saved, under the
    given name, and announced on the console: each kind's bars are the
    average, minimum and maximum of its summary entry, or three zeros when
    the kind has none; the distribution plot has a box, holding all its
    latencies, for each kind that kept a sample and no box for a kind that
    kept none; the standard deviation is not drawn.  Without the library,
    no image is saved and one warning is printed.  Either way no JSON
    document is written or changed. *)
Theorem graph_of_benchmark (E : env) (cids urls : list string) (iterations : Z)
    (out : string) (s : state) :
  exists res s1 s2,
    run_benchmark E cids urls iterations s = (Ok res, s1) /\
    generate_comparison_graph E res out s1 = (Ok tt, s2) /\
    files s2 = files s /\
    requests s2 = requests s1 /\
    (p2p_results res = [] -> bars (summary res) "p2p" = [VInt 0; VInt 0; VInt 0]) /\
    (centralized_results res = [] ->
     bars (summary res) "centralized" = [VInt 0; VInt 0; VInt 0]) /\
    if HAS_MATPLOTLIB E then
      charts s2
      = charts s
        ++ [ {| output_file := out;
                p2p_values := bars (summary res) "p2p";
                central_values := bars (summary res) "centralized";
                box_data := boxes (p2p_results res) (centralized_results res) |} ] /\
      console s2 = console s1 ++ [MsgGraphSaved out]
    else charts s2 = charts s /\ console s2 = console s1 ++ [MsgNoMatplotlib].
Proof.
  destruct (run_benchmark_closed E cids urls iterations s)
    as (s1 & Hrun & _ & Hf & Hc & _).
  pose proof (kept_p2p_samples E cids iterations (List.length (requests s))) as HP.
  pose proof (kept_centralized_samples E urls iterations
                (List.length (requests s)
                 + List.length cids * Z.to_nat iterations)) as HC.
  revert Hrun HP HC.
  generalize (kept_p2p E cids iterations (List.length (requests s))).
  generalize (kept_centralized E urls iterations
                (List.length (requests s)
                 + List.length cids * Z.to_nat iterations)).
  intros C P Hrun HP HC.
  do 3 eexists. split; [exact Hrun|].
  split; [apply (graph_closed E P C _ out s1 HP HC)|].
  cbn [p2p_results centralized_results summary].
  split; [destruct (HAS_MATPLOTLIB E); exact Hf|].
  split; [destruct (HAS_MATPLOTLIB E); reflexivity|].
  split; [intros ->; destruct C; reflexivity|].
  split; [intros ->; destruct P; reflexivity|].
  destruct (HAS_MATPLOTLIB E); cbn [charts console log_line log_chart].
  - rewrite Hc. split; reflexivity.
  - split; [exact Hc | reflexivity].
Qed.

Lemma filter_map_length {A B : Type} (f : A -> B) (p : B -> bool) (q : A -> bool)
    (l : list A) :
  (forall x, p (f x) = q x) ->
  List.length (filter p (map f l)) = List.length (filter q l).
Proof.
  intros H. induction l as [|x l IH]; [reflexivity|].
  simpl. rewrite H. destruct (q x); simpl; rewrite IH; reflexivity.
Qed.

Lemma kept_count (record : string -> nat -> dict) (ok : nat -> bool)
    (targets : list string) (k : nat) :
  (forall t m, succeeded (record t m) = ok m) ->
  forall n,
    List.length (filter succeeded (sample_targets record targets k n))
    = List.length (filter ok (seq n (List.length targets * k))).
Proof.
  intros H. induction targets as [|t ts IH]; intros n; [reflexivity|].
  cbn [sample_targets List.length Nat.mul].
  rewrite seq_app, !filter_app, !length_app, IH.
  rewrite (filter_map_length (record t) succeeded ok); [reflexivity | apply H].
Qed.

Lemma succeeded_centralized (E : env) (u : string) (m : nat) :
  succeeded (centralized_record E u m) = answered E m.
Proof.
  unfold centralized_record, answered.
  destruct (requests_get_reply E m); reflexivity.
Qed.

Lemma succeeded_p2p (E : env) (cid : string) (m : nat) :
  succeeded (p2p_record E cid m) = answered_object E m.
Proof.
  unfold p2p_record, answered_object.
  destruct (requests_get_reply E m) as [r|e]; [|reflexivity].
  destruct (status_code r =? 200)%Z; [|reflexivity].
  destruct (json r) as [e|v]; [reflexivity|]. destruct v; reflexivity.
Qed.

(** X7.  [run_benchmark] keeps one record per GET that counts as a success
    and none for the others.  A centralized GET counts as soon as it is
    answered, whatever its HTTP status (a 404 or a 500 is kept and enters
    the statistics); a P2P GET counts only when answered with status 200 and
    a JSON object. *)
Theorem kept_sample_counts (E : env) (cids urls : list string) (iterations : Z)
    (s : state) :
  let n := List.length (requests s) in
  let k := Z.to_nat iterations in
  exists res s',
    run_benchmark E cids urls iterations s = (Ok res, s') /\
    List.length (p2p_results res)
    = List.length (filter (answered_object E) (seq n (List.length cids * k))) /\
    List.length (centralized_results res)
    = List.length (filter (answered E)
                     (seq (n + List.length cids * k) (List.length urls * k))).
Proof.
  intros n k.
  destruct (run_benchmark_closed E cids urls iterations s) as (s' & Hrun & _).
  do 2 eexists. split; [exact Hrun|]. cbn [p2p_results centralized_results].
  unfold kept_p2p, kept_centralized. split; apply kept_count; intros t m.
  - apply succeeded_p2p.
  - apply succeeded_centralized.
Qed.

(** X8.  [run_benchmark] issues exactly one GET per target and iteration, all
    P2P targets first and then all URLs, each with a 60 s timeout and never
    repeated; it writes no file and draws no chart.  With an iteration count
    of zero or less it issues no GET at all and returns empty sequences and
    an empty summary. *)
Theorem benchmark_requests (E : env) (cids urls : list string) (iterations : Z)
    (s : state) :
  let k := Z.to_nat iterations in
  exists res s',
    run_benchmark E cids urls iterations s = (Ok res, s') /\
    requests s'
    = requests s
      ++ flat_map (fun cid => repeat (p2p_request E cid) k) cids
      ++ flat_map (fun u => repeat (centralized_request u) k) urls /\
    List.length (requests s')
    = (List.length (requests s) + (List.length cids + List.length urls) * k)%nat /\
    files s' = files s /\
    charts s' = charts s /\
    ((iterations <= 0)%Z ->
     requests s' = requests s /\
     p2p_results res = [] /\ centralized_results res = [] /\ summary res = []).
Proof.
  intros k.
  destruct (run_benchmark_closed E cids urls iterations s)
    as (s' & Hrun & Hr & Hf & Hc & _).
  fold k in Hr. do 2 eexists. split; [exact Hrun|].
  split; [exact Hr|]. split; [|split; [exact Hf|split; [exact Hc|]]].
  - rewrite Hr, !length_app, !length_flat_map_repeat. lia.
  - intros Hle. assert (Hk : k = 0%nat) by (unfold k; lia).
    assert (Hnone : forall (A : Type) (f : string -> A) (l : list string),
               flat_map (fun t => repeat (f t) 0) l = []).
    { intros A f l. induction l as [|t l IH]; [reflexivity | exact IH]. }
    assert (Hempty : forall record targets m,
               sample_targets record targets 0 m = []).
    { intros record targets. induction targets as [|t ts IH]; intros m;
        [reflexivity | apply IH]. }
    cbn [p2p_results centralized_results summary].
    unfold kept_p2p, kept_centralized. fold k. rewrite Hk in *.
    rewrite !Hempty. rewrite !Hnone, !app_nil_r in Hr.
    repeat split. exact Hr.
Qed.

(** ** The summary is ordered *)

Lemma Qlen_cons (a : Q) (l : list Q) : (Qlen (a :: l) == Qlen l + 1)%Q.
Proof.
  unfold Qlen. cbn [List.length]. rewrite Nat2Z.inj_succ. unfold Z.succ.
  rewrite inject_Z_plus. reflexivity.
Qed.

Lemma Qlen_nonneg (l : list Q) : (0 <= Qlen l)%Q.
Proof. unfold Qlen. change 0%Q with (inject_Z 0). rewrite <- Zle_Qle. lia. Qed.

Lemma Qsum_lower (m : Q) (l : list Q) :
  (forall y, In y l -> (m <= y)%Q) -> (Qlen l * m <= Qsum l)%Q.
Proof.
  induction l as [|a l IH]; intros H.
  - unfold Qlen. simpl. rewrite Qmult_0_l. apply Qle_refl.
  - rewrite Qlen_cons. cbn [Qsum fold_right].
    setoid_replace ((Qlen l + 1) * m)%Q with (m + Qlen l * m)%Q by ring.
    apply Qplus_le_compat; [apply H; now left | apply IH; intros y Hy; apply H; now right].
Qed.

Lemma Qsum_upper (m : Q) (l : list Q) :
  (forall y, In y l -> (y <= m)%Q) -> (Qsum l <= Qlen l * m)%Q.
Proof.
  induction l as [|a l IH]; intros H.
  - unfold Qlen. simpl. rewrite Qmult_0_l. apply Qle_refl.
  - rewrite Qlen_cons. cbn [Qsum fold_right].
    setoid_replace ((Qlen l + 1) * m)%Q with (m + Qlen l * m)%Q by ring.
    apply Qplus_le_compat; [apply H; now left | apply IH; intros y Hy; apply H; now right].
Qed.

Lemma Qlen_pos (x : Q) (xs : list Q) : (0 < Qlen (x :: xs))%Q.
Proof.
  rewrite Qlen_cons. pose proof (Qlen_nonneg xs) as H.
  apply Qle_lt_trans with (Qlen xs + 0)%Q.
  - rewrite Qplus_0_r. exact H.
  - apply Qplus_lt_r. reflexivity.
Qed.

(** The mean lies between the least and the greatest element. *)
Lemma mean_between (x : Q) (xs : list Q) :
  (py_min x xs <= mean (x :: xs) /\ mean (x :: xs) <= py_max x xs)%Q.
Proof.
  unfold mean. split.
  - apply Qle_shift_div_l; [apply Qlen_pos|].
    rewrite Qmult_comm. apply Qsum_lower. intros y Hy. now apply py_min_le.
  - apply Qle_shift_div_r; [apply Qlen_pos|].
    rewrite Qmult_comm. apply Qsum_upper. intros y Hy. now apply py_max_ge.
Qed.

Lemma round_half_even_mono (x y : Q) :
  (x <= y)%Q -> (round_half_even x <= round_half_even y)%Z.
Proof.
  intros Hxy.
  destruct (Z_le_gt_dec (round_half_even x) (round_half_even y)) as [H|H];
    [exact H|].
  exfalso.
  destruct (round_half_even_near x) as [Hx _].
  destruct (round_half_even_near y) as [_ Hy].
  assert (Hz : (inject_Z (round_half_even y) + 1 <= inject_Z (round_half_even x))%Q).
  { change 1%Q with (inject_Z 1). rewrite <- inject_Z_plus, <- Zle_Qle. lia. }
  assert (Heq : (x == y)%Q).
  { apply Qle_antisym; [exact Hxy|].
    revert Hx Hy Hz.
    generalize (inject_Z (round_half_even x)) (inject_Z (round_half_even y)).
    intros a b Hx Hy Hz. lra. }
  rewrite (round_half_even_comp x y Heq) in H. lia.
Qed.

Lemma round2_mono (x y : Q) : (x <= y)%Q -> (round2 x <= round2 y)%Q.
Proof.
  intros H. unfold round2, Qle. cbn [Qnum Qden].
  apply Z.mul_le_mono_nonneg_r; [lia|].
  apply round_half_even_mono.
  apply Qmult_le_compat_r; [exact H | discriminate].
Qed.

Lemma round2_sqrt_nonneg (v : Q) : (0 <= v)%Q -> (0 <= round2_sqrt v)%Q.
Proof.
  intros Hv. destruct (round2_sqrt_nearest v Hv) as (k & -> & Hk & _).
  unfold Qle. simpl. lia.
Qed.

Lemma summary_entry_ordered (x : Q) (xs : list Q) : ordered_entry (summary_entry x xs).
Proof.
  destruct (mean_between x xs) as [Hlo Hhi].
  exists (round2 (mean (x :: xs))), (round2 (py_min x xs)), (round2 (py_max x xs)).
  split; [reflexivity|]. split; [reflexivity|]. split; [reflexivity|].
  split; [now apply round2_mono|]. split; [now apply round2_mono|].
  cbn [summary_entry dict_get String.eqb Ascii.eqb Bool.eqb].
  destruct xs as [|y xs]; [simpl; lia|].
  apply round2_sqrt_nonneg, variance_nonneg. simpl. lia.
Qed.

(** X9.  Every entry of the summary [run_benchmark] returns is ordered: its
    minimum is at most its average, its average at most its maximum, and
    its standard deviation is not negative. *)
Theorem summary_is_ordered (E : env) (cids urls : list string) (iterations : Z)
    (s : state) :
  exists res s',
    run_benchmark E cids urls iterations s = (Ok res, s') /\
    forall kind entry,
      dict_get (summary res) kind = Some (VDict entry) -> ordered_entry entry.
Proof.
  destruct (run_benchmark_closed E cids urls iterations s) as (s' & Hrun & _).
  do 2 eexists. split; [exact Hrun|]. cbn [summary].
  intros kind entry H.
  destruct (latencies _) as [|x xs], (latencies _) as [|y ys]; simpl in H;
    repeat match type of H with
           | context [String.eqb kind ?k] => destruct (String.eqb kind k)
           end;
    try discriminate H; injection H as <-; apply summary_entry_ordered.
Qed.

(** ** More on [main] *)

Lemma filter_none {A : Type} (f : A -> bool) (l : list A) :
  (forall x, In x l -> f x = false) -> filter f l = [].
Proof.
  induction l as [|x l IH]; intros H; [reflexivity|].
  simpl. rewrite (H x (or_introl eq_refl)). apply IH. intros y Hy. apply H. now right.
Qed.

Lemma nothing_kept (E : env) (urls : list string) (iterations : Z) (n : nat) :
  (forall j, (j < List.length urls * Z.to_nat iterations)%nat ->
             answered E (n + j) = false) ->
  kept_centralized E urls iterations n = [].
Proof.
  intros H. apply length_zero_iff_nil. unfold kept_centralized.
  rewrite (kept_count (centralized_record E) (answered E));
    [|intros; apply succeeded_centralized].
  rewrite filter_none; [reflexivity|].
  intros m Hm. apply in_seq in Hm.
  replace m with (n + (m - n))%nat by lia. apply H. lia.
Qed.

(** X10.  When [main] is past the health gate and the dashboard and every
    one of its six downloads fails, it still returns normally: it has made
    the six GETs, saved a results file whose sequences and summary are all
    empty, and drawn no chart, with or without the plotting library. *)
Theorem all_downloads_failing (E : env) (s s1 : state) (r : response) :
  requests_get_reply E (List.length (requests s)) = Responded r ->
  print_network_dashboard E (past_gate E r s) = (Ok tt, s1) ->
  (forall j, (j < 6)%nat -> answered E (List.length (requests s1) + j) = false) ->
  exists s2,
    main E s = (Ok tt, s2) /\
    requests s2 = requests s1 ++ sampling_requests /\
    files s2
    = files s
      ++ [ ("benchmark_results.json",
            {| timestamp := datetime_now_isoformat E;
               p2p_results := [];
               centralized_results := [];
               summary := [] |}) ] /\
    charts s2 = charts s.
Proof.
  intros Hr Hdash Hfail. rewrite (main_responded E s r Hr).
  destruct (quiet_print_network_dashboard E _ _ _ Hdash) as (dash & _ & Df & Dc & _).
  destruct (main_body_closed E _ s1 Hdash) as (s2 & Hbody & Br & Bf & Bc & _).
  rewrite (nothing_kept E PUBLIC_TEST_URLS 3 _ Hfail) in Bf, Bc.
  simpl in Df, Dc. rewrite Df in Bf. rewrite Dc in Bc.
  exists s2. split; [exact Hbody|]. split; [exact Br|].
  split; [exact Bf|]. rewrite Bc. apply app_nil_r.
Qed.

Lemma all_downloads_failing_witness :
  exists s1 s2,
    requests_get_reply downloads_down_world 0 = page /\
    print_network_dashboard downloads_down_world (at_dashboard downloads_down_world)
    = (Ok tt, s1) /\
    (forall j, (j < 6)%nat ->
       answered downloads_down_world (List.length (requests s1) + j) = false) /\
    main downloads_down_world initial_state = (Ok tt, s2) /\
    files s2
    = [ ("benchmark_results.json",
         {| timestamp := "2024-01-01T00:00:00";
            p2p_results := []; centralized_results := []; summary := [] |}) ] /\
    charts s2 = [].
Proof.
  eexists.
  assert (Hdash : print_network_dashboard downloads_down_world
                    (at_dashboard downloads_down_world) = (Ok tt, _))
    by (vm_compute; reflexivity).
  match type of Hdash with
  | _ = (_, ?s1) =>
      assert (Hfail : forall j, (j < 6)%nat ->
                answered downloads_down_world (List.length (requests s1) + j) = false)
        by (intros j _; unfold answered; simpl; destruct j; reflexivity)
  end.
  destruct (all_downloads_failing downloads_down_world initial_state _
              (body_response 200 "hello" not_json) eq_refl Hdash Hfail)
    as (s2 & Hrun & _ & Hfiles & Hcharts).
  exists s2. split; [reflexivity|]. split; [exact Hdash|]. split; [exact Hfail|].
  split; [exact Hrun|]. split; [exact Hfiles | exact Hcharts].
Defined.

(** X11.  When [main] draws its chart, the P2P box of the distribution plot
    holds five made-up latencies: 0.3 times the centralized average, shifted
    by -10, -5, 0, 5 and 10 ms; the centralized box holds the latencies of
    the saved samples.  None of the five is in the saved file. *)
Theorem mock_samples_in_chart (E : env) (s s1 : state) (r : response) :
  requests_get_reply E (List.length (requests s)) = Responded r ->
  print_network_dashboard E (past_gate E r s) = (Ok tt, s1) ->
  HAS_MATPLOTLIB E = true ->
  exists s2 doc,
    main E s = (Ok tt, s2) /\
    files s2 = files s ++ [("benchmark_results.json", doc)] /\
    p2p_results doc = [] /\
    match centralized_results doc with
    | [] => charts s2 = charts s
    | _ =>
        exists entry avg c,
          dict_get (summary doc) "centralized" = Some (VDict entry) /\
          dict_get entry "avg_latency_ms" = Some (VFloat avg) /\
          charts s2 = charts s ++ [c] /\
          box_data c
          = [ ("P2P (IPFS)",
               map (fun shift => VFloat (avg * (3 # 10) + inject_Z shift))
                 [-10; -5; 0; 5; 10]%Z);
              ("Centralized",
               map (fun rec => VFloat (sample_latency rec))
                 (centralized_results doc)) ]
    end.
Proof.
  intros Hr Hdash Hplot. rewrite (main_responded E s r Hr).
  destruct (quiet_print_network_dashboard E _ _ _ Hdash) as (dash & _ & Df & Dc & _).
  destruct (main_body_closed E _ s1 Hdash) as (s2 & Hbody & _ & Bf & Bc & _).
  simpl in Df, Dc. rewrite Df in Bf. rewrite Dc in Bc.
  exists s2. eexists. split; [exact Hbody|]. split; [exact Bf|].
  split; [reflexivity|]. cbn [main_document summary centralized_results].
  revert Bc.
  generalize (kept_centralized E PUBLIC_TEST_URLS 3 (List.length (requests s1))).
  intros [|c0 C] Bc.
  - rewrite Bc. apply app_nil_r.
  - unfold main_charts in Bc.
    change (latencies (c0 :: C)) with (sample_latency c0 :: latencies C) in *.
    rewrite Hplot in Bc.
    do 3 eexists. split; [reflexivity|]. split; [reflexivity|].
    split; [exact Bc|]. cbn [box_data mock_chart].
    unfold latencies. rewrite <- (map_map sample_latency VFloat (c0 :: C)).
    reflexivity.
Qed.

Lemma mock_samples_in_chart_witness :
  exists s1 s2 c,
    requests_get_reply steady_world 0 = page /\
    print_network_dashboard steady_world (at_dashboard steady_world) = (Ok tt, s1) /\
    HAS_MATPLOTLIB steady_world = true /\
    main steady_world initial_state = (Ok tt, s2) /\
    charts s2 = [c] /\
    nth 0 (box_data c) ("", [])
    = ("P2P (IPFS)",
       map (fun shift => VFloat ((10000 # 100) * (3 # 10) + inject_Z shift))
         [-10; -5; 0; 5; 10]%Z).
Proof.
  eexists.
  assert (Hdash : print_network_dashboard steady_world (at_dashboard steady_world)
                  = (Ok tt, _)) by (vm_compute; reflexivity).
  destruct (mock_samples_in_chart steady_world initial_state _
              (body_response 200 "hello" not_json) eq_refl Hdash eq_refl)
    as (s2 & doc & Hrun & _).
  assert (Hmain : main steady_world initial_state = (Ok tt, s2)) by exact Hrun.
  vm_compute in Hrun. injection Hrun as <-.
  eexists. eexists.
  split; [reflexivity|]. split; [exact Hdash|]. split; [reflexivity|].
  split; [exact Hmain|]. split; reflexivity.
Defined.

(** ** The latency probe *)

(** X12.  [measure_latency] treats its three outcomes differently.  An
    answered GET is a success whatever its HTTP status: the record carries
    the status code as received, the body length and the rounded latency.
    An exception of the requests library becomes a failure record that
    carries the URL and the exception's text.  Any other exception is not
    caught: it leaves the probe, which the two download samplers never
    allow. *)
Theorem latency_probe_contract (E : env) (u : string) (t : Z) (s : state) :
  let n := List.length (requests s) in
  let s' := log_request {| url := u; timeout := t |} s in
  (forall r, requests_get_reply E n = Responded r ->
     exists rec,
       measure_latency E u t s = (Ok rec, s') /\
       dict_get rec "success" = Some (VBool true) /\
       dict_get rec "status" = Some (VInt (status_code r)) /\
       dict_get rec "size_bytes" = Some (VInt (len (content r))) /\
       dict_get rec "latency_ms" = Some (VFloat (round2 (elapsed E n * 1000))) /\
       dict_get rec "error" = None) /\
  (forall msg, requests_get_reply E n = Failed (RequestException msg) ->
     exists rec,
       measure_latency E u t s = (Ok rec, s') /\
       dict_get rec "success" = Some (VBool false) /\
       dict_get rec "url" = Some (VStr u) /\
       dict_get rec "error" = Some (VStr msg) /\
       dict_get rec "latency_ms" = None) /\
  (forall cls msg, requests_get_reply E n = Failed (Exception cls msg) ->
     measure_latency E u t s = (Raise (Exception cls msg), s') /\
     returns (measure_centralized_download E u) s /\
     returns (measure_p2p_download E u) s).
Proof.
  intros n s'. split; [|split].
  - intros r Hr. rewrite (measure_latency_responded E u t s r Hr).
    eexists. split; [reflexivity|]. repeat split.
  - intros msg Hr. rewrite (measure_latency_failed E u t s _ Hr).
    eexists. split; [reflexivity|]. repeat split.
  - intros cls msg Hr. rewrite (measure_latency_failed E u t s _ Hr).
    split; [reflexivity|]. unfold returns.
    rewrite measure_centralized_download_closed, measure_p2p_download_closed.
    split; eauto.
Qed.

(** ** [main] and [run_benchmark] *)

(** X13.  The sampling [main] does by itself is that of
    [run_benchmark([], PUBLIC_TEST_URLS, 3)] started after the dashboard: the
    saved document holds the same centralized records, and its centralized
    summary has the same average, minimum and maximum; only the standard
    deviation, which [run_benchmark] reports, is left out by [main]. *)
Theorem main_samples_like_benchmark (E : env) (s s1 : state) (r : response) :
  requests_get_reply E (List.length (requests s)) = Responded r ->
  print_network_dashboard E (past_gate E r s) = (Ok tt, s1) ->
  exists s2 doc res sb,
    main E s = (Ok tt, s2) /\
    files s2 = files s ++ [("benchmark_results.json", doc)] /\
    run_benchmark E [] PUBLIC_TEST_URLS 3 s1 = (Ok res, sb) /\
    centralized_results doc = centralized_results res /\
    p2p_results doc = p2p_results res /\
    match dict_get (summary res) "centralized" with
    | None => summary doc = [] /\ summary res = []
    | Some v =>
        exists entry entry',
          v = VDict entry /\
          dict_get (summary doc) "centralized" = Some (VDict entry') /\
          dict_get entry' "avg_latency_ms" = dict_get entry "avg_latency_ms" /\
          dict_get entry' "min_latency_ms" = dict_get entry "min_latency_ms" /\
          dict_get entry' "max_latency_ms" = dict_get entry "max_latency_ms" /\
          dict_get entry' "std_dev" = None /\
          dict_get entry "std_dev" <> None
    end.
Proof.
  intros Hr Hdash. rewrite (main_responded E s r Hr).
  destruct (quiet_print_network_dashboard E _ _ _ Hdash) as (dash & _ & Df & _).
  destruct (main_body_closed E _ s1 Hdash) as (s2 & Hbody & _ & Bf & _).
  destruct (run_benchmark_closed E [] PUBLIC_TEST_URLS 3 s1) as (sb & Hrun & _).
  simpl in Df. rewrite Df in Bf.
  cbn [List.length Nat.mul] in Hrun. rewrite Nat.add_0_r in Hrun.
  exists s2. do 3 eexists. split; [exact Hbody|]. split; [exact Bf|].
  split; [exact Hrun|].
  cbn [main_document centralized_results p2p_results summary].
  split; [reflexivity|]. split; [reflexivity|].
  change (latencies (kept_p2p E [] 3 (List.length (requests s1)))) with (@nil Q).
  generalize (latencies (kept_centralized E PUBLIC_TEST_URLS 3
                           (List.length (requests s1)))).
  intros [|x xs]; cbn [summary_for main_summary app dict_get String.eqb Ascii.eqb
                       Bool.eqb].
  - split; reflexivity.
  - do 2 eexists. split; [reflexivity|]. split; [reflexivity|].
    repeat split. destruct xs; discriminate.
Qed.

Lemma main_samples_like_benchmark_witness :
  exists s1 s2 doc res sb,
    requests_get_reply steady_world 0 = page /\
    print_network_dashboard steady_world (at_dashboard steady_world) = (Ok tt, s1) /\
    main steady_world initial_state = (Ok tt, s2) /\
    files s2 = [("benchmark_results.json", doc)] /\
    run_benchmark steady_world [] PUBLIC_TEST_URLS 3 s1 = (Ok res, sb) /\
    centralized_results doc = centralized_results res.
Proof.
  eexists.
  assert (Hdash : print_network_dashboard steady_world (at_dashboard steady_world)
                  = (Ok tt, _)) by (vm_compute; reflexivity).
  destruct (main_samples_like_benchmark steady_world initial_state _
              (body_response 200 "hello" not_json) eq_refl Hdash)
    as (s2 & doc & res & sb & Hmain & Hfiles & Hrun & Hsame & _).
  exists s2, doc, res, sb.
  split; [reflexivity|]. split; [exact Hdash|]. split; [exact Hmain|].
  split; [exact Hfiles|]. split; [exact Hrun | exact Hsame].
Defined.

(** ** The P2P sampler, case by case *)

(** X14.  [measure_p2p_download], answered with status 200: when the body
    is a JSON object the record is a success that carries the content id,
    the latency measured by the client and, copied from the object, the
    size under [bytes] and the speed under [speedMbps], each read as 0 when
    the key is missing; when the body is JSON but not an object, or not
    JSON at all, the record is a failure whose error is the text of the
    exception raised while reading it. *)
Theorem p2p_sampler_cases (E : env) (cid : string) (s : state) (r : response) :
  let n := List.length (requests s) in
  requests_get_reply E n = Responded r ->
  status_code r = 200%Z ->
  match json r with
  | inr (VDict d) =>
      exists rec s',
        measure_p2p_download E cid s = (Ok rec, s') /\
        dict_get rec "success" = Some (VBool true) /\
        dict_get rec "cid" = Some (VStr cid) /\
        dict_get rec "latency_ms" = Some (VFloat (round2 (elapsed E n * 1000))) /\
        dict_get rec "size_bytes" = Some (field_or d "bytes" (VInt 0)) /\
        dict_get rec "speed_mbps" = Some (field_or d "speedMbps" (VInt 0)) /\
        dict_get rec "error" = None
  | inr v =>
      reports_failure (measure_p2p_download E cid) s
        ("'" ++ type_name v ++ "' object has no attribute 'get'")
  | inl e => reports_failure (measure_p2p_download E cid) s (str_exn e)
  end.
Proof.
  intros n Hr Hs. unfold reports_failure.
  rewrite measure_p2p_download_closed. fold n.
  unfold p2p_record. rewrite Hr, Hs. cbn [Z.eqb Pos.eqb].
  destruct (json r) as [e|v].
  - do 2 eexists. repeat split.
  - destruct v; do 2 eexists; repeat split.
Qed.

Lemma p2p_sampler_cases_witness :
  requests_get_reply negative_bytes_world 0
  = Responded (body_response 200
                 ("{" ++ quoted "bytes" ++ ": -1, " ++ quoted "speedMbps" ++ ": 2.5}")
                 (inr (VDict [ ("bytes", VInt (-1)); ("speedMbps", VFloat (5 # 2)) ]))) /\
  exists rec s',
    measure_p2p_download negative_bytes_world "QmCid" initial_state = (Ok rec, s') /\
    dict_get rec "success" = Some (VBool true) /\
    dict_get rec "speed_mbps" = Some (VFloat (5 # 2)).
Proof.
  split; [reflexivity|].
  destruct (p2p_sampler_cases negative_bytes_world "QmCid" initial_state _
              eq_refl eq_refl)
    as (rec & s' & Hrun & Hok & _ & _ & _ & Hspeed & _).
  exists rec, s'. split; [exact Hrun|]. split; [exact Hok | exact Hspeed].
Defined.

(** ** What the sampling loops print *)

Lemma advances_refl (s : state) : advances s s [] [].
Proof. unfold advances. rewrite !app_nil_r. repeat split. Qed.

Lemma advances_trans (s1 s2 s3 : state) (r1 r2 : list request)
    (l1 l2 : list message) :
  advances s1 s2 r1 l1 -> advances s2 s3 r2 l2 ->
  advances s1 s3 (r1 ++ r2) (l1 ++ l2).
Proof.
  intros (Hr1 & Hf1 & Hc1 & Hl1) (Hr2 & Hf2 & Hc2 & Hl2). unfold advances.
  rewrite Hr2, Hr1, Hf2, Hf1, Hc2, Hc1, Hl2, Hl1, !app_assoc. repeat split.
Qed.

Lemma advances_request (req : request) (s s' : state) (lines : list message) :
  prints (log_request req s) s' lines -> advances s s' [req] lines.
Proof. intros (Hr & Hf & Hc & Hl). unfold advances. rewrite Hr, Hf, Hc, Hl. repeat split. Qed.

Lemma advances_length (s s' : state) (reqs : list request) (lines : list message) :
  advances s s' reqs lines ->
  List.length (requests s') = (List.length (requests s) + List.length reqs)%nat.
Proof. intros (Hr & _). rewrite Hr. apply length_app. Qed.

Ltac sampling_step closed shape line :=
  intros acc i s; cbv zeta;
  match goal with
  | |- exists s', ?body _ _ _ _ _ = _ /\ _ => unfold body
  end;
  unfold bind at 1; rewrite closed;
  match goal with
  | st : state |- _ =>
      destruct (shape (List.length (requests st)))
        as [(kind & msg & Hr)|[[Hs (k & Hl)] (speed & Hp)]];
      [ rewrite Hr; eexists; split; [reflexivity|]
      | unfold bind, getitem, line, succeeded, field_or;
        rewrite Hs; simpl; rewrite ?Hl, ?Hp;
        eexists; split; [reflexivity|] ]
  end;
  first [ apply prints_log_line | apply prints_refl ].

Lemma p2p_iteration_prints (E : env) (cid : string) :
  samples_and_prints (p2p_iteration E cid) (p2p_record E cid) (p2p_request E cid)
    benchmark_line.
Proof.
  sampling_step (measure_p2p_download_closed E cid) (p2p_record_shape E cid)
                benchmark_line.
Qed.

Lemma centralized_iteration_prints (E : env) (u : string) :
  samples_and_prints (centralized_iteration E u) (centralized_record E u)
    (centralized_request u) benchmark_line.
Proof.
  sampling_step (measure_centralized_download_closed E u)
                (centralized_record_shape E u) benchmark_line.
Qed.

Lemma main_iteration_prints (E : env) (u : string) :
  samples_and_prints (main_iteration E u) (centralized_record E u)
    (centralized_request u) main_line.
Proof.
  sampling_step (measure_centralized_download_closed E u)
                (centralized_record_shape E u) main_line.
Qed.

Lemma inner_loop_exact (body : list dict -> Z -> M (list dict))
    (record : nat -> dict) (req : request) (line : Z -> dict -> list message) :
  samples_and_prints body record req line ->
  forall (l : list Z) (acc : list dict) (s : state),
  exists s',
    for_each l acc body s =
      (Ok (acc ++ filter succeeded
                    (map record (seq (List.length (requests s)) (List.length l)))),
       s') /\
    advances s s' (repeat req (List.length l))
      (iteration_lines line record (List.length (requests s)) l).
Proof.
  intros Hbody l. induction l as [|i l IH]; intros acc s.
  - exists s. simpl. rewrite app_nil_r. split; [reflexivity | apply advances_refl].
  - destruct (Hbody acc i s) as (s1 & Hrun & Hp).
    cbv zeta in Hrun, Hp. apply advances_request in Hp.
    cbn [for_each]. rewrite (bind_ok _ _ _ _ _ Hrun).
    destruct (IH (if succeeded (record (List.length (requests s)))
                  then acc ++ [record (List.length (requests s))] else acc) s1)
      as (s2 & Hrest & Hadv).
    exists s2. rewrite Hrest.
    rewrite (advances_length _ _ _ _ Hp) in Hrest, Hadv |- *.
    cbn [List.length] in Hadv |- *. rewrite Nat.add_1_r in Hadv |- *. split.
    + cbn [seq map filter].
      destruct (succeeded (record (List.length (requests s)))).
      * rewrite <- app_assoc. reflexivity.
      * reflexivity.
    + change (repeat req (S (List.length l)))
        with ([req] ++ repeat req (List.length l)).
      cbn [iteration_lines].
      eapply advances_trans; eassumption.
Qed.

Lemma outer_loop_exact (body : string -> list dict -> Z -> M (list dict))
    (record : string -> nat -> dict) (req : string -> request)
    (shown : string -> string) (line : Z -> dict -> list message)
    (iterations : Z) :
  (forall t, samples_and_prints (body t) (record t) (req t) line) ->
  forall (targets : list string) (acc : list dict) (s : state),
  exists s',
    for_each targets acc
      (fun acc t =>
         print (MsgTesting (shown t)) ;;
         for_each (range iterations) acc (body t)) s =
      (Ok (acc ++ filter succeeded
                    (sample_targets record targets (Z.to_nat iterations)
                       (List.length (requests s)))),
       s') /\
    advances s s'
      (flat_map (fun t => repeat (req t) (Z.to_nat iterations)) targets)
      (phase_lines line record shown targets iterations (List.length (requests s))).
Proof.
  intros Hbody targets. induction targets as [|t ts IH]; intros acc s.
  - exists s. simpl. rewrite app_nil_r. split; [reflexivity | apply advances_refl].
  - cbn [for_each]. unfold bind at 1. unfold bind at 1. unfold print at 1.
    destruct (inner_loop_exact _ _ _ _ (Hbody t) (range iterations) acc
                (log_line (MsgTesting (shown t)) s)) as (s1 & Hrun & Hadv).
    rewrite length_range in Hrun, Hadv. cbn [log_line requests] in Hrun, Hadv.
    rewrite Hrun.
    match goal with
    | |- context [for_each ts ?a _ s1] => destruct (IH a s1) as (s2 & Hrest & Hadv2)
    end.
    exists s2. rewrite Hrest.
    rewrite (advances_length _ _ _ _ Hadv), repeat_length in Hrest, Hadv2 |- *.
    cbn [log_line requests] in Hrest, Hadv2 |- *. split.
    + cbn [sample_targets]. rewrite filter_app, app_assoc. reflexivity.
    + cbn [flat_map phase_lines].
      change (MsgTesting (shown t)
              :: iteration_lines line (record t) (List.length (requests s))
                   (range iterations)
              ++ phase_lines line record shown ts iterations
                   (List.length (requests s) + Z.to_nat iterations))
        with (([MsgTesting (shown t)]
               ++ iteration_lines line (record t) (List.length (requests s))
                    (range iterations))
              ++ phase_lines line record shown ts iterations
                   (List.length (requests s) + Z.to_nat iterations)).
      eapply advances_trans; [|exact Hadv2].
      destruct Hadv as (Ar & Af & Ac & Al). unfold advances.
      cbn [log_line requests files charts console] in Ar, Af, Ac, Al.
      rewrite Ar, Af, Ac, Al, <- app_assoc. repeat split.
Qed.

Lemma length_iteration_lines_benchmark (record : nat -> dict) (l : list Z) :
  forall n, List.length (iteration_lines benchmark_line record n l) = List.length l.
Proof.
  induction l as [|i l IH]; intros n; [reflexivity|].
  cbn [iteration_lines]. rewrite length_app, IH. unfold benchmark_line.
  destruct (succeeded (record n)); reflexivity.
Qed.

Lemma length_phase_lines_benchmark (record : string -> nat -> dict)
    (shown : string -> string) (targets : list string) (iterations : Z) :
  forall n,
    List.length (phase_lines benchmark_line record shown targets iterations n)
    = (List.length targets * (1 + Z.to_nat iterations))%nat.
Proof.
  induction targets as [|t ts IH]; intros n; [reflexivity|].
  cbn [phase_lines List.length]. rewrite length_app, IH.
  rewrite length_iteration_lines_benchmark, length_range. lia.
Qed.

Lemma failures_iteration_lines_benchmark (record : nat -> dict) (l : list Z) :
  forall n,
    (List.length (filter is_failure (iteration_lines benchmark_line record n l))
     + List.length (filter succeeded (map record (seq n (List.length l)))))%nat
    = List.length l.
Proof.
  induction l as [|i l IH]; intros n; [reflexivity|].
  specialize (IH (S n)).
  cbn [iteration_lines List.length seq map filter]. rewrite filter_app, length_app.
  unfold benchmark_line at 1.
  destruct (succeeded (record n)); cbn [filter is_failure List.length]; lia.
Qed.

Lemma failures_phase_lines_benchmark (record : string -> nat -> dict)
    (shown : string -> string) (targets : list string) (iterations : Z) :
  forall n,
    (List.length
       (filter is_failure
          (phase_lines benchmark_line record shown targets iterations n))
     + List.length
         (filter succeeded (sample_targets record targets (Z.to_nat iterations) n)))%nat
    = (List.length targets * Z.to_nat iterations)%nat.
Proof.
  induction targets as [|t ts IH]; intros n; [reflexivity|].
  specialize (IH (n + Z.to_nat iterations)%nat).
  pose proof (failures_iteration_lines_benchmark (record t) (range iterations) n) as J.
  rewrite length_range in J.
  cbn [phase_lines sample_targets filter is_failure List.length].
  rewrite !filter_app, !length_app. lia.
Qed.

(** X15.  [run_benchmark] prints, for each target in turn, a heading with
    the target cut to 20 (content id) or 50 (URL) characters and then exactly
    one line per iteration, numbered from 1: the latency and speed of the
    sample when it succeeded, and the sample's error text when it failed.
    The run prints one line per target plus one per sample and nothing
    else, and every dropped sample is on the console: the failure lines and
    the records kept add up to the number of samples taken. *)
Theorem benchmark_console (E : env) (cids urls : list string) (iterations : Z)
    (s : state) :
  let n := List.length (requests s) in
  let k := Z.to_nat iterations in
  exists res s' lines,
    run_benchmark E cids urls iterations s = (Ok res, s') /\
    console s' = console s ++ lines /\
    lines
    = phase_lines benchmark_line (p2p_record E) (substring 0 20) cids iterations n
      ++ phase_lines benchmark_line (centralized_record E) (substring 0 50) urls
           iterations (n + List.length cids * k) /\
    List.length lines = ((List.length cids + List.length urls) * (1 + k))%nat /\
    (List.length (filter is_failure lines)
     + (List.length (p2p_results res) + List.length (centralized_results res)))%nat
    = ((List.length cids + List.length urls) * k)%nat.
Proof.
  intros n k. unfold run_benchmark.
  destruct (outer_loop_exact (p2p_iteration E) (p2p_record E) (p2p_request E)
              (substring 0 20) benchmark_line iterations (p2p_iteration_prints E)
              cids [] s) as (s1 & H1 & X1).
  destruct (outer_loop_exact (centralized_iteration E) (centralized_record E)
              centralized_request (substring 0 50) benchmark_line iterations
              (centralized_iteration_prints E) urls [] s1) as (s2 & H2 & X2).
  cbn [app] in H1, H2.
  rewrite (advances_length _ _ _ _ X1), length_flat_map_repeat in H2, X2.
  fold n in H1, H2, X1, X2. fold k in H2, X2.
  fold (kept_p2p E cids iterations n) in H1.
  fold (kept_centralized E urls iterations (n + List.length cids * k)) in H2.
  set (P := kept_p2p E cids iterations n) in *.
  set (C := kept_centralized E urls iterations (n + List.length cids * k)) in *.
  assert (HP : Forall success_sample P).
  { apply kept_samples, sample_targets_shape. apply p2p_record_shape. }
  assert (HC : Forall success_sample C).
  { apply kept_samples, sample_targets_shape. apply centralized_record_shape. }
  rewrite (bind_ok _ _ _ _ _ H1), (bind_ok _ _ _ _ _ H2).
  rewrite (bind_ok _ _ _ _ _ (latencies_of_closed P s2 HP)).
  rewrite (bind_ok _ _ _ _ _ (latencies_of_closed C s2 HC)).
  rewrite (bind_ok _ _ _ _ _ (summary_step "p2p" P [] s2 eq_refl)).
  simpl app.
  rewrite (bind_ok _ _ _ _ _
             (summary_step "centralized" C (summary_for "p2p" (latencies P)) s2
                ltac:(destruct (latencies P); reflexivity))).
  do 3 eexists. split; [reflexivity|].
  destruct (advances_trans _ _ _ _ _ _ _ X1 X2) as (_ & _ & _ & Hl).
  split; [exact Hl|]. split; [reflexivity|]. split.
  - rewrite length_app, !length_phase_lines_benchmark. lia.
  - cbn [p2p_results centralized_results]. rewrite filter_app, length_app.
    pose proof (failures_phase_lines_benchmark (p2p_record E) (substring 0 20)
                  cids iterations n) as F1.
    pose proof (failures_phase_lines_benchmark (centralized_record E)
                  (substring 0 50) urls iterations (n + List.length cids * k)) as F2.
    subst P C. unfold kept_p2p, kept_centralized. fold k in F1, F2 |- *. lia.
Qed.

(** ** What [main] prints *)

Lemma main_summary_block_prints (C : list dict) (s : state) :
  exists s',
    (if truthy (VList (map (fun r => VFloat (sample_latency r)) C)) then
       xs <- floats (map (fun r => VFloat (sample_latency r)) C) ;;
       avg <- statistics_mean xs ;;
       lo <- min_ xs ;;
       hi <- max_ xs ;;
       let entry := [ ("avg_latency_ms", VFloat (round2 avg));
                      ("min_latency_ms", VFloat (round2 lo));
                      ("max_latency_ms", VFloat (round2 hi)) ] in
       print (MsgSummary (VFloat (round2 avg)) (VFloat (round2 lo))
                (VFloat (round2 hi))) ;;
       ret (dict_set [] "centralized" (VDict entry))
     else ret []) s
    = (Ok (main_summary (latencies C)), s') /\
    prints s s' (summary_line (latencies C)).
Proof.
  destruct C as [|r C].
  - exists s. split; [reflexivity | apply prints_refl].
  - rewrite <- (map_map sample_latency VFloat). fold (latencies (r :: C)).
    change (latencies (r :: C)) with (sample_latency r :: latencies C).
    cbn [map truthy].
    change (VFloat (sample_latency r) :: map VFloat (latencies C))
      with (map VFloat (sample_latency r :: latencies C)).
    rewrite (bind_ok _ _ _ _ _ (floats_closed _ s)).
    eexists. split; [reflexivity|]. apply prints_log_line.
Qed.

Lemma main_body_console (E : env) (s s1 : state) :
  print_network_dashboard E s = (Ok tt, s1) ->
  exists s2,
    main_body E s = (Ok tt, s2) /\
    console s2 = console s1 ++ main_lines E (List.length (requests s1)).
Proof.
  intros Hdash. unfold main_body, main_lines. cbv zeta.
  set (C := kept_centralized E PUBLIC_TEST_URLS 3 (List.length (requests s1))).
  rewrite (bind_ok _ _ _ _ _ Hdash).
  destruct (outer_loop_exact (main_iteration E) (centralized_record E)
              centralized_request (substring 0 50) main_line 3
              (main_iteration_prints E) PUBLIC_TEST_URLS [] s1)
    as (sa & Hloop & (_ & _ & _ & La)).
  cbn [app] in Hloop. fold (kept_centralized E PUBLIC_TEST_URLS 3
                              (List.length (requests s1))) in Hloop.
  fold C in Hloop. rewrite (bind_ok _ _ _ _ _ Hloop).
  assert (HC : Forall success_sample C) by apply kept_centralized_samples.
  rewrite (bind_ok _ _ _ _ _ (latencies_of_closed C sa HC)).
  destruct (main_summary_block_prints C sa) as (sb & Hsumm & (_ & _ & _ & Lb)).
  rewrite (bind_ok _ _ _ _ _ Hsumm).
  fold (main_document E C).
  unfold bind at 1, write_json at 1. unfold bind at 1, print at 1.
  set (sc := log_line (MsgResultsSaved "benchmark_results.json")
               (log_file "benchmark_results.json" (main_document E C) sb)).
  assert (Lc : console sc
               = console s1
                 ++ phase_lines main_line (centralized_record E) (substring 0 50)
                      PUBLIC_TEST_URLS 3 (List.length (requests s1))
                 ++ summary_line (latencies C)
                 ++ [MsgResultsSaved "benchmark_results.json"]).
  { subst sc. cbn [log_line log_file console]. rewrite Lb, La, <- !app_assoc.
    reflexivity. }
  unfold chart_lines.
  destruct (latencies C) as [|x xs] eqn:HD.
  - assert (HCnil : nonempty C = false)
      by (destruct C; [reflexivity | discriminate HD]).
    rewrite HCnil, andb_false_r.
    exists sc. split; [reflexivity|]. rewrite Lc, app_nil_r. reflexivity.
  - assert (HCne : nonempty C = true) by (destruct C; [discriminate HD | reflexivity]).
    rewrite HCne, andb_true_r.
    destruct (HAS_MATPLOTLIB E) eqn:Hplot.
    + unfold main_document at 1. rewrite HD. cbn [timestamp].
      erewrite bind_ok; [|reflexivity].
      rewrite (bind_ok _ _ _ _ _ (mock_p2p_summary_closed x xs _)).
      rewrite (bind_ok _ _ _ _ _ (mock_p2p_results_closed x xs _)).
      rewrite (generate_comparison_graph_mock E C x xs _ _ Hplot HC HD).
      eexists. split; [reflexivity|].
      cbn [log_line log_chart console]. rewrite Lc, <- !app_assoc. reflexivity.
    + exists sc. split; [reflexivity|]. rewrite Lc, app_nil_r. reflexivity.
Qed.

Lemma iteration_lines_main (record : nat -> dict) (l : list Z) :
  forall n,
    filter is_failure (iteration_lines main_line record n l) = [] /\
    List.length (filter is_iteration (iteration_lines main_line record n l))
    = List.length (filter succeeded (map record (seq n (List.length l)))).
Proof.
  induction l as [|i l IH]; intros n; [split; reflexivity|].
  destruct (IH (S n)) as [Hf Hi].
  cbn [iteration_lines List.length seq map filter]. rewrite !filter_app, Hf, length_app, Hi.
  unfold main_line. destruct (succeeded (record n)); split; reflexivity.
Qed.

Lemma phase_lines_main (record : string -> nat -> dict) (shown : string -> string)
    (targets : list string) (iterations : Z) :
  forall n,
    filter is_failure (phase_lines main_line record shown targets iterations n) = [] /\
    List.length
      (filter is_iteration (phase_lines main_line record shown targets iterations n))
    = List.length
        (filter succeeded (sample_targets record targets (Z.to_nat iterations) n)).
Proof.
  induction targets as [|t ts IH]; intros n; [split; reflexivity|].
  destruct (IH (n + Z.to_nat iterations)%nat) as [Hf Hi].
  destruct (iteration_lines_main (record t) (range iterations) n) as [Jf Ji].
  rewrite length_range in Ji.
  cbn [phase_lines sample_targets filter is_failure is_iteration].
  rewrite !filter_app, Hf, Jf, !length_app, Hi, Ji. split; reflexivity.
Qed.

Lemma summary_line_length (D : list Q) :
  filter is_failure (summary_line D) = [] /\
  filter is_iteration (summary_line D) = [].
Proof. destruct D; split; reflexivity. Qed.

Lemma chart_lines_length (E : env) (D : list Q) :
  filter is_failure (chart_lines E D) = [] /\
  filter is_iteration (chart_lines E D) = [].
Proof. unfold chart_lines. destruct D; [|destruct (HAS_MATPLOTLIB E)]; split; reflexivity. Qed.

(** X16.  Once the health probe is answered and the dashboard is through,
    [main] prints: per test URL a heading and one latency line for each
    download that succeeded, then the summary if any succeeded, the notice of
    the saved file, and the two chart lines when a chart is drawn.  Unlike
    [run_benchmark], it reports no failed download: there is no failure line,
    and the latency lines are exactly as many as the samples kept. *)
Theorem main_console (E : env) (s s1 : state) (r : response) :
  requests_get_reply E (List.length (requests s)) = Responded r ->
  print_network_dashboard E (past_gate E r s) = (Ok tt, s1) ->
  exists s2 lines,
    main E s = (Ok tt, s2) /\
    console s2 = console s1 ++ lines /\
    lines = main_lines E (List.length (requests s1)) /\
    (forall i err, ~ In (MsgIterationFailed i err) lines) /\
    List.length (filter is_iteration lines)
    = List.length (kept_centralized E PUBLIC_TEST_URLS 3 (List.length (requests s1))).
Proof.
  intros Hr Hdash. rewrite (main_responded E s r Hr).
  destruct (main_body_console E _ s1 Hdash) as (s2 & Hbody & Hl).
  exists s2, (main_lines E (List.length (requests s1))).
  split; [exact Hbody|]. split; [exact Hl|]. split; [reflexivity|].
  unfold main_lines. cbv zeta.
  set (D := latencies _).
  destruct (phase_lines_main (centralized_record E) (substring 0 50)
              PUBLIC_TEST_URLS 3 (List.length (requests s1))) as [Pf Pi].
  destruct (summary_line_length D) as [Sf Si].
  destruct (chart_lines_length E D) as [Cf Ci].
  split.
  - intros i err Hin.
    assert (Hin' : In (MsgIterationFailed i err)
                     (filter is_failure
                        (phase_lines main_line (centralized_record E) (substring 0 50)
                           PUBLIC_TEST_URLS 3 (List.length (requests s1))
                         ++ summary_line D
                         ++ [MsgResultsSaved "benchmark_results.json"]
                         ++ chart_lines E D)))
      by (apply filter_In; split; [exact Hin | reflexivity]).
    rewrite !filter_app, Pf, Sf, Cf in Hin'. exact Hin'.
  - rewrite !filter_app, !length_app, Pi, Si, Ci. cbn [filter is_iteration List.length].
    unfold kept_centralized. lia.
Qed.

Lemma main_console_witness :
  exists s1 s2 lines,
    requests_get_reply steady_world 0 = page /\
    print_network_dashboard steady_world (at_dashboard steady_world) = (Ok tt, s1) /\
    main steady_world initial_state = (Ok tt, s2) /\
    console s2 = console s1 ++ lines /\
    List.length (filter is_iteration lines) = 6%nat.
Proof.
  eexists.
  assert (Hdash : print_network_dashboard steady_world (at_dashboard steady_world)
                  = (Ok tt, _)) by (vm_compute; reflexivity).
  destruct (main_console steady_world initial_state _
              (body_response 200 "hello" not_json) eq_refl Hdash)
    as (s2 & lines & Hmain & Hc & _ & _ & Hn).
  exists s2, lines.
  split; [reflexivity|]. split; [exact Hdash|]. split; [exact Hmain|].
  split; [exact Hc | exact Hn].
Defined.
